(** * A fluent query builder over two backends: model and properties

    The development follows the three source files of the package:

    - [lib/queryBuilder.js]   — class [QueryBuilder]   (module [QueryBuilder] below),
    - [lib/adapters/knexAdapter.js]  — class [KnexAdapter]  (module [KnexAdapter]),
    - [lib/adapters/mongoAdapter.js] — class [MongoAdapter] (module [MongoAdapter]).

    JavaScript values, objects and completions are modelled in module [Js];
    everything the package calls but does not define (the relational client,
    the document store, a few built-ins of the runtime) is gathered in the
    record [World].  A method is a function of the arguments of the call
    and of the builder; a synchronous method gives a [Completion], an
    [async] method the state it leaves the builder in and an [Outcome].

    Scope of the model: objects are represented by their own enumerable
    properties, in enumeration order; of the prototype chain only what the
    code can observe is kept, namely that ordinary objects inherit the
    properties of [Object.prototype], among them the accessor [__proto__].
    Calls on one builder are awaited one after the other. *)

From Stdlib Require Import String Ascii List ZArith Bool Lia DecimalString.
Import ListNotations.
Open Scope string_scope.
Open Scope list_scope.

Set Warnings "-register-all".

(* ================================================================== *)
(** ** JavaScript values *)
(* ================================================================== *)

Module Js.

(** The values that travel through the builder: what a caller can pass as
    data (undefined, null, booleans, numbers, strings, arrays, plain
    objects) and the [RegExp] objects the document adapter creates.
    Numbers are the integer-valued ones.  A plain object is the list of
    its own enumerable properties in the order [Object.keys] reports
    them; its prototype is [Object.prototype]. *)
Inductive Value : Type :=
| VUndefined
| VNull
| VBool (b : bool)
| VNum (z : Z)
| VStr (s : string)
| VArr (xs : list Value)
| VObj (props : list (string * Value))
| VRegExp (source flags : string).

Definition Props : Type := list (string * Value).

(** Thrown values are [Error] objects: constructor name and message. *)
Record Error : Type := mkError { err_name : string; err_message : string }.

Definition TypeError (msg : string) : Error := mkError "TypeError" msg.
Definition SyntaxError (msg : string) : Error := mkError "SyntaxError" msg.
Definition PlainError (msg : string) : Error := mkError "Error" msg.

(** Outcome of a synchronous evaluation: a value, or an exception. *)
Inductive Completion (A : Type) : Type :=
| Return (a : A)
| Throw (e : Error).
Arguments Return {A} a.
Arguments Throw {A} e.

Definition bind {A B} (c : Completion A) (k : A -> Completion B)
  : Completion B :=
  match c with
  | Return a => k a
  | Throw e => Throw e
  end.

(** Outcome of an awaited promise. *)
Inductive Outcome : Type :=
| Resolved (v : Value)
| Rejected (e : Error).

(** An [async] function turns an exception of its body into a rejection. *)
Definition settle (c : Completion Value) : Outcome :=
  match c with
  | Return v => Resolved v
  | Throw e => Rejected e
  end.

(** [typeof v]. *)
Definition typeof (v : Value) : string :=
  match v with
  | VUndefined => "undefined"
  | VBool _ => "boolean"
  | VNum _ => "number"
  | VStr _ => "string"
  | VNull | VArr _ | VObj _ | VRegExp _ _ => "object"
  end.

(** [ToBoolean]: what [||], [!] and [if] look at. *)
Definition truthy (v : Value) : bool :=
  match v with
  | VUndefined | VNull => false
  | VBool b => b
  | VNum z => negb (z =? 0)%Z
  | VStr s => negb (s =? "")
  | VArr _ | VObj _ | VRegExp _ _ => true
  end.

(** [a || b]. *)
Definition or_else (a b : Value) : Value := if truthy a then a else b.

(** [v === undefined] and [v !== null]. *)
Definition is_undefined (v : Value) : bool :=
  match v with VUndefined => true | _ => false end.

Definition is_null (v : Value) : bool :=
  match v with VNull => true | _ => false end.

(** [v === s] for a string literal [s]: strict equality, no coercion. *)
Definition is_string (s : string) (v : Value) : bool :=
  match v with VStr t => t =? s | _ => false end.

(** Positional parameter [i] of a call: [undefined] when not supplied. *)
Definition arg (i : nat) (args : list Value) : Value := nth i args VUndefined.

(** The text of an integer-valued number: its decimal digits, as
    [Number.prototype.toString] gives them below 10^21. *)
Definition number_to_string (z : Z) : string :=
  NilEmpty.string_of_int (Z.to_int z).

Definition index_to_string (n : nat) : string :=
  NilEmpty.string_of_uint (Nat.to_uint n).

(** Own property lookup in a property list. *)
Fixpoint own_get (k : string) (ps : Props) : option Value :=
  match ps with
  | [] => None
  | (k', v) :: rest => if k' =? k then Some v else own_get k rest
  end.

Definition has_own (k : string) (ps : Props) : bool :=
  match own_get k ps with Some _ => true | None => false end.

(** [ToString], as used by [ToPropertyKey] when a value is used as a
    property name.  A plain object goes through [Object.prototype.toString]
    unless it has an own [toString] entry: that entry is data, not a
    function, so the conversion then fails.  An array joins its elements
    with commas, [null] and [undefined] elements giving the empty text. *)
Fixpoint ToString (v : Value) : Completion string :=
  match v with
  | VUndefined => Return "undefined"
  | VNull => Return "null"
  | VBool true => Return "true"
  | VBool false => Return "false"
  | VNum z => Return (number_to_string z)
  | VStr s => Return s
  | VArr xs =>
      (fix join (l : list Value) : Completion string :=
         match l with
         | [] => Return ""
         | x :: rest =>
             bind (match x with
                   | VUndefined | VNull => Return ""
                   | _ => ToString x
                   end)
                  (fun s =>
                     match rest with
                     | [] => Return s
                     | _ :: _ => bind (join rest)
                                   (fun t => Return (s ++ "," ++ t)%string)
                     end)
         end) xs
  | VObj ps =>
      if has_own "toString" ps
      then Throw (TypeError "Cannot convert object to primitive value")
      else Return "[object Object]"
  | VRegExp src flags => Return ("/" ++ src ++ "/" ++ flags)%string
  end.

Definition ToPropertyKey : Value -> Completion string := ToString.

(** *** Property order of ordinary objects

    [Object.keys] lists array indices first, in ascending order, then the
    other names in creation order.  An array index is the canonical
    decimal text of an integer below 2^32 - 1. *)
Definition array_index (k : string) : option N :=
  match NilEmpty.uint_of_string k with
  | None => None
  | Some u =>
      let n := N.of_uint u in
      if (NilEmpty.string_of_uint (N.to_uint n) =? k) && (n <? 4294967295)%N
      then Some n
      else None
  end.

(** Overwrite the value of an existing own property, keeping its place. *)
Fixpoint own_replace (k : string) (v : Value) (ps : Props) : Props :=
  match ps with
  | [] => []
  | (k', v') :: rest =>
      if k' =? k then (k', v) :: rest else (k', v') :: own_replace k v rest
  end.

(** Place a new array-index property among the indices. *)
Fixpoint insert_index (n : N) (k : string) (v : Value) (ps : Props) : Props :=
  match ps with
  | [] => [(k, v)]
  | (k', v') :: rest =>
      match array_index k' with
      | Some m =>
          if (m <? n)%N then (k', v') :: insert_index n k v rest
          else (k, v) :: ps
      | None => (k, v) :: ps
      end
  end.

(** [CreateDataProperty]: what an object literal with a computed key and
    the spread syntax do. *)
Definition obj_define (k : string) (v : Value) (ps : Props) : Props :=
  if has_own k ps then own_replace k v ps
  else match array_index k with
       | Some n => insert_index n k v ps
       | None => ps ++ [(k, v)]
       end.

(** [o[k] = v] on an ordinary object.  The name [__proto__] is not stored
    unless the object already owns it: the assignment reaches the accessor
    inherited from [Object.prototype], which changes the prototype (or does
    nothing) and leaves the own properties as they were. *)
Definition obj_set (k : string) (v : Value) (ps : Props) : Props :=
  if has_own k ps then own_replace k v ps
  else if k =? "__proto__" then ps
  else obj_define k v ps.

(** [Object.keys(v)] for a value with [typeof v === 'object']. *)
Definition Object_keys (v : Value) : Completion (list string) :=
  match v with
  | VNull | VUndefined =>
      Throw (TypeError "Cannot convert undefined or null to object")
  | VObj ps => Return (map fst ps)
  | VArr xs => Return (map index_to_string (seq 0 (length xs)))
  | VStr s => Return (map index_to_string (seq 0 (String.length s)))
  | VBool _ | VNum _ | VRegExp _ _ => Return []
  end.

(** [v[k]] for [k] taken from [Object.keys(v)]. *)
Definition get_own_key (v : Value) (k : string) : Value :=
  match v with
  | VObj ps => match own_get k ps with Some x => x | None => VUndefined end
  | VArr xs =>
      match array_index k with
      | Some n => nth (N.to_nat n) xs VUndefined
      | None => VUndefined
      end
  | VStr s =>
      match array_index k with
      | Some n =>
          match String.get (N.to_nat n) s with
          | Some c => VStr (String c "")
          | None => VUndefined
          end
      | None => VUndefined
      end
  | _ => VUndefined
  end.

(** [v.name] for a name that no built-in prototype defines ([count],
    [ops], [insertedId], [modifiedCount], [deletedCount], [dbEngine]). *)
Definition get_field (v : Value) (name : string) : Completion Value :=
  match v with
  | VUndefined | VNull =>
      Throw (TypeError ("Cannot read properties of undefined or null (reading '"
                        ++ name ++ "')")%string)
  | VObj ps =>
      Return (match own_get name ps with Some x => x | None => VUndefined end)
  | _ => Return VUndefined
  end.

(** [v[0]]. *)
Definition get_first (v : Value) : Completion Value :=
  match v with
  | VUndefined | VNull =>
      Throw (TypeError "Cannot read properties of undefined or null (reading '0')")
  | VArr xs => Return (nth 0 xs VUndefined)
  | VObj ps =>
      Return (match own_get "0" ps with Some x => x | None => VUndefined end)
  | VStr (String c _) => Return (VStr (String c ""))
  | _ => Return VUndefined
  end.

(** [Array.prototype.flat()], depth one. *)
Definition flat (xs : list Value) : list Value :=
  flat_map (fun x => match x with VArr ys => ys | _ => [x] end) xs.

(** [s.replace(/%/g, '.*')]. *)
Fixpoint replace_percent (s : string) : string :=
  match s with
  | EmptyString => EmptyString
  | String c rest =>
      if Ascii.eqb c "%"%char then (".*" ++ replace_percent rest)%string
      else String c (replace_percent rest)
  end.

End Js.

Import Js.

Notation "x <- c ;; k" := (Js.bind c (fun x => k))
  (at level 61, c at next level, right associativity).

(* ================================================================== *)
(** ** The state of a builder and the calls made on the clients *)
(* ================================================================== *)

(** One entry of [this.conditions]: the three properties are stored as they
    were passed, without any check. *)
Record Condition : Type := mkCondition {
  field : Value;
  operator : Value;
  value : Value
}.

(** [this.adapter].  The relational adapter keeps the tag it was given and
    the client it picked from [fastify.knex], named by its binding. *)
Inductive Adapter : Type :=
| MongoAdapter
| KnexAdapter (engine : Value) (binding : string).

(** The fields the constructor of [QueryBuilder] initialises. *)
Record Builder : Type := mkBuilder {
  options : Value;
  table : Value;
  collection : Value;
  conditions : list Condition;
  fields : list Value;
  sorts : Props;
  limitValue : Value;
  skipValue : Value;
  adapter : Adapter;
  dbEngine : Value
}.

Definition set_target (name : Value) (b : Builder) : Builder :=
  mkBuilder (options b) name name (conditions b) (fields b) (sorts b)
            (limitValue b) (skipValue b) (adapter b) (dbEngine b).

Definition push_condition (c : Condition) (b : Builder) : Builder :=
  mkBuilder (options b) (table b) (collection b) (conditions b ++ [c])
            (fields b) (sorts b) (limitValue b) (skipValue b) (adapter b)
            (dbEngine b).

Definition set_fields (fs : list Value) (b : Builder) : Builder :=
  mkBuilder (options b) (table b) (collection b) (conditions b) fs (sorts b)
            (limitValue b) (skipValue b) (adapter b) (dbEngine b).

Definition set_sorts (s : Props) (b : Builder) : Builder :=
  mkBuilder (options b) (table b) (collection b) (conditions b) (fields b) s
            (limitValue b) (skipValue b) (adapter b) (dbEngine b).

Definition set_limitValue (n : Value) (b : Builder) : Builder :=
  mkBuilder (options b) (table b) (collection b) (conditions b) (fields b)
            (sorts b) n (skipValue b) (adapter b) (dbEngine b).

Definition set_skipValue (n : Value) (b : Builder) : Builder :=
  mkBuilder (options b) (table b) (collection b) (conditions b) (fields b)
            (sorts b) (limitValue b) n (adapter b) (dbEngine b).

(** A method call on a knex query object.  The adapter only ever chains
    such calls, so the statement it builds is the table it started from and
    the calls it made, in order. *)
Inductive KnexCall : Type :=
| K_whereIn (column values : Value)
| K_whereNotIn (column values : Value)
| K_where (column op operand : Value)
| K_select (columns : list Value)
| K_orderBy (column direction : Value)
| K_limit (n : Value)
| K_offset (n : Value)
| K_insert (data : Value)
| K_returning (columns : Value)
| K_update (data : Value)
| K_delete
| K_count (spec : Value).

Record KnexQuery : Type := mkQuery {
  q_table : Value;
  q_calls : list KnexCall
}.

Definition chain (q : KnexQuery) (c : KnexCall) : KnexQuery :=
  mkQuery (q_table q) (q_calls q ++ [c]).

(** What the package uses and does not define. *)
Record World : Type := mkWorld {
  (** [process.env.DB_ENGINE] and [process.env.DB_DECORATOR] *)
  env_DB_ENGINE : option string;
  env_DB_DECORATOR : option string;
  (** [fastify.knex && fastify.knex[name]] is truthy *)
  fastify_knex : string -> bool;
  (** [fastify.mongoose] is truthy *)
  fastify_mongoose : bool;
  (** [new RegExp(pattern, 'i')] accepts the pattern *)
  regexp_accepts : string -> bool;
  (** [String.prototype.toLowerCase] and [parseInt(_, 10)] *)
  toLowerCase : string -> string;
  parseInt10 : Value -> Value;
  (** awaiting a query of the client bound under a name, and its
      [toString()] *)
  knex_await : string -> KnexQuery -> Outcome;
  knex_toString : string -> KnexQuery -> Completion Value;
  (** [mongoose.connection.db.collection(name)], and the operations of the
      collection it returns: collection name, then the arguments *)
  db_collection : Value -> Completion unit;
  find_toArray : Value -> Props -> Props -> Outcome;
  insertMany : Value -> Value -> Outcome;
  insertOne : Value -> Value -> Outcome;
  updateMany : Value -> Props -> Props -> Outcome;
  deleteMany : Value -> Props -> Outcome;
  countDocuments : Value -> Props -> Outcome
}.

Definition env_value (x : option string) : Value :=
  match x with Some s => VStr s | None => VUndefined end.

(** [process.env.DB_DECORATOR || 'db'] *)
Definition decorator (W : World) : string :=
  match env_DB_DECORATOR W with
  | Some s => if s =? "" then "db" else s
  | None => "db"
  end.

(** Continue an [async] body after an [await]. *)
Definition and_then (o : Outcome) (k : Value -> Completion Value) : Outcome :=
  match o with
  | Resolved v => settle (k v)
  | Rejected e => Rejected e
  end.

(* ================================================================== *)
(** ** lib/adapters/knexAdapter.js *)
(* ================================================================== *)

Module KnexAdapter.

(** [constructor(fastify, dbEngine)] *)
Definition new (W : World) (engine : Value) : Completion Adapter :=
  let engine := or_else engine (VStr "pg") in
  if negb (fastify_knex W (decorator W))
  then Throw (PlainError "Knex instance tidak ditemukan di fastify")
  else Return (KnexAdapter engine (decorator W)).

(** The [switch (operator)] of [_buildQuery]. *)
Definition condition_call (c : Condition) : KnexCall :=
  if is_string "in" (operator c) then K_whereIn (field c) (value c)
  else if is_string "not in" (operator c) then K_whereNotIn (field c) (value c)
  else if is_string "like" (operator c) then K_where (field c) (VStr "like") (value c)
  else K_where (field c) (operator c) (value c).

Definition sort_call (s : Props) (k : string) : KnexCall :=
  K_orderBy (VStr k) (get_own_key (VObj s) k).

(** [_buildQuery(builder)] *)
Definition _buildQuery (b : Builder) : KnexQuery :=
  let query := mkQuery (table b) [] in
  let query :=
    if (0 <? length (conditions b))%nat
    then fold_left (fun q c => chain q (condition_call c)) (conditions b) query
    else query in
  let query :=
    if (0 <? length (fields b))%nat
    then chain query (K_select (fields b))
    else query in
  let query :=
    if (0 <? length (map fst (sorts b)))%nat
    then fold_left (fun q k => chain q (sort_call (sorts b) k))
                   (map fst (sorts b)) query
    else query in
  let query :=
    if negb (is_null (limitValue b))
    then chain query (K_limit (limitValue b))
    else query in
  let query :=
    if negb (is_null (skipValue b))
    then chain query (K_offset (skipValue b))
    else query in
  query.

(** [get(builder)] *)
Definition get (W : World) (knex : string) (b : Builder) : Outcome :=
  knex_await W knex (_buildQuery b).

(** [insert(builder, data)]: both branches of the [Array.isArray] test make
    the same calls. *)
Definition insert (W : World) (knex : string) (b : Builder) (data : Value)
  : Outcome :=
  let query := mkQuery (table b) [] in
  knex_await W knex (chain (chain query (K_insert data)) (K_returning (VStr "*"))).

(** [update(builder, data)] *)
Definition update (W : World) (knex : string) (b : Builder) (data : Value)
  : Outcome :=
  knex_await W knex (chain (_buildQuery b) (K_update data)).

(** [delete(builder)] *)
Definition delete (W : World) (knex : string) (b : Builder) : Outcome :=
  knex_await W knex (chain (_buildQuery b) K_delete).

(** [count(builder, field)] *)
Definition count (W : World) (knex : string) (b : Builder) (fld : Value)
  : Outcome :=
  let query := _buildQuery b in
  and_then (knex_await W knex (chain query (K_count (VObj [("count", fld)]))))
    (fun result =>
       row <- get_first result ;;
       n <- get_field row "count" ;;
       Return (parseInt10 W n)).

End KnexAdapter.

(* ================================================================== *)
(** ** lib/adapters/mongoAdapter.js *)
(* ================================================================== *)

Module MongoAdapter.

(** [constructor(fastify)] *)
Definition new (W : World) : Completion Adapter :=
  if negb (fastify_mongoose W)
  then Throw (PlainError "Mongoose instance tidak ditemukan di fastify")
  else Return MongoAdapter.

(** The own entries of the literal [operatorMap]. *)
Definition operatorMap : list (string * string) :=
  [ ("=", "$eq"); ("!=", "$ne"); ("<>", "$ne"); (">", "$gt"); (">=", "$gte");
    ("<", "$lt"); ("<=", "$lte"); ("like", "$regex"); ("in", "$in");
    ("not in", "$nin") ].

Fixpoint lookup (k : string) (m : list (string * string)) : option string :=
  match m with
  | [] => None
  | (k', v) :: rest => if k' =? k then Some v else lookup k rest
  end.

(** What a read [operatorMap[k]] finds when [k] is not an own entry: the
    literal is an ordinary object, so the read goes on to [Object.prototype],
    whose properties are functions, and the accessor [__proto__], which
    gives [Object.prototype] itself. *)
Inductive Inherited : Type :=
| NativeFunction (name : string)
| ObjectPrototype.

Definition Object_prototype (k : string) : option Inherited :=
  if k =? "constructor" then Some (NativeFunction "Object")
  else if existsb (String.eqb k)
            [ "hasOwnProperty"; "isPrototypeOf"; "propertyIsEnumerable";
              "toLocaleString"; "toString"; "valueOf"; "__defineGetter__";
              "__defineSetter__"; "__lookupGetter__"; "__lookupSetter__" ]
  then Some (NativeFunction k)
  else if k =? "__proto__" then Some ObjectPrototype
  else None.

(** The result of [_convertOperator]: one of the texts of the table, or
    what the read inherited. *)
Inductive MongoOperator : Type :=
| Op (name : string)
| OpInherited (what : Inherited).

(** [_convertOperator(operator)]: [operatorMap[operator] || '$eq'].  Every
    own entry and every inherited value is truthy. *)
Definition _convertOperator (op : Value) : Completion MongoOperator :=
  k <- ToPropertyKey op ;;
  match lookup k operatorMap with
  | Some name => Return (Op name)
  | None =>
      match Object_prototype k with
      | Some what => Return (OpInherited what)
      | None => Return (Op "$eq")
      end
  end.

(** The name a computed key [[mongoOperator]] gets. *)
Definition operator_key (m : MongoOperator) : string :=
  match m with
  | Op name => name
  | OpInherited (NativeFunction name) =>
      ("function " ++ name ++ "() { [native code] }")%string
  | OpInherited ObjectPrototype => "[object Object]"
  end.

(** [mongoOperator === name] *)
Definition is_op (name : string) (m : MongoOperator) : bool :=
  match m with
  | Op n => n =? name
  | OpInherited _ => false
  end.

(** [new RegExp(pattern, 'i')].  The message of the runtime's
    [SyntaxError] goes on with the reason of the refusal; its beginning is
    kept here. *)
Definition new_RegExp (W : World) (pattern : string) : Completion Value :=
  if regexp_accepts W pattern then Return (VRegExp pattern "i")
  else Throw (SyntaxError ("Invalid regular expression: /" ++ pattern ++ "/i")%string).

(** The object stored under the field: [{ [mongoOperator]: ... }]. *)
Definition clause (W : World) (c : Condition) : Completion Value :=
  mongoOperator <- _convertOperator (operator c) ;;
  if is_op "$regex" mongoOperator && (typeof (value c) =? "string")
  then
    match value c with
    | VStr s =>
        re <- new_RegExp W (replace_percent s) ;;
        Return (VObj [(operator_key mongoOperator, re)])
    | v => Return (VObj [(operator_key mongoOperator, v)])
    end
  else Return (VObj [(operator_key mongoOperator, value c)]).

(** One round of the [forEach] of [_buildFilter]: [filter[field] = ...]. *)
Definition filter_step (W : World) (filter : Props) (c : Condition)
  : Completion Props :=
  cl <- clause W c ;;
  k <- ToPropertyKey (field c) ;;
  Return (obj_set k cl filter).

Fixpoint filter_from (W : World) (filter : Props) (cs : list Condition)
  : Completion Props :=
  match cs with
  | [] => Return filter
  | c :: rest => f <- filter_step W filter c ;; filter_from W f rest
  end.

(** [_buildFilter(conditions)] *)
Definition _buildFilter (W : World) (cs : list Condition) : Completion Props :=
  filter_from W [] cs.

(** The condition assigns to the property [k] of the filter. *)
Definition names_field (k : string) (c : Condition) : bool :=
  match ToPropertyKey (field c) with
  | Return k' => k' =? k
  | Throw _ => false
  end.

(** The clause of the last condition of a list that names [k], if any. *)
Fixpoint last_clause (W : World) (k : string) (cs : list Condition)
  : option Value :=
  match cs with
  | [] => None
  | c :: rest =>
      match last_clause W k rest with
      | Some cl => Some cl
      | None =>
          if names_field k c then
            match clause W c with
            | Return cl => Some cl
            | Throw _ => None
            end
          else None
      end
  end.

(** The two [forEach] loops of [_buildOptions]. *)
Fixpoint projection_from (acc : Props) (fs : list Value) : Completion Props :=
  match fs with
  | [] => Return acc
  | f :: rest =>
      k <- ToPropertyKey f ;; projection_from (obj_set k (VNum 1) acc) rest
  end.

Definition sort_code (s : Props) (k : string) : Value :=
  if is_string "asc" (get_own_key (VObj s) k) then VNum 1 else VNum (-1).

Definition sort_from (s : Props) : Props :=
  fold_left (fun acc k => obj_set k (sort_code s k) acc) (map fst s) [].

(** [_buildOptions(builder)] *)
Definition _buildOptions (b : Builder) : Completion Props :=
  let opts : Props := [] in
  opts <- (if (0 <? length (fields b))%nat
           then p <- projection_from [] (fields b) ;;
                Return (obj_set "projection" (VObj p) opts)
           else Return opts) ;;
  let opts :=
    if (0 <? length (map fst (sorts b)))%nat
    then obj_set "sort" (VObj (sort_from (sorts b))) opts
    else opts in
  let opts :=
    if negb (is_null (limitValue b))
    then obj_set "limit" (limitValue b) opts
    else opts in
  let opts :=
    if negb (is_null (skipValue b))
    then obj_set "skip" (skipValue b) opts
    else opts in
  Return opts.

(** [_getCollection(collectionName)] *)
Definition _getCollection (W : World) (name : Value) : Completion Value :=
  _ <- db_collection W name ;; Return name.

(** Run the synchronous part of an [async] body, then the awaited call. *)
Definition start (c : Completion Outcome) : Outcome :=
  match c with
  | Return o => o
  | Throw e => Rejected e
  end.

(** [get(builder)] *)
Definition get (W : World) (b : Builder) : Outcome :=
  start (coll <- _getCollection W (collection b) ;;
         filter <- _buildFilter W (conditions b) ;;
         opts <- _buildOptions b ;;
         Return (find_toArray W coll filter opts)).

(** [Array.isArray(data)] *)
Definition isArray (v : Value) : bool :=
  match v with VArr _ => true | _ => false end.

(** The own enumerable properties a spread [{...data}] copies. *)
Definition spread (data : Value) : Props :=
  match Object_keys data with
  | Return ks =>
      fold_left (fun acc k => obj_define k (get_own_key data k) acc) ks []
  | Throw _ => []
  end.

(** [insert(builder, data)] *)
Definition insert (W : World) (b : Builder) (data : Value) : Outcome :=
  start (coll <- _getCollection W (collection b) ;;
         Return
           (if isArray data
            then and_then (insertMany W coll data)
                   (fun result =>
                      ops <- get_field result "ops" ;;
                      Return (or_else ops data))
            else and_then (insertOne W coll data)
                   (fun result =>
                      ops <- get_field result "ops" ;;
                      first_op <- (if is_null ops || is_undefined ops
                                   then Return VUndefined
                                   else get_first ops) ;;
                      if truthy first_op then Return first_op
                      else
                        id <- get_field result "insertedId" ;;
                        Return (VObj (obj_define "_id" id (spread data)))))).

(** [update(builder, data)] *)
Definition update (W : World) (b : Builder) (data : Value) : Outcome :=
  start (coll <- _getCollection W (collection b) ;;
         filter <- _buildFilter W (conditions b) ;;
         Return
           (and_then (updateMany W coll filter [("$set", data)])
              (fun result =>
                 n <- get_field result "modifiedCount" ;;
                 Return (or_else n (VNum 0))))).

(** [delete(builder)] *)
Definition delete (W : World) (b : Builder) : Outcome :=
  start (coll <- _getCollection W (collection b) ;;
         filter <- _buildFilter W (conditions b) ;;
         Return
           (and_then (deleteMany W coll filter)
              (fun result =>
                 n <- get_field result "deletedCount" ;;
                 Return (or_else n (VNum 0))))).

(** [count(builder)]: the method declares one parameter, a second argument
    of a call is dropped. *)
Definition count (W : World) (b : Builder) : Outcome :=
  start (coll <- _getCollection W (collection b) ;;
         filter <- _buildFilter W (conditions b) ;;
         Return (countDocuments W coll filter)).

End MongoAdapter.

(* ================================================================== *)
(** ** lib/queryBuilder.js *)
(* ================================================================== *)

Module QueryBuilder.

(** [_initAdapter()] *)
Definition _initAdapter (W : World) (engine : Value) : Completion Adapter :=
  if is_string "mongodb" engine || is_string "mongo" engine
  then MongoAdapter.new W
  else KnexAdapter.new W engine.

(** The tag the constructor stores:
    [options.dbEngine || process.env.DB_ENGINE || 'pg']. *)
Definition effective_engine (W : World) (requested : Value) : Value :=
  or_else (or_else requested (env_value (env_DB_ENGINE W))) (VStr "pg").

(** [constructor(fastify, options = {})] *)
Definition new (W : World) (opts : Value) : Completion Builder :=
  let opts := if is_undefined opts then VObj [] else opts in
  requested <- get_field opts "dbEngine" ;;
  let engine := effective_engine W requested in
  a <- _initAdapter W engine ;;
  Return (mkBuilder opts VNull VNull [] [] [] VNull VNull a engine).

(** [from(tableName)] *)
Definition from (args : list Value) (b : Builder) : Completion Builder :=
  Return (set_target (arg 0 args) b).

(** The conditions the first branch of [where] pushes, one per key. *)
Definition equalities (obj : Value) (keys : list string) : list Condition :=
  map (fun key => mkCondition (VStr key) (VStr "=") (get_own_key obj key)) keys.

Definition push_conditions (cs : list Condition) (b : Builder) : Builder :=
  fold_left (fun b c => push_condition c b) cs b.

(** [where(field, operator, value)] *)
Definition where_ (args : list Value) (b : Builder) : Completion Builder :=
  let fld := arg 0 args in
  let op := arg 1 args in
  let val := arg 2 args in
  if typeof fld =? "object" then
    keys <- Object_keys fld ;;
    Return (push_conditions (equalities fld keys) b)
  else if is_undefined val then
    Return (push_condition (mkCondition fld (VStr "=") op) b)
  else
    Return (push_condition (mkCondition fld op val) b).

(** [whereIn(field, values)] *)
Definition whereIn (args : list Value) (b : Builder) : Completion Builder :=
  Return (push_condition (mkCondition (arg 0 args) (VStr "in") (arg 1 args)) b).

(** [whereNotIn(field, values)] *)
Definition whereNotIn (args : list Value) (b : Builder) : Completion Builder :=
  Return (push_condition (mkCondition (arg 0 args) (VStr "not in") (arg 1 args)) b).

(** [whereLike(field, value)] *)
Definition whereLike (args : list Value) (b : Builder) : Completion Builder :=
  Return (push_condition (mkCondition (arg 0 args) (VStr "like") (arg 1 args)) b).

(** [select(...fields)] *)
Definition select (args : list Value) (b : Builder) : Completion Builder :=
  Return (set_fields (flat args) b).

(** [direction.toLowerCase()].  Among the values of the model only a
    string has a callable [toLowerCase]: a property of a [VObj] is data,
    and the prototypes of booleans, numbers, arrays and [RegExp] have no
    such method.  An object that carries the method (a [String] object) is
    outside the model. *)
Definition lowered (W : World) (direction : Value) : Completion Value :=
  match direction with
  | VStr s => Return (VStr (toLowerCase W s))
  | VUndefined | VNull =>
      Throw (TypeError
               "Cannot read properties of undefined or null (reading 'toLowerCase')")
  | _ => Throw (TypeError "direction.toLowerCase is not a function")
  end.

(** [orderBy(field, direction = 'asc')] *)
Definition orderBy (W : World) (args : list Value) (b : Builder)
  : Completion Builder :=
  let fld := arg 0 args in
  let direction := if is_undefined (arg 1 args) then VStr "asc" else arg 1 args in
  d <- lowered W direction ;;
  k <- ToPropertyKey fld ;;
  Return (set_sorts (obj_set k d (sorts b)) b).

(** [limit(limit)] *)
Definition limit (args : list Value) (b : Builder) : Completion Builder :=
  Return (set_limitValue (arg 0 args) b).

(** [skip(skip)] *)
Definition skip (args : list Value) (b : Builder) : Completion Builder :=
  Return (set_skipValue (arg 0 args) b).

(** [offset(offset)] *)
Definition offset (args : list Value) (b : Builder) : Completion Builder :=
  skip [arg 0 args] b.

(** [this.adapter.get(this)] and the other calls on the adapter. *)
Definition adapter_get (W : World) (b : Builder) : Outcome :=
  match adapter b with
  | MongoAdapter => MongoAdapter.get W b
  | KnexAdapter _ knex => KnexAdapter.get W knex b
  end.

Definition adapter_insert (W : World) (b : Builder) (data : Value) : Outcome :=
  match adapter b with
  | MongoAdapter => MongoAdapter.insert W b data
  | KnexAdapter _ knex => KnexAdapter.insert W knex b data
  end.

Definition adapter_update (W : World) (b : Builder) (data : Value) : Outcome :=
  match adapter b with
  | MongoAdapter => MongoAdapter.update W b data
  | KnexAdapter _ knex => KnexAdapter.update W knex b data
  end.

Definition adapter_delete (W : World) (b : Builder) : Outcome :=
  match adapter b with
  | MongoAdapter => MongoAdapter.delete W b
  | KnexAdapter _ knex => KnexAdapter.delete W knex b
  end.

Definition adapter_count (W : World) (b : Builder) (fld : Value) : Outcome :=
  match adapter b with
  | MongoAdapter => MongoAdapter.count W b
  | KnexAdapter _ knex => KnexAdapter.count W knex b fld
  end.

(** An [async] method leaves the builder in some state and settles. *)
Definition Async : Type := (Builder * Outcome)%type.

(** [get()] *)
Definition get (W : World) (b : Builder) : Async :=
  (b, adapter_get W b).

(** [first()] *)
Definition first (W : World) (b : Builder) : Async :=
  let originalLimit := limitValue b in
  let b := set_limitValue (VNum 1) b in
  match adapter_get W b with
  | Rejected e => (b, Rejected e)
  | Resolved results =>
      let b := set_limitValue originalLimit b in
      (b, settle (row <- get_first results ;; Return (or_else row VNull)))
  end.

(** [insert(data)] *)
Definition insert (W : World) (args : list Value) (b : Builder) : Async :=
  (b, adapter_insert W b (arg 0 args)).

(** [update(data)] *)
Definition update (W : World) (args : list Value) (b : Builder) : Async :=
  (b, adapter_update W b (arg 0 args)).

(** [delete()] *)
Definition delete (W : World) (b : Builder) : Async :=
  (b, adapter_delete W b).

(** [count(field = '*')] *)
Definition count (W : World) (args : list Value) (b : Builder) : Async :=
  let fld := if is_undefined (arg 0 args) then VStr "*" else arg 0 args in
  (b, adapter_count W b fld).

(** [toSQL()] *)
Definition toSQL (W : World) (b : Builder) : Completion Value :=
  match adapter b with
  | KnexAdapter _ knex =>
      let query := KnexAdapter._buildQuery b in
      knex_toString W knex query
  | MongoAdapter => Throw (PlainError "toSQL() hanya tersedia untuk SQL database")
  end.

End QueryBuilder.

(* ================================================================== *)
(** ** Calls on a builder *)
(* ================================================================== *)

(** A method call of the public interface, with its arguments. *)
Inductive Call : Type :=
| call_from (args : list Value)
| call_where (args : list Value)
| call_whereIn (args : list Value)
| call_whereNotIn (args : list Value)
| call_whereLike (args : list Value)
| call_select (args : list Value)
| call_orderBy (args : list Value)
| call_limit (args : list Value)
| call_skip (args : list Value)
| call_offset (args : list Value)
| call_get
| call_first
| call_insert (args : list Value)
| call_update (args : list Value)
| call_delete
| call_count (args : list Value)
| call_toSQL.

(** What the caller observes: the builder itself (for chaining), a value, an
    exception, or a settled promise. *)
Inductive Reply : Type :=
| This
| Returned (v : Value)
| Threw (e : Error)
| Settled (o : Outcome).

(** A configuration method returns [this]; when it throws, the builder is as
    it was. *)
Definition chained (b : Builder) (c : Completion Builder) : Builder * Reply :=
  match c with
  | Return b' => (b', This)
  | Throw e => (b, Threw e)
  end.

Definition awaited (a : QueryBuilder.Async) : Builder * Reply :=
  (fst a, Settled (snd a)).

Definition exec (W : World) (c : Call) (b : Builder) : Builder * Reply :=
  match c with
  | call_from args => chained b (QueryBuilder.from args b)
  | call_where args => chained b (QueryBuilder.where_ args b)
  | call_whereIn args => chained b (QueryBuilder.whereIn args b)
  | call_whereNotIn args => chained b (QueryBuilder.whereNotIn args b)
  | call_whereLike args => chained b (QueryBuilder.whereLike args b)
  | call_select args => chained b (QueryBuilder.select args b)
  | call_orderBy args => chained b (QueryBuilder.orderBy W args b)
  | call_limit args => chained b (QueryBuilder.limit args b)
  | call_skip args => chained b (QueryBuilder.skip args b)
  | call_offset args => chained b (QueryBuilder.offset args b)
  | call_get => awaited (QueryBuilder.get W b)
  | call_first => awaited (QueryBuilder.first W b)
  | call_insert args => awaited (QueryBuilder.insert W args b)
  | call_update args => awaited (QueryBuilder.update W args b)
  | call_delete => awaited (QueryBuilder.delete W b)
  | call_count args => awaited (QueryBuilder.count W args b)
  | call_toSQL =>
      match QueryBuilder.toSQL W b with
      | Return v => (b, Returned v)
      | Throw e => (b, Threw e)
      end
  end.

(** A sequence of calls on one builder, each awaited before the next. *)
Fixpoint run (W : World) (cs : list Call) (b : Builder)
  : Builder * list Reply :=
  match cs with
  | [] => (b, [])
  | c :: rest =>
      let (b1, r) := exec W c b in
      let (b2, rs) := run W rest b1 in
      (b2, r :: rs)
  end.

(** Two builders that differ at most in the engine tag: in the stored
    options and [dbEngine], and in the tag their relational adapter keeps. *)
Definition same_but_engine (b1 b2 : Builder) : Prop :=
  table b1 = table b2 /\ collection b1 = collection b2 /\
  conditions b1 = conditions b2 /\ fields b1 = fields b2 /\
  sorts b1 = sorts b2 /\ limitValue b1 = limitValue b2 /\
  skipValue b1 = skipValue b2 /\
  exists e1 e2 knex,
    adapter b1 = KnexAdapter e1 knex /\ adapter b2 = KnexAdapter e2 knex.

(** The tags that make [_initAdapter] pick the relational adapter. *)
Definition relational_tag (engine : Value) : Prop :=
  engine <> VStr "mongodb" /\ engine <> VStr "mongo".

(** The object a literal [{k1: v1, ..., kn: vn}] with plain (not computed)
    keys evaluates to.  An entry named [__proto__] is not a property
    definition. *)
Definition object_literal (entries : list (string * Value)) : Value :=
  VObj (fold_left
          (fun acc kv => if fst kv =? "__proto__" then acc
                         else obj_define (fst kv) (snd kv) acc)
          entries []).

(* ================================================================== *)
(** ** Two concrete worlds *)
(* ================================================================== *)

(** A small installation used to run the model on concrete inputs: a
    relational client bound under [db] and a document store, both holding
    the same two users, and the same installation with the backends
    unreachable. *)
Module Sample.

Definition lower_ascii (c : ascii) : ascii :=
  let n := nat_of_ascii c in
  if ((65 <=? n) && (n <=? 90))%nat then ascii_of_nat (n + 32) else c.

Fixpoint lower (s : string) : string :=
  match s with
  | EmptyString => EmptyString
  | String c rest => String (lower_ascii c) (lower rest)
  end.

(** Accepts the patterns whose parentheses are balanced. *)
Fixpoint balanced (depth : nat) (s : string) : bool :=
  match s with
  | EmptyString => (depth =? 0)%nat
  | String c rest =>
      if Ascii.eqb c "("%char then balanced (S depth) rest
      else if Ascii.eqb c ")"%char then
             match depth with
             | O => false
             | S d => balanced d rest
             end
      else balanced depth rest
  end.

(** Reads a decimal text. *)
Definition parse_decimal (v : Value) : Value :=
  match v with
  | VNum z => VNum z
  | VStr s =>
      match NilEmpty.uint_of_string s with
      | Some u => VNum (Z.of_N (N.of_uint u))
      | None => VUndefined
      end
  | _ => VUndefined
  end.

Definition users : list Value :=
  [ VObj [("name", VStr "ann"); ("role", VStr "admin")];
    VObj [("name", VStr "bob"); ("role", VStr "user")] ].

Definition empty_membership_call (c : KnexCall) : bool :=
  match c with
  | K_whereIn _ (VArr []) => true
  | _ => false
  end.

Definition is_count_call (c : KnexCall) : bool :=
  match c with
  | K_count _ => true
  | _ => false
  end.

(** The relational client: no row for a statement with an empty membership
    test, every row otherwise. *)
Definition client (name : string) (q : KnexQuery) : Outcome :=
  if existsb empty_membership_call (q_calls q) then
    (if existsb is_count_call (q_calls q)
     then Resolved (VArr [VObj [("count", VStr "0")]])
     else Resolved (VArr []))
  else
    (if existsb is_count_call (q_calls q)
     then Resolved (VArr [VObj [("count", VStr "2")]])
     else Resolved (VArr users)).

Definition render (name : string) (q : KnexQuery) : Completion Value :=
  t <- ToString (q_table q) ;;
  Return (VStr ("select * from " ++ t)%string).

Definition empty_membership_clause (kv : string * Value) : bool :=
  match snd kv with
  | VObj ps =>
      match own_get "$in" ps with
      | Some (VArr []) => true
      | _ => false
      end
  | _ => false
  end.

(** The document store: no document for a filter with an empty membership
    test, every document otherwise. *)
Definition matching (filter : Props) : list Value :=
  if existsb empty_membership_clause filter then [] else users.

Definition open_collection (name : Value) : Completion unit :=
  match name with
  | VStr _ => Return tt
  | _ => Throw (PlainError "collection name must be a String")
  end.

Definition online : World :=
  mkWorld None None (fun name => name =? "db") true
          (balanced 0) lower parse_decimal
          client render
          open_collection
          (fun _ filter _ => Resolved (VArr (matching filter)))
          (fun _ data => Resolved (VObj [("ops", data)]))
          (fun _ data => Resolved (VObj [("insertedId", VNum 7)]))
          (fun _ filter _ =>
             Resolved (VObj [("modifiedCount",
                              VNum (Z.of_nat (length (matching filter))))]))
          (fun _ filter =>
             Resolved (VObj [("deletedCount",
                              VNum (Z.of_nat (length (matching filter))))]))
          (fun _ filter => Resolved (VNum (Z.of_nat (length (matching filter))))).

Definition unreachable : Error := PlainError "connection lost".

(** Same installation, every call on a backend fails. *)
Definition offline : World :=
  mkWorld None None (fun name => name =? "db") true
          (balanced 0) lower parse_decimal
          (fun _ _ => Rejected unreachable)
          render
          open_collection
          (fun _ _ _ => Rejected unreachable)
          (fun _ _ => Rejected unreachable)
          (fun _ _ => Rejected unreachable)
          (fun _ _ _ => Rejected unreachable)
          (fun _ _ => Rejected unreachable)
          (fun _ _ => Rejected unreachable).

(** An installation on which neither client is registered. *)
Definition bare : World :=
  mkWorld None None (fun _ => false) false
          (balanced 0) lower parse_decimal
          (fun _ _ => Rejected unreachable)
          render
          open_collection
          (fun _ _ _ => Rejected unreachable)
          (fun _ _ => Rejected unreachable)
          (fun _ _ => Rejected unreachable)
          (fun _ _ _ => Rejected unreachable)
          (fun _ _ => Rejected unreachable)
          (fun _ _ => Rejected unreachable).

(** [new QueryBuilder(fastify, { dbEngine })] in a world, as a builder:
    the fresh state when the constructor throws is never used below. *)
Definition builder (W : World) (engine : string) : Builder :=
  match QueryBuilder.new W (VObj [("dbEngine", VStr engine)]) with
  | Return b => b
  | Throw _ =>
      mkBuilder VUndefined VNull VNull [] [] [] VNull VNull
                (KnexAdapter (VStr engine) "db") (VStr engine)
  end.

(** The builder after a chain of calls. *)
Definition after (W : World) (cs : list Call) (b : Builder) : Builder :=
  fst (run W cs b).

End Sample.

(* ================================================================== *)
(** ** index.js *)
(* ================================================================== *)

(** The factories the plugin registers on [fastify], as functions of the
    options the plugin was registered with.  They are what the decorators
    are once the three calls of [fastify.decorate] have succeeded. *)
Module Plugin.

(** [{...acc, ...data}]: copy the own enumerable properties of [data]. *)
Definition spread_into (acc : Props) (data : Value) : Props :=
  match Object_keys data with
  | Return ks =>
      fold_left (fun acc k => obj_define k (get_own_key data k) acc) ks acc
  | Throw _ => acc
  end.

(** [defaultOptions], for [options = {}] when none are given. *)
Definition defaultOptions (W : World) (options : Value) : Props :=
  let options := if is_undefined options then VObj [] else options in
  spread_into
    [ ("decoratorName", VStr "queryBuilder");
      ("dbEngine", or_else (env_value (env_DB_ENGINE W)) (VStr "pg")) ]
    options.

(** [fastify[decoratorName](queryOptions = {})] *)
Definition queryBuilder (W : World) (options queryOptions : Value)
  : Completion Builder :=
  let queryOptions := if is_undefined queryOptions then VObj [] else queryOptions in
  QueryBuilder.new W
    (VObj (spread_into (spread_into [] (VObj (defaultOptions W options)))
                       queryOptions)).

(** [defaultOptions.dbEngine] *)
Definition default_engine (W : World) (options : Value) : Value :=
  match own_get "dbEngine" (defaultOptions W options) with
  | Some v => v
  | None => VUndefined
  end.

(** [fastify.getQueryBuilder(dbEngine = null)] *)
Definition getQueryBuilder (W : World) (options dbEngine : Value)
  : Completion Builder :=
  let dbEngine := if is_undefined dbEngine then VNull else dbEngine in
  queryBuilder W options
    (VObj [("dbEngine", or_else dbEngine (default_engine W options))]).

(** [fastify.db.sql(tableName)] *)
Definition sql (W : World) (options tableName : Value) : Completion Builder :=
  b <- getQueryBuilder W options (VStr "pg") ;;
  QueryBuilder.from [tableName] b.

(** [fastify.db.mongo(collectionName)] *)
Definition mongo (W : World) (options collectionName : Value)
  : Completion Builder :=
  b <- getQueryBuilder W options (VStr "mongodb") ;;
  QueryBuilder.from [collectionName] b.

(** [fastify.db.query(tableName)] *)
Definition query (W : World) (options tableName : Value) : Completion Builder :=
  b <- getQueryBuilder W options VUndefined ;;
  QueryBuilder.from [tableName] b.

End Plugin.

(* ================================================================== *)
(** ** Properties of the builder *)
(* ================================================================== *)

Section BuilderFacts.

Lemma typeof_eqb_object (v : Value) :
  (typeof v =? "object") = true <-> typeof v = "object".
Proof. apply String.eqb_eq. Qed.

Lemma typeof_eqb_not_object (v : Value) :
  (typeof v =? "object") = false <-> typeof v <> "object".
Proof. apply String.eqb_neq. Qed.

Lemma is_undefined_false (v : Value) : is_undefined v = false <-> v <> VUndefined.
Proof. destruct v; simpl; split; congruence. Qed.

(** Pushing a list of conditions appends it. *)
Lemma push_conditions_spec (cs : list Condition) (b : Builder) :
  QueryBuilder.push_conditions cs b =
  mkBuilder (options b) (table b) (collection b) (conditions b ++ cs)
            (fields b) (sorts b) (limitValue b) (skipValue b) (adapter b)
            (dbEngine b).
Proof.
  unfold QueryBuilder.push_conditions.
  revert b; induction cs as [|c cs IH]; intros b; simpl.
  - rewrite app_nil_r. destruct b; reflexivity.
  - rewrite IH. simpl. rewrite <- app_assoc. reflexivity.
Qed.

(** The two ways the non-object branches of [where] end. *)
Lemma where_two_values (fld op : Value) (rest : list Value) (b : Builder) :
  typeof fld <> "object" ->
  arg 0 rest = VUndefined ->
  QueryBuilder.where_ (fld :: op :: rest) b =
  Return (push_condition (mkCondition fld (VStr "=") op) b).
Proof.
  intros Hf Hv. unfold QueryBuilder.where_.
  change (arg 0 (fld :: op :: rest)) with fld.
  change (arg 1 (fld :: op :: rest)) with op.
  change (arg 2 (fld :: op :: rest)) with (arg 0 rest).
  apply typeof_eqb_not_object in Hf. rewrite Hf, Hv. reflexivity.
Qed.

Lemma where_three_values (fld op val : Value) (rest : list Value) (b : Builder) :
  typeof fld <> "object" ->
  val <> VUndefined ->
  QueryBuilder.where_ (fld :: op :: val :: rest) b =
  Return (push_condition (mkCondition fld op val) b).
Proof.
  intros Hf Hv. unfold QueryBuilder.where_.
  change (arg 0 (fld :: op :: val :: rest)) with fld.
  change (arg 1 (fld :: op :: val :: rest)) with op.
  change (arg 2 (fld :: op :: val :: rest)) with val.
  apply typeof_eqb_not_object in Hf. rewrite Hf.
  apply is_undefined_false in Hv. rewrite Hv. reflexivity.
Qed.

(** Only the values of the first three parameters reach the body. *)
Lemma where_reads_three_parameters (args : list Value) (b : Builder) :
  QueryBuilder.where_ args b =
  QueryBuilder.where_ [arg 0 args; arg 1 args; arg 2 args] b.
Proof. reflexivity. Qed.

End BuilderFacts.

(** C1, as the code has it.  [where] never looks at how many arguments it
    was given: it reads its three parameters (an argument that was not
    supplied reads as [undefined]) and chooses the shape from their values.
    An object as first value gives the object shape whatever follows; else
    an [undefined] third value gives the equality shape, so that
    [where(field, operator, undefined)] is [where(field, operator)] and
    appends [{field, operator: '=', value: operator}]; else the three values
    are stored as given, [null] included. *)
Theorem where_shape_is_chosen_by_values (args : list Value) (b : Builder) :
  QueryBuilder.where_ args b =
    QueryBuilder.where_ [arg 0 args; arg 1 args; arg 2 args] b
  /\ (typeof (arg 0 args) = "object" ->
      QueryBuilder.where_ args b = QueryBuilder.where_ [arg 0 args] b)
  /\ (typeof (arg 0 args) <> "object" -> arg 2 args = VUndefined ->
      QueryBuilder.where_ args b =
        QueryBuilder.where_ [arg 0 args; arg 1 args] b
      /\ QueryBuilder.where_ args b =
           Return (push_condition
                     (mkCondition (arg 0 args) (VStr "=") (arg 1 args)) b))
  /\ (typeof (arg 0 args) <> "object" -> arg 2 args <> VUndefined ->
      QueryBuilder.where_ args b =
        Return (push_condition
                  (mkCondition (arg 0 args) (arg 1 args) (arg 2 args)) b)).
Proof.
  split; [apply where_reads_three_parameters|].
  rewrite (where_reads_three_parameters args).
  split; [|split].
  - intros Hobj. unfold QueryBuilder.where_.
    change (arg 0 [arg 0 args; arg 1 args; arg 2 args]) with (arg 0 args).
    change (arg 0 [arg 0 args]) with (arg 0 args).
    apply typeof_eqb_object in Hobj. rewrite Hobj. reflexivity.
  - intros Hf Hv. rewrite Hv. split.
    + rewrite !where_two_values by (assumption || reflexivity). reflexivity.
    + apply where_two_values; [assumption | reflexivity].
  - intros Hf Hv. apply where_three_values; assumption.
Qed.

(** The instance of the statement above on [where('age', '>', undefined)]
    and [where('age', '>', null)], on a fresh relational builder. *)
Lemma where_shape_is_chosen_by_values_witness :
  QueryBuilder.where_ [VStr "age"; VStr ">"; VUndefined]
                      (Sample.builder Sample.online "pg") =
    Return (push_condition (mkCondition (VStr "age") (VStr "=") (VStr ">"))
                           (Sample.builder Sample.online "pg"))
  /\ QueryBuilder.where_ [VStr "age"; VStr ">"; VNull]
                         (Sample.builder Sample.online "pg") =
       Return (push_condition (mkCondition (VStr "age") (VStr ">") VNull)
                              (Sample.builder Sample.online "pg")).
Proof.
  split.
  - apply (where_shape_is_chosen_by_values
             [VStr "age"; VStr ">"; VUndefined]
             (Sample.builder Sample.online "pg")).
    + simpl. discriminate.
    + reflexivity.
  - apply (where_shape_is_chosen_by_values
             [VStr "age"; VStr ">"; VNull]
             (Sample.builder Sample.online "pg")).
    + simpl. discriminate.
    + simpl. discriminate.
Defined.

(** C1 as stated fails: a three-argument call whose third argument is
    [undefined] does not append [{field, operator, value: undefined}]. *)
Lemma where_three_arguments_undefined_counterexample :
  QueryBuilder.where_ [VStr "age"; VStr ">"; VUndefined]
                      (Sample.builder Sample.online "pg") <>
  Return (push_condition (mkCondition (VStr "age") (VStr ">") VUndefined)
                         (Sample.builder Sample.online "pg")).
Proof. vm_compute. discriminate. Qed.

Section WhereShapes.

Lemma obj_define_empty (k : string) (v : Value) : obj_define k v [] = [(k, v)].
Proof.
  unfold obj_define. cbn [has_own own_get].
  destruct (array_index k); reflexivity.
Qed.

(** When the keys of [{a: v1, b: v2}] enumerate as [a], [b], the object
    has exactly these two properties (and [a], [b] differ). *)
Lemma literal_of_two_keys (a b : string) (v1 v2 : Value) :
  Object_keys (object_literal [(a, v1); (b, v2)]) = Return [a; b] ->
  object_literal [(a, v1); (b, v2)] = VObj [(a, v1); (b, v2)]
  /\ (a =? b) = false.
Proof.
  unfold object_literal. cbn [fold_left fst snd].
  destruct (a =? "__proto__") eqn:Ea.
  - destruct (b =? "__proto__"); [discriminate|].
    rewrite obj_define_empty. discriminate.
  - rewrite obj_define_empty.
    destruct (b =? "__proto__"); [discriminate|].
    unfold obj_define, has_own. cbn [own_get own_replace].
    destruct (a =? b) eqn:Eab; [discriminate|].
    destruct (array_index b) as [n|]; cbn [insert_index app].
    + destruct (array_index a) as [m|].
      * destruct (m <? n)%N; cbn [insert_index]; intros H;
          [split; reflexivity|].
        injection H as H1 H2. subst b.
        rewrite String.eqb_refl in Eab. discriminate.
      * intros H. injection H as H1 H2. subst b.
        rewrite String.eqb_refl in Eab. discriminate.
    + intros _. split; reflexivity.
Qed.

Lemma where_object_of_two (a b : string) (v1 v2 : Value) (B : Builder) :
  (a =? b) = false ->
  QueryBuilder.where_ [VObj [(a, v1); (b, v2)]] B =
  Return (push_condition (mkCondition (VStr b) (VStr "=") v2)
            (push_condition (mkCondition (VStr a) (VStr "=") v1) B)).
Proof.
  intros Hab. unfold QueryBuilder.where_. simpl.
  rewrite String.eqb_refl, Hab, String.eqb_refl. reflexivity.
Qed.

End WhereShapes.

(** C2, as the code has it.  Take two keys that the object [{a: v1, b: v2}]
    enumerates in the order written (they differ, neither is [__proto__],
    and [b] is not an array index that sorts before [a]).  Then
    [where({a: v1, b: v2})] leaves the builder exactly as
    [where(a, v1).where(b, v2)] does, and, when neither value is
    [undefined], as [where(a, '=', v1).where(b, '=', v2)] does: the stored
    tag of equality is ['='].  Equal builders translate alike on both
    adapters. *)
Theorem where_shapes_agree (a b : string) (v1 v2 : Value) (B : Builder) :
  Object_keys (object_literal [(a, v1); (b, v2)]) = Return [a; b] ->
  QueryBuilder.where_ [object_literal [(a, v1); (b, v2)]] B =
    (B1 <- QueryBuilder.where_ [VStr a; v1] B ;;
     QueryBuilder.where_ [VStr b; v2] B1)
  /\ (v1 <> VUndefined -> v2 <> VUndefined ->
      QueryBuilder.where_ [object_literal [(a, v1); (b, v2)]] B =
        (B1 <- QueryBuilder.where_ [VStr a; VStr "="; v1] B ;;
         QueryBuilder.where_ [VStr b; VStr "="; v2] B1)).
Proof.
  intros Hkeys.
  destruct (literal_of_two_keys a b v1 v2 Hkeys) as [-> Hab].
  rewrite (where_object_of_two a b v1 v2 B Hab).
  split.
  - rewrite (where_two_values (VStr a) v1 [] B) by (simpl; first [discriminate | reflexivity | assumption]).
    simpl. rewrite where_two_values by (simpl; first [discriminate | reflexivity | assumption]). reflexivity.
  - intros H1 H2.
    rewrite (where_three_values (VStr a) (VStr "=") v1 [] B)
      by (simpl; first [discriminate | reflexivity | assumption]).
    simpl. rewrite where_three_values by (simpl; first [discriminate | reflexivity | assumption]). reflexivity.
Qed.

(** The statement above on [{a: 1, b: 2}]. *)
Lemma where_shapes_agree_witness :
  QueryBuilder.where_ [object_literal [("a", VNum 1); ("b", VNum 2)]]
                      (Sample.builder Sample.online "pg") =
    (B1 <- QueryBuilder.where_ [VStr "a"; VNum 1]
                               (Sample.builder Sample.online "pg") ;;
     QueryBuilder.where_ [VStr "b"; VNum 2] B1)
  /\ QueryBuilder.where_ [object_literal [("a", VNum 1); ("b", VNum 2)]]
                         (Sample.builder Sample.online "pg") =
       (B1 <- QueryBuilder.where_ [VStr "a"; VStr "="; VNum 1]
                                  (Sample.builder Sample.online "pg") ;;
        QueryBuilder.where_ [VStr "b"; VStr "="; VNum 2] B1).
Proof.
  destruct (where_shapes_agree "a" "b" (VNum 1) (VNum 2)
              (Sample.builder Sample.online "pg")) as [H1 H2].
  - reflexivity.
  - split; [exact H1 | apply H2; discriminate].
Defined.

(** C2 as stated fails, in three ways: the tag ['eq'] is stored as it is
    and is not the tag ['='] of the other two shapes; an object holds a
    key once, so [{a: 1, a: 2}] gives one condition where two calls give
    two; and an array-index key is enumerated before the others, so
    [{b: 1, 0: 2}] gives the conditions in the other order. *)
Lemma where_shapes_counterexample :
  QueryBuilder.where_ [object_literal [("a", VNum 1); ("b", VNum 2)]]
                      (Sample.builder Sample.online "pg") <>
    (B1 <- QueryBuilder.where_ [VStr "a"; VStr "eq"; VNum 1]
                               (Sample.builder Sample.online "pg") ;;
     QueryBuilder.where_ [VStr "b"; VStr "eq"; VNum 2] B1)
  /\ QueryBuilder.where_ [object_literal [("a", VNum 1); ("a", VNum 2)]]
                         (Sample.builder Sample.online "pg") <>
       (B1 <- QueryBuilder.where_ [VStr "a"; VNum 1]
                                  (Sample.builder Sample.online "pg") ;;
        QueryBuilder.where_ [VStr "a"; VNum 2] B1)
  /\ QueryBuilder.where_ [object_literal [("b", VNum 1); ("0", VNum 2)]]
                         (Sample.builder Sample.online "pg") <>
       (B1 <- QueryBuilder.where_ [VStr "b"; VNum 1]
                                  (Sample.builder Sample.online "pg") ;;
        QueryBuilder.where_ [VStr "0"; VNum 2] B1).
Proof. vm_compute. repeat split; discriminate. Qed.

(** C8.  [select] flattens its arguments by one level and puts the
    result in place of the projection.  After [select(...args)] the
    [fields] of the builder are the elements of the array arguments and the
    other arguments themselves, in the order given, whatever the projection
    was before, and nothing else in the builder has changed.  So
    [select('a','b')] followed by [select('c')] leaves [['c']];
    [select(['a','b'])] and [select('a','b')] both leave [['a','b']]; a call
    with mixed arguments such as [select('a', [x1, ..., xn], 'c')] leaves
    ['a', x1, ..., xn, 'c']; and an array inside an array argument stays an
    element (one level only). *)
Theorem select_flattens_and_replaces
  (args first : list Value) (a b c : string) (names : list string)
  (xs : list Value) (B : Builder) :
  (exists B',
      QueryBuilder.select args B = Return B'
      /\ fields B' =
           concat (map (fun x => match x with VArr ys => ys | _ => [x] end) args)
      /\ options B' = options B /\ table B' = table B
      /\ collection B' = collection B /\ conditions B' = conditions B
      /\ sorts B' = sorts B /\ limitValue B' = limitValue B
      /\ skipValue B' = skipValue B /\ adapter B' = adapter B
      /\ dbEngine B' = dbEngine B)
  /\ (exists B1 B2,
        QueryBuilder.select first B = Return B1
        /\ QueryBuilder.select args B1 = Return B2
        /\ QueryBuilder.select args B = Return B2
        /\ fields B2 =
             concat (map (fun x => match x with VArr ys => ys | _ => [x] end)
                         args))
  /\ (exists B1 B2,
        QueryBuilder.select [VStr a; VStr b] B = Return B1
        /\ fields B1 = [VStr a; VStr b]
        /\ QueryBuilder.select [VStr c] B1 = Return B2
        /\ fields B2 = [VStr c])
  /\ (exists B1 B2,
        QueryBuilder.select [VArr (map VStr names)] B = Return B1
        /\ QueryBuilder.select (map VStr names) B = Return B2
        /\ fields B1 = map VStr names
        /\ fields B2 = map VStr names
        /\ B1 = B2)
  /\ (exists B1,
        QueryBuilder.select [VStr a; VArr xs; VStr c] B = Return B1
        /\ fields B1 = VStr a :: xs ++ [VStr c])
  /\ (exists B1,
        QueryBuilder.select [VArr [VArr xs; VStr c]] B = Return B1
        /\ fields B1 = [VArr xs; VStr c]).
Proof.
  assert (Hflat : forall l : list Value,
             flat l =
             concat (map (fun x => match x with VArr ys => ys | _ => [x] end) l))
    by (intros l; unfold flat; apply flat_map_concat_map).
  assert (Hnames : flat (map VStr names) = map VStr names).
  { unfold flat. induction names as [|n ns IH]; simpl; [reflexivity|].
    now rewrite IH. }
  split; [|split; [|split; [|split; [|split]]]].
  - eexists. split; [reflexivity|]. cbn [fields set_fields].
    split; [apply Hflat|]. repeat split.
  - eexists. eexists. split; [reflexivity|]. split; [reflexivity|].
    split; [reflexivity|]. cbn [fields set_fields]. apply Hflat.
  - eexists. eexists. split; [reflexivity|]. split; [reflexivity|].
    split; reflexivity.
  - eexists. eexists. split; [reflexivity|]. split; [reflexivity|].
    cbn [fields set_fields]. rewrite Hnames.
    assert (Hone : flat [VArr (map VStr names)] = map VStr names)
      by (unfold flat; simpl; apply app_nil_r).
    rewrite Hone. repeat split.
  - eexists. split; [reflexivity|]. reflexivity.
  - eexists. split; [reflexivity|]. reflexivity.
Qed.

(* ================================================================== *)
(** ** The adapter of a builder and the engine tag *)
(* ================================================================== *)

Section AdapterFacts.

Variable W : World.

Lemma chained_keeps_adapter (b : Builder) (c : Completion Builder) :
  (forall b', c = Return b' -> adapter b' = adapter b) ->
  adapter (fst (chained b c)) = adapter b.
Proof. destruct c as [b'|e]; simpl; intros H; [apply H|]; reflexivity. Qed.

Lemma push_conditions_keeps_adapter (cs : list Condition) (b : Builder) :
  adapter (QueryBuilder.push_conditions cs b) = adapter b.
Proof. rewrite push_conditions_spec. reflexivity. Qed.

(** No method assigns [this.adapter]. *)
Lemma exec_keeps_adapter (c : Call) (b : Builder) :
  adapter (fst (exec W c b)) = adapter b.
Proof.
  destruct c; simpl;
    try (apply chained_keeps_adapter; intros b' Hb';
         injection Hb' as <-; reflexivity);
    try reflexivity.
  - apply chained_keeps_adapter. intros b'. unfold QueryBuilder.where_.
    destruct (typeof (arg 0 args) =? "object").
    + destruct (Object_keys (arg 0 args)); simpl; [|discriminate].
      intros H; injection H as <-. apply push_conditions_keeps_adapter.
    + destruct (is_undefined (arg 2 args)); intros H; injection H as <-;
        reflexivity.
  - apply chained_keeps_adapter. intros b'. unfold QueryBuilder.orderBy.
    destruct (QueryBuilder.lowered W _); simpl; [|discriminate].
    destruct (ToPropertyKey (arg 0 args)); simpl; [|discriminate].
    intros H; injection H as <-. reflexivity.
  - unfold QueryBuilder.first.
    destruct (QueryBuilder.adapter_get W _); reflexivity.
  - destruct (QueryBuilder.toSQL W b); reflexivity.
Qed.

Lemma run_keeps_adapter (cs : list Call) (b : Builder) :
  adapter (fst (run W cs b)) = adapter b.
Proof.
  revert b; induction cs as [|c cs IH]; intros b; simpl; [reflexivity|].
  destruct (exec W c b) as [b1 r] eqn:E1.
  destruct (run W cs b1) as [b2 rs] eqn:E2. simpl.
  change b2 with (fst (b2, rs)). rewrite <- E2, IH.
  change b1 with (fst (b1, r)). rewrite <- E1. apply exec_keeps_adapter.
Qed.

(** The statement the relational adapter builds reads the target, the
    conditions, the projection, the sort map, the limit and the skip, and
    nothing else. *)
Lemma buildQuery_same (b1 b2 : Builder) :
  same_but_engine b1 b2 ->
  KnexAdapter._buildQuery b1 = KnexAdapter._buildQuery b2.
Proof.
  intros (Ht & _ & Hc & Hf & Hs & Hl & Hk & _).
  unfold KnexAdapter._buildQuery. rewrite Ht, Hc, Hf, Hs, Hl, Hk. reflexivity.
Qed.

Lemma adapter_get_same (b1 b2 : Builder) :
  same_but_engine b1 b2 ->
  QueryBuilder.adapter_get W b1 = QueryBuilder.adapter_get W b2.
Proof.
  intros H. pose proof (buildQuery_same b1 b2 H) as HQ.
  destruct H as (_ & _ & _ & _ & _ & _ & _ & e1 & e2 & knex & Ha1 & Ha2).
  unfold QueryBuilder.adapter_get, KnexAdapter.get.
  rewrite Ha1, Ha2, HQ. reflexivity.
Qed.

Lemma set_limitValue_same (n : Value) (b1 b2 : Builder) :
  same_but_engine b1 b2 ->
  same_but_engine (set_limitValue n b1) (set_limitValue n b2).
Proof.
  intros (Ht & Hc & Hcs & Hf & Hs & Hl & Hk & He).
  unfold same_but_engine. simpl. repeat split; assumption.
Qed.

Lemma first_same (b1 b2 : Builder) :
  same_but_engine b1 b2 ->
  snd (QueryBuilder.first W b1) = snd (QueryBuilder.first W b2)
  /\ same_but_engine (fst (QueryBuilder.first W b1))
                     (fst (QueryBuilder.first W b2)).
Proof.
  intros H. unfold QueryBuilder.first.
  rewrite (adapter_get_same _ _ (set_limitValue_same (VNum 1) b1 b2 H)).
  destruct (QueryBuilder.adapter_get W (set_limitValue (VNum 1) b2)).
  - cbn [fst snd]. split; [reflexivity|].
    destruct H as (Ht & Hc & Hcs & Hf & Hs & Hl & Hk & He).
    unfold same_but_engine. simpl. repeat split; assumption.
  - cbn [fst snd]. split; [reflexivity|].
    apply set_limitValue_same, H.
Qed.

(** One call on two builders that differ in the tag only: same reply, and
    the builders still differ in the tag only. *)
Lemma exec_same (c : Call) (b1 b2 : Builder) :
  same_but_engine b1 b2 ->
  snd (exec W c b1) = snd (exec W c b2)
  /\ same_but_engine (fst (exec W c b1)) (fst (exec W c b2)).
Proof.
  intros H. pose proof (buildQuery_same b1 b2 H) as HQ.
  destruct b1 as [o1 t1 c1 cs1 f1 s1 l1 k1 a1 d1].
  destruct b2 as [o2 t2 c2 cs2 f2 s2 l2 k2 a2 d2].
  destruct H as (Ht & Hc & Hcs & Hf & Hs & Hl & Hk & e1 & e2 & knex & Ha1 & Ha2).
  simpl in Ht, Hc, Hcs, Hf, Hs, Hl, Hk, Ha1, Ha2. subst.
  assert (Hrel : forall t c cs f s l k,
             same_but_engine
               (mkBuilder o1 t c cs f s l k (KnexAdapter e1 knex) d1)
               (mkBuilder o2 t c cs f s l k (KnexAdapter e2 knex) d2)).
  { intros. repeat split. exists e1, e2, knex. split; reflexivity. }
  destruct c; cbn [exec]; try (split; [reflexivity | apply Hrel]).
  - (* where *)
    unfold QueryBuilder.where_.
    destruct (typeof (arg 0 args) =? "object").
    + destruct (Object_keys (arg 0 args)); simpl.
      * rewrite !push_conditions_spec. simpl. split; [reflexivity | apply Hrel].
      * split; [reflexivity | apply Hrel].
    + destruct (is_undefined (arg 2 args)); simpl;
        (split; [reflexivity | apply Hrel]).
  - (* orderBy *)
    unfold QueryBuilder.orderBy.
    destruct (QueryBuilder.lowered W _); simpl;
      [|split; [reflexivity | apply Hrel]].
    destruct (ToPropertyKey (arg 0 args)); simpl;
      (split; [reflexivity | apply Hrel]).
  - (* first *)
    destruct (first_same _ _ (Hrel t2 c2 cs2 f2 s2 l2 k2)) as [Hr Hb].
    unfold awaited. cbn [fst snd]. rewrite Hr. split; [reflexivity | exact Hb].
  - (* toSQL *)
    unfold QueryBuilder.toSQL. cbn [adapter]. rewrite HQ.
    destruct (knex_toString W knex _); simpl;
      (split; [reflexivity | apply Hrel]).
Qed.

Lemma run_same (cs : list Call) (b1 b2 : Builder) :
  same_but_engine b1 b2 ->
  snd (run W cs b1) = snd (run W cs b2)
  /\ same_but_engine (fst (run W cs b1)) (fst (run W cs b2)).
Proof.
  revert b1 b2; induction cs as [|c cs IH]; intros b1 b2 H; simpl.
  - split; [reflexivity | assumption].
  - destruct (exec_same c b1 b2 H) as [Hr Hb].
    destruct (exec W c b1) as [b1' r1]. destruct (exec W c b2) as [b2' r2].
    simpl in Hr, Hb. subst r2.
    destruct (IH b1' b2' Hb) as [Hrs Hbs].
    destruct (run W cs b1') as [b1'' rs1]. destruct (run W cs b2') as [b2'' rs2].
    simpl in *. subst rs2. split; [reflexivity | assumption].
Qed.

(** What the constructor does with a tag outside the document family. *)
Lemma new_relational (opts requested : Value) :
  get_field (if is_undefined opts then VObj [] else opts) "dbEngine"
    = Return requested ->
  relational_tag (QueryBuilder.effective_engine W requested) ->
  fastify_knex W (decorator W) = true ->
  QueryBuilder.new W opts =
  Return (mkBuilder (if is_undefined opts then VObj [] else opts)
                    VNull VNull [] [] [] VNull VNull
                    (KnexAdapter (QueryBuilder.effective_engine W requested)
                                 (decorator W))
                    (QueryBuilder.effective_engine W requested)).
Proof.
  intros Hreq [Hm1 Hm2] Hknex.
  unfold QueryBuilder.new. rewrite Hreq. simpl.
  set (engine := QueryBuilder.effective_engine W requested) in *.
  assert (Htruthy : truthy engine = true).
  { unfold engine, QueryBuilder.effective_engine, or_else.
    destruct (truthy requested) eqn:E1; [rewrite E1; exact E1|].
    destruct (truthy (env_value (env_DB_ENGINE W))) eqn:E2;
      rewrite ?E2; reflexivity. }
  unfold QueryBuilder._initAdapter.
  assert (H1 : is_string "mongodb" engine = false).
  { destruct engine; simpl; try reflexivity.
    apply String.eqb_neq. congruence. }
  assert (H2 : is_string "mongo" engine = false).
  { destruct engine; simpl; try reflexivity.
    apply String.eqb_neq. congruence. }
  rewrite H1, H2. simpl.
  unfold KnexAdapter.new, or_else. rewrite Htruthy, Hknex. reflexivity.
Qed.

(** Without a registered client the constructor fails in the constructor
    of the relational adapter. *)
Lemma new_relational_without_client (opts requested : Value) :
  get_field (if is_undefined opts then VObj [] else opts) "dbEngine"
    = Return requested ->
  relational_tag (QueryBuilder.effective_engine W requested) ->
  fastify_knex W (decorator W) = false ->
  QueryBuilder.new W opts =
  Throw (PlainError "Knex instance tidak ditemukan di fastify").
Proof.
  intros Hreq [Hm1 Hm2] Hknex.
  unfold QueryBuilder.new. rewrite Hreq. cbn [Js.bind].
  set (engine := QueryBuilder.effective_engine W requested) in *.
  unfold QueryBuilder._initAdapter.
  assert (H1 : is_string "mongodb" engine = false).
  { destruct engine; simpl; try reflexivity.
    apply String.eqb_neq. congruence. }
  assert (H2 : is_string "mongo" engine = false).
  { destruct engine; simpl; try reflexivity.
    apply String.eqb_neq. congruence. }
  rewrite H1, H2. cbn [orb].
  unfold KnexAdapter.new. rewrite Hknex. reflexivity.
Qed.

(** The two tags of the document family give the document adapter. *)
Lemma new_document (opts requested : Value) :
  get_field (if is_undefined opts then VObj [] else opts) "dbEngine"
    = Return requested ->
  QueryBuilder.effective_engine W requested = VStr "mongodb"
  \/ QueryBuilder.effective_engine W requested = VStr "mongo" ->
  fastify_mongoose W = true ->
  exists b, QueryBuilder.new W opts = Return b /\ adapter b = MongoAdapter.
Proof.
  intros Hreq Htag Hm.
  unfold QueryBuilder.new. rewrite Hreq. cbn [Js.bind].
  unfold QueryBuilder._initAdapter, MongoAdapter.new.
  destruct Htag as [-> | ->]; cbn [is_string String.eqb orb];
    rewrite Hm; cbn [negb Js.bind]; eexists; split; reflexivity.
Qed.

End AdapterFacts.

(** C7.  Whatever calls were made on it before, [toSQL()] on a builder whose
    adapter is the document adapter throws, as a plain exception of the
    call and not as a rejected promise, the error the method creates; on a
    builder whose adapter is the relational one it is the [toString()] of
    the statement [_buildQuery] builds, as the client gives it. *)
Theorem toSQL_by_adapter (W : World) (calls : list Call) (b : Builder) :
  (adapter b = MongoAdapter ->
   QueryBuilder.toSQL W (fst (run W calls b)) =
     Throw (PlainError "toSQL() hanya tersedia untuk SQL database"))
  /\ (forall e knex, adapter b = KnexAdapter e knex ->
      QueryBuilder.toSQL W (fst (run W calls b)) =
        knex_toString W knex (KnexAdapter._buildQuery (fst (run W calls b)))).
Proof.
  pose proof (run_keeps_adapter W calls b) as Ha.
  split.
  - intros Hm. unfold QueryBuilder.toSQL. rewrite Ha, Hm. reflexivity.
  - intros e knex Hk. unfold QueryBuilder.toSQL. rewrite Ha, Hk. reflexivity.
Qed.

(** The statement above after [from('users').where('age', '>', 18)], on a
    document builder and on a relational one. *)
Lemma toSQL_by_adapter_witness :
  QueryBuilder.toSQL Sample.online
    (fst (run Sample.online
              [call_from [VStr "users"];
               call_where [VStr "age"; VStr ">"; VNum 18]]
              (Sample.builder Sample.online "mongodb"))) =
    Throw (PlainError "toSQL() hanya tersedia untuk SQL database")
  /\ QueryBuilder.toSQL Sample.online
       (fst (run Sample.online
                 [call_from [VStr "users"];
                  call_where [VStr "age"; VStr ">"; VNum 18]]
                 (Sample.builder Sample.online "pg"))) =
       Return (VStr "select * from users").
Proof.
  split.
  - apply (toSQL_by_adapter Sample.online
             [call_from [VStr "users"];
              call_where [VStr "age"; VStr ">"; VNum 18]]
             (Sample.builder Sample.online "mongodb")).
    reflexivity.
  - rewrite (proj2 (toSQL_by_adapter Sample.online
                      [call_from [VStr "users"];
                       call_where [VStr "age"; VStr ">"; VNum 18]]
                      (Sample.builder Sample.online "pg"))
               (VStr "pg") "db" eq_refl).
    reflexivity.
Defined.

(** C9.  In a world where the relational client is registered, the
    constructor gives every tag other than ['mongodb'] and ['mongo'] the
    relational adapter, bound to the same client whatever the tag; and two
    builders made with two such tags answer every sequence of calls with the
    same replies and build the same statement after it. *)
Theorem relational_engine_tag_is_never_consulted
  (W : World) (opts1 opts2 requested1 requested2 : Value) (calls : list Call) :
  get_field (if is_undefined opts1 then VObj [] else opts1) "dbEngine"
    = Return requested1 ->
  get_field (if is_undefined opts2 then VObj [] else opts2) "dbEngine"
    = Return requested2 ->
  relational_tag (QueryBuilder.effective_engine W requested1) ->
  relational_tag (QueryBuilder.effective_engine W requested2) ->
  fastify_knex W (decorator W) = true ->
  exists b1 b2,
    QueryBuilder.new W opts1 = Return b1
    /\ QueryBuilder.new W opts2 = Return b2
    /\ adapter b1 =
         KnexAdapter (QueryBuilder.effective_engine W requested1) (decorator W)
    /\ adapter b2 =
         KnexAdapter (QueryBuilder.effective_engine W requested2) (decorator W)
    /\ snd (run W calls b1) = snd (run W calls b2)
    /\ KnexAdapter._buildQuery (fst (run W calls b1)) =
         KnexAdapter._buildQuery (fst (run W calls b2))
    /\ same_but_engine (fst (run W calls b1)) (fst (run W calls b2)).
Proof.
  intros Hr1 Hr2 Ht1 Ht2 Hknex.
  rewrite (new_relational W opts1 requested1 Hr1 Ht1 Hknex).
  rewrite (new_relational W opts2 requested2 Hr2 Ht2 Hknex).
  eexists. eexists.
  split; [reflexivity|]. split; [reflexivity|].
  split; [reflexivity|]. split; [reflexivity|].
  match goal with
  | |- snd (run W calls ?x) = snd (run W calls ?y) /\ _ =>
      assert (Hsame : same_but_engine x y)
  end.
  { unfold same_but_engine. simpl. repeat split.
    eexists. eexists. eexists. split; reflexivity. }
  destruct (run_same W calls _ _ Hsame) as [Hreplies Hstate].
  split; [exact Hreplies|].
  split; [apply buildQuery_same; exact Hstate | exact Hstate].
Qed.

(** The statement above for the tags ['pg'] and ['mysql'] and the chain
    [from('users').where({role: 'admin'}).orderBy('name').limit(5)] followed
    by [get()], [first()], [count()] and [toSQL()]. *)
Lemma relational_engine_tag_is_never_consulted_witness :
  exists b1 b2,
    QueryBuilder.new Sample.online (VObj [("dbEngine", VStr "pg")]) = Return b1
    /\ QueryBuilder.new Sample.online (VObj [("dbEngine", VStr "mysql")])
         = Return b2
    /\ adapter b1 = KnexAdapter (VStr "pg") "db"
    /\ adapter b2 = KnexAdapter (VStr "mysql") "db"
    /\ snd (run Sample.online
                [call_from [VStr "users"];
                 call_where [VObj [("role", VStr "admin")]];
                 call_orderBy [VStr "name"]; call_limit [VNum 5];
                 call_get; call_first; call_count []; call_toSQL] b1) =
         snd (run Sample.online
                  [call_from [VStr "users"];
                   call_where [VObj [("role", VStr "admin")]];
                   call_orderBy [VStr "name"]; call_limit [VNum 5];
                   call_get; call_first; call_count []; call_toSQL] b2).
Proof.
  destruct (relational_engine_tag_is_never_consulted Sample.online
              (VObj [("dbEngine", VStr "pg")])
              (VObj [("dbEngine", VStr "mysql")])
              (VStr "pg") (VStr "mysql")
              [call_from [VStr "users"];
               call_where [VObj [("role", VStr "admin")]];
               call_orderBy [VStr "name"]; call_limit [VNum 5];
               call_get; call_first; call_count []; call_toSQL])
    as (b1 & b2 & H1 & H2 & H3 & H4 & H5 & _).
  - reflexivity.
  - reflexivity.
  - split; discriminate.
  - split; discriminate.
  - reflexivity.
  - exists b1, b2. repeat split; assumption.
Defined.

(** C10.  On a builder whose adapter is the document adapter, [count(f)],
    [count()] and [count('*')] are the same call: each settles as the
    adapter's [count(builder)] does, that is, with what [countDocuments]
    gives for the filter built from the conditions, and leaves the builder
    as it was. *)
Theorem document_count_ignores_field (W : World) (b : Builder) (f : Value) :
  adapter b = MongoAdapter ->
  QueryBuilder.count W [f] b = QueryBuilder.count W [] b
  /\ QueryBuilder.count W [f] b = QueryBuilder.count W [VStr "*"] b
  /\ QueryBuilder.count W [f] b = (b, MongoAdapter.count W b)
  /\ (forall filter,
        db_collection W (collection b) = Return tt ->
        MongoAdapter._buildFilter W (conditions b) = Return filter ->
        QueryBuilder.count W [f] b =
          (b, countDocuments W (collection b) filter)).
Proof.
  intros Hm. unfold QueryBuilder.count, QueryBuilder.adapter_count.
  rewrite Hm. repeat split.
  intros filter Hc Hf. unfold MongoAdapter.count, MongoAdapter._getCollection.
  rewrite Hc. simpl. rewrite Hf. reflexivity.
Qed.

(** The statement above for [count('name')] after
    [from('users').where('role', 'admin')]. *)
Lemma document_count_ignores_field_witness :
  QueryBuilder.count Sample.online [VStr "name"]
    (Sample.after Sample.online
       [call_from [VStr "users"]; call_where [VStr "role"; VStr "admin"]]
       (Sample.builder Sample.online "mongodb")) =
  QueryBuilder.count Sample.online []
    (Sample.after Sample.online
       [call_from [VStr "users"]; call_where [VStr "role"; VStr "admin"]]
       (Sample.builder Sample.online "mongodb")).
Proof.
  destruct (document_count_ignores_field Sample.online
              (Sample.after Sample.online
                 [call_from [VStr "users"];
                  call_where [VStr "role"; VStr "admin"]]
                 (Sample.builder Sample.online "mongodb"))
              (VStr "name")) as [H _].
  - reflexivity.
  - exact H.
Defined.

(* ================================================================== *)
(** ** Assignments to the properties of an object *)
(* ================================================================== *)

Section ObjectFacts.

Lemma has_own_false (k : string) (ps : Props) :
  has_own k ps = false <-> own_get k ps = None.
Proof. unfold has_own. destruct (own_get k ps); split; congruence. Qed.

Lemma own_get_replace_same (k : string) (v : Value) (ps : Props) :
  has_own k ps = true -> own_get k (own_replace k v ps) = Some v.
Proof.
  unfold has_own. induction ps as [|[k' v'] ps IH]; simpl; [discriminate|].
  destruct (k' =? k) eqn:E; simpl; rewrite E; [reflexivity | exact IH].
Qed.

Lemma own_get_replace_other (k k' : string) (v : Value) (ps : Props) :
  k' <> k -> own_get k' (own_replace k v ps) = own_get k' ps.
Proof.
  intros Hne. induction ps as [|[k0 v0] ps IH]; simpl; [reflexivity|].
  destruct (k0 =? k) eqn:E; simpl.
  - apply String.eqb_eq in E. subst k0.
    apply String.eqb_neq in Hne. rewrite String.eqb_sym in Hne.
    rewrite Hne. reflexivity.
  - rewrite IH. reflexivity.
Qed.

Lemma own_get_insert_index_same (n : N) (k : string) (v : Value) (ps : Props) :
  own_get k ps = None -> own_get k (insert_index n k v ps) = Some v.
Proof.
  induction ps as [|[k0 v0] ps IH]; simpl.
  - rewrite String.eqb_refl. reflexivity.
  - destruct (k0 =? k) eqn:E; [discriminate|]. intros Hnone.
    destruct (array_index k0) as [m|]; [destruct (m <? n)%N|]; simpl;
      rewrite ?E, ?String.eqb_refl; auto.
Qed.

Lemma own_get_insert_index_other
  (n : N) (k k' : string) (v : Value) (ps : Props) :
  k' <> k -> own_get k' (insert_index n k v ps) = own_get k' ps.
Proof.
  intros Hne. apply String.eqb_neq in Hne. rewrite String.eqb_sym in Hne.
  induction ps as [|[k0 v0] ps IH]; simpl.
  - rewrite Hne. reflexivity.
  - destruct (array_index k0) as [m|]; [destruct (m <? n)%N|]; simpl;
      rewrite ?Hne, ?IH; reflexivity.
Qed.

Lemma own_get_app_same (k : string) (v : Value) (ps : Props) :
  own_get k ps = None -> own_get k (ps ++ [(k, v)]) = Some v.
Proof.
  induction ps as [|[k0 v0] ps IH]; simpl.
  - rewrite String.eqb_refl. reflexivity.
  - destruct (k0 =? k); [discriminate | exact IH].
Qed.

Lemma own_get_app_other (k k' : string) (v : Value) (ps : Props) :
  k' <> k -> own_get k' (ps ++ [(k, v)]) = own_get k' ps.
Proof.
  intros Hne. apply String.eqb_neq in Hne. rewrite String.eqb_sym in Hne.
  induction ps as [|[k0 v0] ps IH]; simpl.
  - rewrite Hne. reflexivity.
  - rewrite IH. reflexivity.
Qed.

(** An assignment to a name other than [__proto__] stores the value. *)
Lemma obj_set_get_same (k : string) (v : Value) (ps : Props) :
  k <> "__proto__" -> own_get k (obj_set k v ps) = Some v.
Proof.
  intros Hk. unfold obj_set, obj_define.
  destruct (has_own k ps) eqn:Hown.
  - apply own_get_replace_same, Hown.
  - apply String.eqb_neq in Hk. rewrite Hk.
    apply has_own_false in Hown.
    destruct (array_index k).
    + apply own_get_insert_index_same, Hown.
    + apply own_get_app_same, Hown.
Qed.

(** An assignment leaves the other properties as they were. *)
Lemma obj_set_get_other (k k' : string) (v : Value) (ps : Props) :
  k' <> k -> own_get k' (obj_set k v ps) = own_get k' ps.
Proof.
  intros Hne. unfold obj_set, obj_define.
  destruct (has_own k ps).
  - apply own_get_replace_other, Hne.
  - destruct (k =? "__proto__"); [reflexivity|].
    destruct (array_index k).
    + apply own_get_insert_index_other, Hne.
    + apply own_get_app_other, Hne.
Qed.

(** An assignment to [__proto__] stores nothing in an object that does not
    own that name, and an object built by assignments never owns it. *)
Lemma obj_set_proto (v : Value) (ps : Props) :
  has_own "__proto__" ps = false -> obj_set "__proto__" v ps = ps.
Proof. intros H. unfold obj_set. rewrite H. reflexivity. Qed.

Lemma obj_set_never_owns_proto (k : string) (v : Value) (ps : Props) :
  has_own "__proto__" ps = false ->
  has_own "__proto__" (obj_set k v ps) = false.
Proof.
  intros H. destruct (string_dec k "__proto__") as [->|Hne].
  - rewrite obj_set_proto; assumption.
  - apply has_own_false. rewrite obj_set_get_other by congruence.
    apply has_own_false, H.
Qed.

End ObjectFacts.

(* ================================================================== *)
(** ** The filter of the document adapter *)
(* ================================================================== *)

Section FilterFacts.

Variable W : World.

(** One round of the loop: the property named by the condition receives
    its clause, unless the name is [__proto__]; the others are kept. *)
Lemma filter_step_entries (f f' : Props) (c : Condition) (k : string) :
  MongoAdapter.filter_step W f c = Return f' ->
  k <> "__proto__" ->
  own_get k f' =
    if MongoAdapter.names_field k c
    then match MongoAdapter.clause W c with
         | Return cl => Some cl
         | Throw _ => None
         end
    else own_get k f.
Proof.
  unfold MongoAdapter.filter_step, MongoAdapter.names_field.
  destruct (MongoAdapter.clause W c) as [cl|e]; simpl; [|discriminate].
  destruct (ToPropertyKey (field c)) as [k'|e]; simpl; [|discriminate].
  intros H Hk. injection H as <-.
  destruct (k' =? k) eqn:E.
  - apply String.eqb_eq in E. subst k'. apply obj_set_get_same, Hk.
  - apply String.eqb_neq in E. apply obj_set_get_other. congruence.
Qed.

Lemma filter_from_entries (cs : list Condition) :
  forall (f0 f : Props) (k : string),
    MongoAdapter.filter_from W f0 cs = Return f ->
    k <> "__proto__" ->
    own_get k f =
      match MongoAdapter.last_clause W k cs with
      | Some cl => Some cl
      | None => own_get k f0
      end.
Proof.
  induction cs as [|c rest IH]; intros f0 f k H Hk; simpl in *.
  - injection H as <-. reflexivity.
  - destruct (MongoAdapter.filter_step W f0 c) as [f1|e] eqn:Hstep;
      simpl in H; [|discriminate].
    rewrite (IH f1 f k H Hk).
    destruct (MongoAdapter.last_clause W k rest); [reflexivity|].
    rewrite (filter_step_entries f0 f1 c k Hstep Hk).
    destruct (MongoAdapter.names_field k c); [|reflexivity].
    unfold MongoAdapter.filter_step in Hstep.
    destruct (MongoAdapter.clause W c); [reflexivity | discriminate].
Qed.

(** The overwriting rule of [_buildFilter]: when it returns, the entry of
    the filter for a name other than [__proto__] is the clause of the last
    condition that names it, and there is an entry exactly when some
    condition names it. *)
Lemma buildFilter_entry (cs : list Condition) (f : Props) (k : string) :
  MongoAdapter._buildFilter W cs = Return f ->
  k <> "__proto__" ->
  own_get k f = MongoAdapter.last_clause W k cs.
Proof.
  intros H Hk. unfold MongoAdapter._buildFilter in H.
  rewrite (filter_from_entries cs [] f k H Hk).
  destruct (MongoAdapter.last_clause W k cs); reflexivity.
Qed.

Lemma filter_from_never_owns_proto (cs : list Condition) :
  forall f0 f : Props,
    has_own "__proto__" f0 = false ->
    MongoAdapter.filter_from W f0 cs = Return f ->
    has_own "__proto__" f = false.
Proof.
  induction cs as [|c rest IH]; intros f0 f H0 H; simpl in H.
  - injection H as <-. exact H0.
  - destruct (MongoAdapter.filter_step W f0 c) as [f1|e] eqn:Hstep;
      simpl in H; [|discriminate].
    apply (IH f1 f); [|exact H].
    unfold MongoAdapter.filter_step in Hstep.
    destruct (MongoAdapter.clause W c); simpl in Hstep; [|discriminate].
    destruct (ToPropertyKey (field c)); simpl in Hstep; [|discriminate].
    injection Hstep as <-. apply obj_set_never_owns_proto, H0.
Qed.

(** No condition puts an entry named [__proto__] in the filter. *)
Lemma buildFilter_never_owns_proto (cs : list Condition) (f : Props) :
  MongoAdapter._buildFilter W cs = Return f ->
  has_own "__proto__" f = false.
Proof. apply filter_from_never_owns_proto. reflexivity. Qed.

Lemma filter_from_snoc (cs : list Condition) (c : Condition) :
  forall f0 : Props,
    MongoAdapter.filter_from W f0 (cs ++ [c]) =
    (f <- MongoAdapter.filter_from W f0 cs ;; MongoAdapter.filter_step W f c).
Proof.
  induction cs as [|c0 rest IH]; intros f0; simpl.
  - destruct (MongoAdapter.filter_step W f0 c); reflexivity.
  - destruct (MongoAdapter.filter_step W f0 c0); simpl; [apply IH | reflexivity].
Qed.

(** [_buildFilter] returns when every clause can be built and every field
    can be used as a property name. *)
Lemma buildFilter_returns (cs : list Condition) :
  Forall (fun c => (exists cl, MongoAdapter.clause W c = Return cl)
                   /\ (exists k, ToPropertyKey (field c) = Return k)) cs ->
  exists f, MongoAdapter._buildFilter W cs = Return f.
Proof.
  unfold MongoAdapter._buildFilter. generalize (@nil (string * Value)).
  induction cs as [|c rest IH]; intros f0 Hall; simpl.
  - exists f0. reflexivity.
  - inversion Hall as [|c' rest' [[cl Hcl] [k Hk]] Hrest]; subst.
    unfold MongoAdapter.filter_step. rewrite Hcl, Hk. simpl.
    apply IH, Hrest.
Qed.

(** A tag that is neither an entry of the table nor a name reachable from
    an ordinary object is translated to [$eq]. *)
Lemma convertOperator_fallback (op : string) :
  MongoAdapter.lookup op MongoAdapter.operatorMap = None ->
  MongoAdapter.Object_prototype op = None ->
  MongoAdapter._convertOperator (VStr op) = Return (MongoAdapter.Op "$eq").
Proof.
  intros H1 H2. unfold MongoAdapter._convertOperator, ToPropertyKey.
  cbn [ToString Js.bind]. rewrite H1, H2. reflexivity.
Qed.

(** A tag that names a property of [Object.prototype] is translated to
    that property. *)
Lemma convertOperator_inherited (op : string) (what : MongoAdapter.Inherited) :
  MongoAdapter.lookup op MongoAdapter.operatorMap = None ->
  MongoAdapter.Object_prototype op = Some what ->
  MongoAdapter._convertOperator (VStr op) =
    Return (MongoAdapter.OpInherited what).
Proof.
  intros H1 H2. unfold MongoAdapter._convertOperator, ToPropertyKey.
  cbn [ToString Js.bind]. rewrite H1, H2. reflexivity.
Qed.

Lemma clause_fallback (op : string) (fld val : Value) :
  MongoAdapter.lookup op MongoAdapter.operatorMap = None ->
  MongoAdapter.Object_prototype op = None ->
  MongoAdapter.clause W (mkCondition fld (VStr op) val) =
    Return (VObj [("$eq", val)]).
Proof.
  intros H1 H2. unfold MongoAdapter.clause. cbn [operator value].
  rewrite (convertOperator_fallback op H1 H2). reflexivity.
Qed.

(** A membership test is stored with the list it was given, empty or not,
    under every field name but [__proto__]. *)
Lemma membership_clause_is_kept
  (cs : list Condition) (f : string) (values : Value) (filter0 : Props) :
  MongoAdapter._buildFilter W cs = Return filter0 ->
  f <> "__proto__" ->
  exists filter,
    MongoAdapter._buildFilter W (cs ++ [mkCondition (VStr f) (VStr "in") values])
      = Return filter
    /\ own_get f filter = Some (VObj [("$in", values)]).
Proof.
  intros H0 Hf. unfold MongoAdapter._buildFilter in *.
  rewrite filter_from_snoc, H0. simpl.
  assert (Hcl : MongoAdapter.clause W (mkCondition (VStr f) (VStr "in") values)
                = Return (VObj [("$in", values)])) by reflexivity.
  unfold MongoAdapter.filter_step. rewrite Hcl. simpl.
  eexists. split; [reflexivity|]. apply obj_set_get_same, Hf.
Qed.

End FilterFacts.

(* ================================================================== *)
(** ** The statement of the relational adapter *)
(* ================================================================== *)

Section StatementFacts.

Lemma fold_chain_calls {A : Type} (f : A -> KnexCall) (xs : list A) :
  forall q : KnexQuery,
    q_calls (fold_left (fun q x => chain q (f x)) xs q) =
    q_calls q ++ map f xs.
Proof.
  induction xs as [|x xs IH]; intros q; simpl.
  - rewrite app_nil_r. reflexivity.
  - rewrite IH. simpl. rewrite <- app_assoc. reflexivity.
Qed.

(** The calls [_buildQuery] makes: one per condition in insertion order,
    then the projection, the sort keys, the limit and the offset. *)
Lemma buildQuery_calls (b : Builder) :
  q_calls (KnexAdapter._buildQuery b) =
    map KnexAdapter.condition_call (conditions b)
    ++ (if (0 <? length (fields b))%nat then [K_select (fields b)] else [])
    ++ map (KnexAdapter.sort_call (sorts b)) (map fst (sorts b))
    ++ (if is_null (limitValue b) then [] else [K_limit (limitValue b)])
    ++ (if is_null (skipValue b) then [] else [K_offset (skipValue b)]).
Proof.
  unfold KnexAdapter._buildQuery.
  destruct (is_null (skipValue b)), (is_null (limitValue b));
    cbn [negb chain q_calls q_table];
    destruct (map fst (sorts b)) as [|k ks] eqn:Hs;
    cbn [length Nat.ltb Nat.leb map];
    destruct (fields b) as [|x xs] eqn:Hf;
    cbn [length Nat.ltb Nat.leb chain q_calls q_table];
    destruct (conditions b) as [|c cs] eqn:Hc;
    cbn [length Nat.ltb Nat.leb map];
    rewrite ?fold_chain_calls; cbn [fold_left chain q_calls q_table];
    rewrite ?fold_chain_calls; cbn [q_calls app map];
    rewrite ?app_nil_r, <- ?app_assoc; reflexivity.
Qed.

(** A condition whose tag is not one of ['in'], ['not in'], ['like'] is
    handed to [where] of the client with the tag as it is. *)
Lemma condition_call_verbatim (c : Condition) :
  is_string "in" (operator c) = false ->
  is_string "not in" (operator c) = false ->
  is_string "like" (operator c) = false ->
  KnexAdapter.condition_call c = K_where (field c) (operator c) (value c).
Proof.
  intros H1 H2 H3. unfold KnexAdapter.condition_call.
  rewrite H1, H2, H3. reflexivity.
Qed.

(** A membership test reaches the client as [whereIn] with the list it was
    given, empty or not. *)
Lemma membership_call_is_made (b : Builder) (f values : Value) :
  In (K_whereIn f values)
     (q_calls (KnexAdapter._buildQuery
                 (push_condition (mkCondition f (VStr "in") values) b))).
Proof.
  rewrite buildQuery_calls. apply in_or_app. left.
  simpl. rewrite map_app. apply in_or_app. right. left. reflexivity.
Qed.

End StatementFacts.

(* ================================================================== *)
(** ** [first()] and the limit *)
(* ================================================================== *)

Section FirstFacts.

Variable W : World.

Lemma set_limitValue_back (b : Builder) (n : Value) :
  set_limitValue (limitValue b) (set_limitValue n b) = b.
Proof. destruct b; reflexivity. Qed.

(** [first()] runs the query with the limit 1. *)
Lemma first_asks_for_one_row (b : Builder) :
  In (K_limit (VNum 1))
     (q_calls (KnexAdapter._buildQuery (set_limitValue (VNum 1) b))).
Proof.
  rewrite buildQuery_calls. cbn [limitValue set_limitValue is_null].
  apply in_or_app; right. apply in_or_app; right. apply in_or_app; right.
  apply in_or_app; left. left. reflexivity.
Qed.

(** When the query succeeds, the builder is as before the call, and the
    promise resolves to the first row, or to [null] when there is none. *)
Lemma first_after_success (b : Builder) (rows : list Value) :
  QueryBuilder.adapter_get W (set_limitValue (VNum 1) b) = Resolved (VArr rows) ->
  QueryBuilder.first W b =
    (b, Resolved (match rows with
                  | [] => VNull
                  | row :: _ => or_else row VNull
                  end)).
Proof.
  intros H. unfold QueryBuilder.first. rewrite H.
  cbn [limitValue set_limitValue]. 
  change (mkBuilder (options b) (table b) (collection b) (conditions b)
                    (fields b) (sorts b) (limitValue b) (skipValue b)
                    (adapter b) (dbEngine b)) with
    (set_limitValue (limitValue b) (set_limitValue (VNum 1) b)).
  rewrite set_limitValue_back.
  destruct rows; reflexivity.
Qed.

(** When the query fails, the assignment that restores the limit is not
    reached. *)
Lemma first_after_rejection (b : Builder) (e : Error) :
  QueryBuilder.adapter_get W (set_limitValue (VNum 1) b) = Rejected e ->
  QueryBuilder.first W b = (set_limitValue (VNum 1) b, Rejected e).
Proof. intros H. unfold QueryBuilder.first. rewrite H. reflexivity. Qed.

End FirstFacts.

(** C3, on the input where the code departs from it: after
    [from('users').limit(50)], with the backend unreachable, [first()]
    rejects and leaves [limitValue] at 1, on either adapter, so that the
    statement the relational adapter builds next carries the limit 1. *)
Theorem first_keeps_limit_one_after_rejection :
  let pg := Sample.after Sample.offline
              [call_from [VStr "users"]; call_limit [VNum 50]]
              (Sample.builder Sample.offline "pg") in
  let mongo := Sample.after Sample.offline
                 [call_from [VStr "users"]; call_limit [VNum 50]]
                 (Sample.builder Sample.offline "mongodb") in
  limitValue pg = VNum 50
  /\ QueryBuilder.first Sample.offline pg =
       (set_limitValue (VNum 1) pg, Rejected Sample.unreachable)
  /\ limitValue (fst (QueryBuilder.first Sample.offline pg)) = VNum 1
  /\ q_calls (KnexAdapter._buildQuery (fst (QueryBuilder.first Sample.offline pg)))
       = [K_limit (VNum 1)]
  /\ limitValue mongo = VNum 50
  /\ QueryBuilder.first Sample.offline mongo =
       (set_limitValue (VNum 1) mongo, Rejected Sample.unreachable)
  /\ limitValue (fst (QueryBuilder.first Sample.offline mongo)) = VNum 1.
Proof. vm_compute. repeat split; reflexivity. Qed.

(* ================================================================== *)
(** ** Names that an ordinary object does not store or already has *)
(* ================================================================== *)

Section InheritedNames.

Variable W : World.

(** A condition on the field [__proto__] leaves the filter as it was. *)
Lemma condition_on_proto_is_dropped
  (cs : list Condition) (op val : Value) (filter0 : Props) (cl : Value) :
  MongoAdapter._buildFilter W cs = Return filter0 ->
  MongoAdapter.clause W (mkCondition (VStr "__proto__") op val) = Return cl ->
  MongoAdapter._buildFilter W (cs ++ [mkCondition (VStr "__proto__") op val])
    = Return filter0.
Proof.
  intros H0 Hcl. pose proof (buildFilter_never_owns_proto W cs filter0 H0) as Hp.
  unfold MongoAdapter._buildFilter in *.
  rewrite filter_from_snoc, H0. cbn [Js.bind].
  unfold MongoAdapter.filter_step. rewrite Hcl. cbn [Js.bind field].
  unfold ToPropertyKey. cbn [ToString Js.bind].
  rewrite obj_set_proto by exact Hp. reflexivity.
Qed.

(** A pattern that [RegExp] refuses makes [_buildFilter] throw. *)
Lemma refused_pattern_throws (fld : Value) (s : string) :
  regexp_accepts W (replace_percent s) = false ->
  MongoAdapter._buildFilter W [mkCondition fld (VStr "like") (VStr s)] =
    Throw (SyntaxError
             ("Invalid regular expression: /" ++ replace_percent s ++ "/i")%string).
Proof.
  intros H. unfold MongoAdapter._buildFilter. cbn [MongoAdapter.filter_from].
  unfold MongoAdapter.filter_step.
  assert (Hcl : MongoAdapter.clause W (mkCondition fld (VStr "like") (VStr s)) =
                Throw (SyntaxError
                         ("Invalid regular expression: /"
                            ++ replace_percent s ++ "/i")%string)).
  { unfold MongoAdapter.clause. cbn [operator value].
    change (MongoAdapter._convertOperator (VStr "like"))
      with (Return (MongoAdapter.Op "$regex")).
    cbn [Js.bind MongoAdapter.is_op typeof andb].
    change ("$regex" =? "$regex") with true.
    change ("string" =? "string") with true. cbn [andb].
    unfold MongoAdapter.new_RegExp. rewrite H. reflexivity. }
  rewrite Hcl. reflexivity.
Qed.

(** On the document adapter a membership test on [__proto__] changes
    nothing in what [get()] asks the store. *)
Lemma membership_on_proto_changes_nothing
  (b : Builder) (values : Value) (filter0 : Props) :
  adapter b = MongoAdapter ->
  MongoAdapter._buildFilter W (conditions b) = Return filter0 ->
  snd (QueryBuilder.get W
         (push_condition (mkCondition (VStr "__proto__") (VStr "in") values) b))
  = snd (QueryBuilder.get W b).
Proof.
  intros Ha H0.
  unfold QueryBuilder.get, QueryBuilder.adapter_get, push_condition.
  cbn [snd adapter]. rewrite Ha.
  unfold MongoAdapter.get, MongoAdapter._buildOptions.
  cbn [collection conditions fields sorts limitValue skipValue].
  rewrite (condition_on_proto_is_dropped (conditions b) (VStr "in") values
             filter0 (VObj [("$in", values)]) H0 eq_refl).
  rewrite H0. reflexivity.
Qed.

End InheritedNames.

(** C4, on the input where the code departs from it.  On the document
    adapter [whereIn('__proto__', [])] leaves the filter empty, the filter
    of a query without conditions, and [get()] answers with every
    document of the sample store, where [whereIn('role', [])] gives the
    filter [{role: {$in: []}}] and no document.  On the relational adapter
    the empty list reaches the client in both cases. *)
Theorem empty_membership_on_proto_is_lost :
  let lost := Sample.after Sample.online
                [call_from [VStr "users"];
                 call_whereIn [VStr "__proto__"; VArr []]]
                (Sample.builder Sample.online "mongodb") in
  let kept := Sample.after Sample.online
                [call_from [VStr "users"];
                 call_whereIn [VStr "role"; VArr []]]
                (Sample.builder Sample.online "mongodb") in
  let sql := Sample.after Sample.online
               [call_from [VStr "users"];
                call_whereIn [VStr "__proto__"; VArr []]]
               (Sample.builder Sample.online "pg") in
  MongoAdapter._buildFilter Sample.online (conditions lost) = Return []
  /\ snd (QueryBuilder.get Sample.online lost) = Resolved (VArr Sample.users)
  /\ MongoAdapter._buildFilter Sample.online (conditions kept) =
       Return [("role", VObj [("$in", VArr [])])]
  /\ snd (QueryBuilder.get Sample.online kept) = Resolved (VArr [])
  /\ q_calls (KnexAdapter._buildQuery sql) =
       [K_whereIn (VStr "__proto__") (VArr [])]
  /\ snd (QueryBuilder.get Sample.online sql) = Resolved (VArr []).
Proof. vm_compute. repeat split; reflexivity. Qed.

(** C5, on the input where the code departs from it.  The tag
    ['constructor'] is not in the vocabulary; the relational adapter hands
    it on as it is, but the document adapter finds it on the prototype of
    its table, so the clause is keyed by the text of a function and not by
    [$eq].  A tag such as ['eq'], which nothing defines, does get [$eq]. *)
Theorem inherited_tag_is_not_translated_to_eq (W : World) :
  MongoAdapter.lookup "constructor" MongoAdapter.operatorMap = None
  /\ KnexAdapter.condition_call
       (mkCondition (VStr "age") (VStr "constructor") (VNum 18)) =
       K_where (VStr "age") (VStr "constructor") (VNum 18)
  /\ MongoAdapter._convertOperator (VStr "constructor") =
       Return (MongoAdapter.OpInherited (MongoAdapter.NativeFunction "Object"))
  /\ MongoAdapter._buildFilter W
       [mkCondition (VStr "age") (VStr "constructor") (VNum 18)] =
       Return [("age", VObj [("function Object() { [native code] }", VNum 18)])]
  /\ MongoAdapter._buildFilter W
       [mkCondition (VStr "age") (VStr "constructor") (VNum 18)] <>
       Return [("age", VObj [("$eq", VNum 18)])]
  /\ MongoAdapter._buildFilter W
       [mkCondition (VStr "age") (VStr "eq") (VNum 18)] =
       Return [("age", VObj [("$eq", VNum 18)])].
Proof. repeat split; try reflexivity. vm_compute. discriminate. Qed.

(** C6, on the input where the code departs from it.  Of the conditions
    [{__proto__ = 1}] and [{status = 'active'}], on distinct fields, only
    the second appears in the filter; and of two conditions on [__proto__]
    neither does.  On any other field the later condition replaces the
    earlier one. *)
Theorem condition_on_proto_does_not_appear (W : World) :
  MongoAdapter._buildFilter W
    [mkCondition (VStr "__proto__") (VStr "=") (VNum 1);
     mkCondition (VStr "status") (VStr "=") (VStr "active")] =
    Return [("status", VObj [("$eq", VStr "active")])]
  /\ MongoAdapter._buildFilter W
       [mkCondition (VStr "__proto__") (VStr ">") (VNum 1);
        mkCondition (VStr "__proto__") (VStr "<") (VNum 9)] = Return []
  /\ MongoAdapter._buildFilter W
       [mkCondition (VStr "age") (VStr ">") (VNum 1);
        mkCondition (VStr "age") (VStr "<") (VNum 9)] =
       Return [("age", VObj [("$lt", VNum 9)])].
Proof. repeat split; reflexivity. Qed.

(* ================================================================== *)
(** ** More on the properties of objects *)
(* ================================================================== *)

Section ObjectKeys.

Lemma own_get_none_iff (k : string) (ps : Props) :
  own_get k ps = None <-> ~ In k (map fst ps).
Proof.
  induction ps as [|[k0 v0] ps IH]; simpl.
  - split; [intros _ [] | reflexivity].
  - destruct (k0 =? k) eqn:E.
    + apply String.eqb_eq in E. subst k0. split; [discriminate|].
      intros H. exfalso. apply H. left. reflexivity.
    + apply String.eqb_neq in E. rewrite IH. split.
      * intros H [H1|H1]; [congruence | exact (H H1)].
      * intros H H1. apply H. right. exact H1.
Qed.

Lemma own_get_exists (k : string) (ps : Props) :
  own_get k ps = None <-> existsb (String.eqb k) (map fst ps) = false.
Proof.
  induction ps as [|[k0 v0] ps IH]; simpl; [split; reflexivity|].
  rewrite (String.eqb_sym k k0).
  destruct (k0 =? k); simpl; [split; discriminate | exact IH].
Qed.

Lemma keys_replace (k : string) (v : Value) (ps : Props) :
  map fst (own_replace k v ps) = map fst ps.
Proof.
  induction ps as [|[k0 v0] ps IH]; simpl; [reflexivity|].
  destruct (k0 =? k); simpl; [reflexivity | now rewrite IH].
Qed.

Lemma keys_insert_index (n : N) (k : string) (v : Value) (ps : Props) :
  forall k', In k' (map fst (insert_index n k v ps)) <->
             k' = k \/ In k' (map fst ps).
Proof.
  induction ps as [|[k0 v0] ps IH]; intros k'; simpl.
  - intuition congruence.
  - destruct (array_index k0) as [m|]; [destruct (m <? n)%N|]; simpl;
      rewrite ?IH; intuition congruence.
Qed.

Lemma nodup_insert_index (n : N) (k : string) (v : Value) (ps : Props) :
  NoDup (map fst ps) -> ~ In k (map fst ps) ->
  NoDup (map fst (insert_index n k v ps)).
Proof.
  induction ps as [|[k0 v0] ps IH]; simpl; intros Hnd Hk.
  - constructor; [intros [] | constructor].
  - inversion Hnd as [|x xs Hx Hxs]; subst.
    assert (Hcons : NoDup (k :: k0 :: map fst ps))
      by (constructor; [exact Hk | exact Hnd]).
    destruct (array_index k0) as [m|]; [destruct (m <? n)%N|]; simpl;
      try exact Hcons.
    constructor.
    + rewrite keys_insert_index. intros [->|H]; [|exact (Hx H)].
      apply Hk. left. reflexivity.
    + apply IH; [exact Hxs|]. intros H. apply Hk. right. exact H.
Qed.

Lemma keys_define (k : string) (v : Value) (ps : Props) :
  forall k', In k' (map fst (obj_define k v ps)) <->
             k' = k \/ In k' (map fst ps).
Proof.
  intros k'. unfold obj_define. destruct (has_own k ps) eqn:Hown.
  - rewrite keys_replace. split; [intros H; right; exact H|].
    intros [->|H]; [|exact H].
    unfold has_own in Hown. destruct (own_get k ps) eqn:E; [|discriminate].
    destruct (in_dec string_dec k (map fst ps)) as [Hin|Hout]; [exact Hin|].
    apply own_get_none_iff in Hout. congruence.
  - destruct (array_index k).
    + apply keys_insert_index.
    + rewrite map_app, in_app_iff. simpl. intuition congruence.
Qed.

Lemma nodup_define (k : string) (v : Value) (ps : Props) :
  NoDup (map fst ps) -> NoDup (map fst (obj_define k v ps)).
Proof.
  intros Hnd. unfold obj_define. destruct (has_own k ps) eqn:Hown.
  - rewrite keys_replace. exact Hnd.
  - apply has_own_false, own_get_none_iff in Hown.
    destruct (array_index k).
    + apply nodup_insert_index; assumption.
    + rewrite map_app. simpl. apply NoDup_app; [exact Hnd | | ].
      * constructor; [intros [] | constructor].
      * intros x Hx [<-|[]]. exact (Hown Hx).
Qed.

Lemma keys_set (k : string) (v : Value) (ps : Props) :
  forall k', In k' (map fst (obj_set k v ps)) -> k' = k \/ In k' (map fst ps).
Proof.
  intros k'. unfold obj_set. destruct (has_own k ps).
  - rewrite keys_replace. intros H; right; exact H.
  - destruct (k =? "__proto__"); [intros H; right; exact H|].
    apply keys_define.
Qed.

Lemma nodup_set (k : string) (v : Value) (ps : Props) :
  NoDup (map fst ps) -> NoDup (map fst (obj_set k v ps)).
Proof.
  intros Hnd. unfold obj_set. destruct (has_own k ps).
  - rewrite keys_replace. exact Hnd.
  - destruct (k =? "__proto__"); [exact Hnd | apply nodup_define, Hnd].
Qed.

Lemma length_replace (k : string) (v : Value) (ps : Props) :
  length (own_replace k v ps) = length ps.
Proof.
  rewrite <- (length_map fst (own_replace k v ps)), keys_replace.
  apply length_map.
Qed.

Lemma length_insert_index (n : N) (k : string) (v : Value) (ps : Props) :
  length (insert_index n k v ps) = S (length ps).
Proof.
  induction ps as [|[k0 v0] ps IH]; simpl; [reflexivity|].
  destruct (array_index k0) as [m|]; [destruct (m <? n)%N|]; simpl;
    rewrite ?IH; reflexivity.
Qed.

Lemma length_set (k : string) (v : Value) (ps : Props) :
  (length (obj_set k v ps) <= S (length ps))%nat.
Proof.
  unfold obj_set, obj_define. destruct (has_own k ps).
  - rewrite length_replace. lia.
  - destruct (k =? "__proto__"); [lia|].
    destruct (array_index k).
    + rewrite length_insert_index. lia.
    + rewrite length_app. simpl. lia.
Qed.

Lemma obj_define_get_same (k : string) (v : Value) (ps : Props) :
  own_get k (obj_define k v ps) = Some v.
Proof.
  unfold obj_define. destruct (has_own k ps) eqn:Hown.
  - apply own_get_replace_same, Hown.
  - apply has_own_false in Hown. destruct (array_index k).
    + apply own_get_insert_index_same, Hown.
    + apply own_get_app_same, Hown.
Qed.

Lemma obj_define_get_other (k k' : string) (v : Value) (ps : Props) :
  k' <> k -> own_get k' (obj_define k v ps) = own_get k' ps.
Proof.
  intros Hne. unfold obj_define. destruct (has_own k ps).
  - apply own_get_replace_other, Hne.
  - destruct (array_index k).
    + apply own_get_insert_index_other, Hne.
    + apply own_get_app_other, Hne.
Qed.

(** Defining the properties [x := g x] for the names of a list, one after
    the other. *)
Lemma fold_define_get (g : string -> Value) (keys : list string) :
  forall (acc : Props) (k : string),
    own_get k (fold_left (fun acc x => obj_define x (g x) acc) keys acc) =
    if existsb (String.eqb k) keys then Some (g k) else own_get k acc.
Proof.
  induction keys as [|x rest IH]; intros acc k; simpl; [reflexivity|].
  rewrite IH. destruct (k =? x) eqn:E; simpl.
  - apply String.eqb_eq in E. subst x. rewrite obj_define_get_same.
    destruct (existsb (String.eqb k) rest); reflexivity.
  - apply String.eqb_neq in E. rewrite obj_define_get_other by exact E.
    reflexivity.
Qed.

Lemma fold_define_nodup (g : string -> Value) (keys : list string) :
  forall acc : Props,
    NoDup (map fst acc) ->
    NoDup (map fst (fold_left (fun acc x => obj_define x (g x) acc) keys acc)).
Proof.
  induction keys as [|x rest IH]; intros acc H; simpl; [exact H|].
  apply IH, nodup_define, H.
Qed.

(** What a spread of an object leaves under each name. *)
Lemma spread_into_get (acc ps : Props) (k : string) :
  own_get k (Plugin.spread_into acc (VObj ps)) =
  match own_get k ps with
  | Some v => Some v
  | None => own_get k acc
  end.
Proof.
  unfold Plugin.spread_into. cbn [Object_keys].
  rewrite (fold_define_get (get_own_key (VObj ps))).
  destruct (own_get k ps) as [v|] eqn:E.
  - assert (Hex : existsb (String.eqb k) (map fst ps) = true).
    { destruct (existsb (String.eqb k) (map fst ps)) eqn:Hex; [reflexivity|].
      apply own_get_exists in Hex. congruence. }
    rewrite Hex. cbn [get_own_key]. rewrite E. reflexivity.
  - apply own_get_exists in E. rewrite E. reflexivity.
Qed.

End ObjectKeys.

(* ================================================================== *)
(** ** Further properties of the builder *)
(* ================================================================== *)

Section BuilderMore.

Variable W : World.

Lemma equalities_of_nodup (ps : Props) :
  NoDup (map fst ps) ->
  QueryBuilder.equalities (VObj ps) (map fst ps) =
  map (fun kv => mkCondition (VStr (fst kv)) (VStr "=") (snd kv)) ps.
Proof.
  unfold QueryBuilder.equalities. rewrite map_map.
  intros Hnd. apply map_ext_in. intros [k v] Hin. cbn [fst snd get_own_key].
  assert (Hget : own_get k ps = Some v).
  { induction ps as [|[k0 v0] ps IH]; [destruct Hin|].
    simpl in *. inversion Hnd as [|x xs Hx Hxs]; subst.
    destruct Hin as [Heq|Hin].
    - injection Heq as -> ->. rewrite String.eqb_refl. reflexivity.
    - destruct (k0 =? k) eqn:E; [|apply IH; assumption].
      apply String.eqb_eq in E. subst k0. exfalso. apply Hx.
      change k with (fst (k, v)). apply in_map, Hin. }
  rewrite Hget. reflexivity.
Qed.

Lemma exec_extends_conditions (c : Call) (b : Builder) :
  exists added, conditions (fst (exec W c b)) = conditions b ++ added.
Proof.
  destruct c; cbn [exec];
    try (exists []; rewrite app_nil_r; reflexivity);
    try (eexists [_]; reflexivity).
  - unfold QueryBuilder.where_.
    destruct (typeof (arg 0 args) =? "object").
    + destruct (Object_keys (arg 0 args)) as [keys|e]; cbn [Js.bind chained fst].
      * rewrite push_conditions_spec. eexists. reflexivity.
      * exists []. rewrite app_nil_r. reflexivity.
    + destruct (is_undefined (arg 2 args)); eexists [_]; reflexivity.
  - unfold QueryBuilder.orderBy.
    destruct (QueryBuilder.lowered W _); cbn [Js.bind chained fst];
      [|exists []; rewrite app_nil_r; reflexivity].
    destruct (ToPropertyKey (arg 0 args)); cbn [Js.bind chained fst];
      exists []; rewrite app_nil_r; reflexivity.
  - unfold QueryBuilder.first, awaited.
    destruct (QueryBuilder.adapter_get W _); cbn [fst];
      exists []; rewrite app_nil_r; reflexivity.
  - destruct (QueryBuilder.toSQL W b); exists []; rewrite app_nil_r;
      reflexivity.
Qed.

Lemma exec_keeps_dbEngine (c : Call) (b : Builder) :
  dbEngine (fst (exec W c b)) = dbEngine b.
Proof.
  destruct c; cbn [exec]; try reflexivity.
  - unfold QueryBuilder.where_.
    destruct (typeof (arg 0 args) =? "object").
    + destruct (Object_keys (arg 0 args)); cbn [Js.bind chained fst];
        [rewrite push_conditions_spec|]; reflexivity.
    + destruct (is_undefined (arg 2 args)); reflexivity.
  - unfold QueryBuilder.orderBy.
    destruct (QueryBuilder.lowered W _); cbn [Js.bind chained fst];
      [|reflexivity].
    destruct (ToPropertyKey (arg 0 args)); reflexivity.
  - unfold QueryBuilder.first, awaited.
    destruct (QueryBuilder.adapter_get W _); reflexivity.
  - destruct (QueryBuilder.toSQL W b); reflexivity.
Qed.

Lemma run_keeps_dbEngine (cs : list Call) (b : Builder) :
  dbEngine (fst (run W cs b)) = dbEngine b.
Proof.
  revert b; induction cs as [|c cs IH]; intros b; simpl; [reflexivity|].
  pose proof (exec_keeps_dbEngine c b) as H1.
  destruct (exec W c b) as [b1 r]. pose proof (IH b1) as H2.
  destruct (run W cs b1) as [b2 rs]. simpl in *. congruence.
Qed.

End BuilderMore.

(** X1.  [where] with an object as first argument appends one equality
    condition per own key of the object, in the order of [Object.keys],
    with the value read under that key, and ignores the other arguments;
    [where({})] changes nothing, and [where(null)] throws a [TypeError]
    (the type of [null] is ['object']). *)
Theorem where_object_appends_one_equality_per_key
  (ps : Props) (rest : list Value) (b : Builder) :
  NoDup (map fst ps) ->
  QueryBuilder.where_ (VObj ps :: rest) b =
    Return (mkBuilder (options b) (table b) (collection b)
              (conditions b ++
               map (fun kv => mkCondition (VStr (fst kv)) (VStr "=") (snd kv)) ps)
              (fields b) (sorts b) (limitValue b) (skipValue b) (adapter b)
              (dbEngine b))
  /\ QueryBuilder.where_ (VObj [] :: rest) b = Return b
  /\ QueryBuilder.where_ (VNull :: rest) b =
       Throw (TypeError "Cannot convert undefined or null to object").
Proof.
  intros Hnd. split; [|split].
  - unfold QueryBuilder.where_. cbn [arg nth typeof String.eqb Ascii.eqb].
    change ("object" =? "object") with true. cbn [Object_keys Js.bind].
    rewrite push_conditions_spec, (equalities_of_nodup ps Hnd). reflexivity.
  - unfold QueryBuilder.where_. cbn [arg nth typeof].
    change ("object" =? "object") with true. cbn.
    destruct b; reflexivity.
  - reflexivity.
Qed.

(** The statement above on [where({status: 'active', age: 18})]. *)
Lemma where_object_appends_one_equality_per_key_witness :
  QueryBuilder.where_
    [VObj [("status", VStr "active"); ("age", VNum 18)]]
    (Sample.builder Sample.online "pg") =
  Return (mkBuilder (VObj [("dbEngine", VStr "pg")]) VNull VNull
            [mkCondition (VStr "status") (VStr "=") (VStr "active");
             mkCondition (VStr "age") (VStr "=") (VNum 18)]
            [] [] VNull VNull (KnexAdapter (VStr "pg") "db") (VStr "pg")).
Proof.
  destruct (where_object_appends_one_equality_per_key
              [("status", VStr "active"); ("age", VNum 18)] []
              (Sample.builder Sample.online "pg")) as [H _].
  - repeat constructor; simpl; intuition discriminate.
  - exact H.
Defined.

(** X2.  No call removes or reorders a condition: after any sequence of
    calls, execution methods included, the conditions the builder had are a
    prefix of those it has.  A builder that is used for a second query
    carries the conditions of the first. *)
Theorem conditions_only_grow (W : World) (calls : list Call) (b : Builder) :
  exists added,
    conditions (fst (run W calls b)) = conditions b ++ added.
Proof.
  revert b; induction calls as [|c cs IH]; intros b; simpl.
  - exists []. rewrite app_nil_r. reflexivity.
  - destruct (exec_extends_conditions W c b) as [a1 H1].
    destruct (exec W c b) as [b1 r]. destruct (IH b1) as [a2 H2].
    destruct (run W cs b1) as [b2 rs]. simpl in *.
    exists (a1 ++ a2). rewrite H2, H1, app_assoc. reflexivity.
Qed.

(** X3.  [first()] changes nothing in the builder but [limitValue]: when
    the adapter's [get] resolves the builder is exactly as before the call,
    and when it rejects the builder differs from before only in
    [limitValue], which is 1, and [first()] rejects with the same error. *)
Theorem first_touches_only_the_limit (W : World) (b : Builder) :
  (exists results,
      QueryBuilder.adapter_get W (set_limitValue (VNum 1) b) = Resolved results
      /\ fst (QueryBuilder.first W b) = b)
  \/ (exists e,
        QueryBuilder.adapter_get W (set_limitValue (VNum 1) b) = Rejected e
        /\ QueryBuilder.first W b = (set_limitValue (VNum 1) b, Rejected e)).
Proof.
  unfold QueryBuilder.first.
  destruct (QueryBuilder.adapter_get W (set_limitValue (VNum 1) b))
    as [results|e].
  - left. exists results. split; [reflexivity|]. destruct b; reflexivity.
  - right. exists e. split; reflexivity.
Qed.

(** X4.  When the adapter's [get] resolves with an array, [first()]
    leaves the builder as it was and resolves to the first row, or to
    [null] when the array is empty or its first element is falsy; when it
    resolves with [null] or [undefined], [first()] rejects with a
    [TypeError], the limit being restored all the same. *)
Theorem first_resolves_to_the_first_row
  (W : World) (b : Builder) (results : Value) :
  QueryBuilder.adapter_get W (set_limitValue (VNum 1) b) = Resolved results ->
  (forall rows, results = VArr rows ->
     QueryBuilder.first W b =
       (b, Resolved (match rows with
                     | [] => VNull
                     | row :: _ => if truthy row then row else VNull
                     end)))
  /\ (results = VNull \/ results = VUndefined ->
      exists msg, QueryBuilder.first W b = (b, Rejected (TypeError msg))).
Proof.
  intros H. split.
  - intros rows ->. apply (first_after_success W b rows H).
  - intros Hnull. unfold QueryBuilder.first. rewrite H.
    cbn [limitValue set_limitValue].
    change (mkBuilder (options b) (table b) (collection b) (conditions b)
                      (fields b) (sorts b) (limitValue b) (skipValue b)
                      (adapter b) (dbEngine b)) with
      (set_limitValue (limitValue b) (set_limitValue (VNum 1) b)).
    rewrite set_limitValue_back.
    destruct Hnull as [-> | ->]; eexists; reflexivity.
Qed.

(** The statement above on the relational sample: the first of the two
    users, and the builder as it was. *)
Lemma first_resolves_to_the_first_row_witness :
  QueryBuilder.first Sample.online
    (Sample.after Sample.online
       [call_from [VStr "users"]; call_limit [VNum 50]]
       (Sample.builder Sample.online "pg")) =
  (Sample.after Sample.online
     [call_from [VStr "users"]; call_limit [VNum 50]]
     (Sample.builder Sample.online "pg"),
   Resolved (VObj [("name", VStr "ann"); ("role", VStr "admin")])).
Proof.
  destruct (first_resolves_to_the_first_row Sample.online
              (Sample.after Sample.online
                 [call_from [VStr "users"]; call_limit [VNum 50]]
                 (Sample.builder Sample.online "pg"))
              (VArr Sample.users)) as [H _].
  - reflexivity.
  - exact (H Sample.users eq_refl).
Defined.

Section OrderByFacts.

Variable W : World.

Lemma orderBy_strings (f d : string) (b : Builder) :
  QueryBuilder.orderBy W [VStr f; VStr d] b =
  Return (set_sorts (obj_set f (VStr (toLowerCase W d)) (sorts b)) b).
Proof. reflexivity. Qed.

End OrderByFacts.

(** X5.  [orderBy] keeps one entry per field: sorting on a field again
    replaces its direction, lower-cased, in place, so that the sort keys
    and their order are those of the first call; and the direction defaults
    to ['asc'].  (The field [__proto__] is never stored.) *)
Theorem orderBy_keeps_one_entry_per_field
  (W : World) (f d1 d2 : string) (b : Builder) :
  f <> "__proto__" ->
  exists b1 b2,
    QueryBuilder.orderBy W [VStr f; VStr d1] b = Return b1
    /\ QueryBuilder.orderBy W [VStr f; VStr d2] b1 = Return b2
    /\ own_get f (sorts b1) = Some (VStr (toLowerCase W d1))
    /\ own_get f (sorts b2) = Some (VStr (toLowerCase W d2))
    /\ map fst (sorts b2) = map fst (sorts b1)
    /\ (NoDup (map fst (sorts b)) -> NoDup (map fst (sorts b2)))
    /\ QueryBuilder.orderBy W [VStr f] b =
         QueryBuilder.orderBy W [VStr f; VStr "asc"] b.
Proof.
  intros Hf. rewrite orderBy_strings.
  eexists. eexists. split; [reflexivity|].
  rewrite orderBy_strings. split; [reflexivity|].
  cbn [sorts set_sorts].
  pose proof (obj_set_get_same f (VStr (toLowerCase W d1)) (sorts b) Hf) as H1.
  split; [exact H1|]. split; [apply obj_set_get_same, Hf|].
  split.
  - unfold obj_set at 1.
    assert (Hown : has_own f (obj_set f (VStr (toLowerCase W d1)) (sorts b))
                   = true) by (unfold has_own; rewrite H1; reflexivity).
    rewrite Hown. apply keys_replace.
  - split; [|reflexivity].
    intros Hnd. apply nodup_set, nodup_set, Hnd.
Qed.

(** The statement above on [orderBy('created_at', 'DESC')] followed by
    [orderBy('created_at', 'ASC')]. *)
Lemma orderBy_keeps_one_entry_per_field_witness :
  exists b1 b2,
    QueryBuilder.orderBy Sample.online [VStr "created_at"; VStr "DESC"]
                         (Sample.builder Sample.online "pg") = Return b1
    /\ QueryBuilder.orderBy Sample.online [VStr "created_at"; VStr "ASC"] b1
         = Return b2
    /\ sorts b1 = [("created_at", VStr "desc")]
    /\ sorts b2 = [("created_at", VStr "asc")].
Proof.
  destruct (orderBy_keeps_one_entry_per_field Sample.online
              "created_at" "DESC" "ASC" (Sample.builder Sample.online "pg"))
    as (b1 & b2 & H1 & H2 & _).
  - discriminate.
  - exists b1, b2. split; [exact H1|]. split; [exact H2|].
    vm_compute in H1. injection H1 as <-.
    vm_compute in H2. injection H2 as <-.
    split; reflexivity.
Defined.

(** X6.  [orderBy] with a direction that is [null], a boolean, a number,
    an array, a [RegExp] or an object whose properties are all data throws a
    [TypeError]: none of these has a callable [toLowerCase], and the default
    ['asc'] applies to [undefined] only.  The builder is then as it was.
    (Objects that carry a [toLowerCase] method, such as [new String('DESC')],
    are not among the values of the model.) *)
Theorem orderBy_needs_a_string_direction
  (W : World) (f d : Value) (rest : list Value) (b : Builder) :
  d = VNull
  \/ (exists t, d = VBool t)
  \/ (exists z, d = VNum z)
  \/ (exists xs, d = VArr xs)
  \/ (exists src flags, d = VRegExp src flags)
  \/ (exists ps, d = VObj ps) ->
  (exists msg,
      QueryBuilder.orderBy W (f :: d :: rest) b = Throw (TypeError msg))
  /\ fst (exec W (call_orderBy (f :: d :: rest)) b) = b
  /\ sorts (fst (exec W (call_orderBy (f :: d :: rest)) b)) = sorts b.
Proof.
  intros Hd.
  assert (H : exists msg,
             QueryBuilder.orderBy W (f :: d :: rest) b = Throw (TypeError msg)).
  { unfold QueryBuilder.orderBy.
    change (arg 1 (f :: d :: rest)) with d.
    destruct Hd as [-> | [[t ->] | [[z ->] | [[xs ->] | [[src [flags ->]]
                                                       | [ps ->]]]]]];
      eexists; reflexivity. }
  split; [exact H|].
  destruct H as [msg H]. cbn [exec]. rewrite H. split; reflexivity.
Qed.

(** The statement above on [orderBy('name', null)]. *)
Lemma orderBy_needs_a_string_direction_witness :
  fst (exec Sample.online (call_orderBy [VStr "name"; VNull])
            (Sample.builder Sample.online "pg")) =
  Sample.builder Sample.online "pg".
Proof.
  apply (orderBy_needs_a_string_direction Sample.online
           (VStr "name") VNull [] (Sample.builder Sample.online "pg")).
  left. reflexivity.
Defined.

Section ConstructorFacts.

Variable W : World.

Lemma is_string_true (s : string) (v : Value) :
  is_string s v = true <-> v = VStr s.
Proof.
  destruct v; simpl; split; try discriminate.
  - intros H. apply String.eqb_eq in H. congruence.
  - intros H. injection H as ->. apply String.eqb_refl.
Qed.

Lemma effective_engine_truthy (requested : Value) :
  truthy (QueryBuilder.effective_engine W requested) = true.
Proof.
  unfold QueryBuilder.effective_engine, or_else.
  destruct (truthy requested) eqn:E1; [rewrite E1; exact E1|].
  destruct (truthy (env_value (env_DB_ENGINE W))) eqn:E2;
    rewrite ?E2; reflexivity.
Qed.

(** What the constructor returns, when it returns. *)
Lemma new_returns (opts : Value) (b : Builder) :
  QueryBuilder.new W opts = Return b ->
  exists requested,
    get_field (if is_undefined opts then VObj [] else opts) "dbEngine"
      = Return requested
    /\ b = mkBuilder (if is_undefined opts then VObj [] else opts)
                     VNull VNull [] [] [] VNull VNull (adapter b)
                     (QueryBuilder.effective_engine W requested)
    /\ QueryBuilder._initAdapter W (QueryBuilder.effective_engine W requested)
       = Return (adapter b).
Proof.
  unfold QueryBuilder.new.
  destruct (get_field _ "dbEngine") as [requested|e]; cbn [Js.bind];
    [|discriminate].
  destruct (QueryBuilder._initAdapter W _) as [a|e] eqn:Ha; cbn [Js.bind];
    [|discriminate].
  intros H. injection H as <-. exists requested.
  repeat split. exact Ha.
Qed.

End ConstructorFacts.

(** X7.  The adapter of a builder always matches the tag it stores: for a
    builder the constructor returned, and after any sequence of calls on
    it, the adapter is the document adapter exactly when [dbEngine] is
    ['mongodb'] or ['mongo'], and otherwise it is the relational adapter
    holding that same tag and the registered client named by
    [DB_DECORATOR] (['db'] by default); the tag is never falsy. *)
Theorem adapter_matches_engine_tag
  (W : World) (opts : Value) (calls : list Call) (b : Builder) :
  QueryBuilder.new W opts = Return b ->
  dbEngine (fst (run W calls b)) = dbEngine b
  /\ truthy (dbEngine b) = true
  /\ (adapter (fst (run W calls b)) = MongoAdapter <->
      dbEngine b = VStr "mongodb" \/ dbEngine b = VStr "mongo")
  /\ (forall e knex,
        adapter (fst (run W calls b)) = KnexAdapter e knex ->
        e = dbEngine b /\ knex = decorator W /\ fastify_knex W knex = true).
Proof.
  intros Hnew. destruct (new_returns W opts b Hnew) as (req & _ & Hb & Ha).
  rewrite run_keeps_adapter, run_keeps_dbEngine.
  assert (Hd : dbEngine b = QueryBuilder.effective_engine W req)
    by (rewrite Hb; reflexivity).
  rewrite Hd. clear Hb Hnew.
  pose proof (effective_engine_truthy W req) as Ht.
  set (engine := QueryBuilder.effective_engine W req) in *.
  split; [reflexivity|]. split; [exact Ht|].
  unfold QueryBuilder._initAdapter in Ha.
  destruct (is_string "mongodb" engine || is_string "mongo" engine) eqn:Em.
  - unfold MongoAdapter.new in Ha.
    destruct (negb (fastify_mongoose W)); [discriminate|].
    injection Ha as <-. split.
    + split; [intros _|reflexivity].
      apply orb_true_iff in Em.
      destruct Em as [E|E]; apply is_string_true in E; auto.
    + intros e knex H. discriminate.
  - unfold KnexAdapter.new, or_else in Ha. rewrite Ht in Ha.
    destruct (negb (fastify_knex W (decorator W))) eqn:Ek; [discriminate|].
    injection Ha as <-. apply orb_false_iff in Em. destruct Em as [E1 E2].
    split.
    + split; [discriminate|].
      intros [H|H]; apply is_string_true in H; congruence.
    + intros e knex H. injection H as <- <-.
      apply negb_false_iff in Ek. repeat split. exact Ek.
Qed.

(** The statement above for [new QueryBuilder(fastify, {dbEngine:
    'mysql'})] followed by [from('users').where('id', 1)] and [get()]. *)
Lemma adapter_matches_engine_tag_witness :
  QueryBuilder.new Sample.online (VObj [("dbEngine", VStr "mysql")]) =
    Return (Sample.builder Sample.online "mysql")
  /\ dbEngine (fst (run Sample.online
                        [call_from [VStr "users"];
                         call_where [VStr "id"; VNum 1]; call_get]
                        (Sample.builder Sample.online "mysql")))
       = VStr "mysql"
  /\ fastify_knex Sample.online "db" = true.
Proof.
  assert (Hnew : QueryBuilder.new Sample.online
                   (VObj [("dbEngine", VStr "mysql")]) =
                 Return (Sample.builder Sample.online "mysql"))
    by reflexivity.
  split; [exact Hnew|].
  destruct (adapter_matches_engine_tag Sample.online
              (VObj [("dbEngine", VStr "mysql")])
              [call_from [VStr "users"]; call_where [VStr "id"; VNum 1];
               call_get]
              (Sample.builder Sample.online "mysql") Hnew)
    as (H1 & _ & _ & H4).
  split; [exact H1|].
  exact (proj2 (proj2 (H4 (VStr "mysql") "db" eq_refl))).
Defined.

(** X8.  The constructor fails when the client of the selected family is
    not registered: with a tag of the document family and no
    [fastify.mongoose] it throws the error of the document adapter, with
    any other tag and no client under [fastify.knex] that of the relational
    adapter; and [null] as options makes it throw a [TypeError] before any
    adapter is chosen. *)
Theorem constructor_fails_without_client
  (W : World) (opts requested : Value) :
  get_field (if is_undefined opts then VObj [] else opts) "dbEngine"
    = Return requested ->
  (QueryBuilder.effective_engine W requested = VStr "mongodb"
   \/ QueryBuilder.effective_engine W requested = VStr "mongo" ->
   fastify_mongoose W = false ->
   QueryBuilder.new W opts =
     Throw (PlainError "Mongoose instance tidak ditemukan di fastify"))
  /\ (relational_tag (QueryBuilder.effective_engine W requested) ->
      fastify_knex W (decorator W) = false ->
      QueryBuilder.new W opts =
        Throw (PlainError "Knex instance tidak ditemukan di fastify"))
  /\ (exists msg, QueryBuilder.new W VNull = Throw (TypeError msg)).
Proof.
  intros Hreq. split; [|split].
  - intros Htag Hm. unfold QueryBuilder.new. rewrite Hreq. cbn [Js.bind].
    unfold QueryBuilder._initAdapter, MongoAdapter.new.
    destruct Htag as [-> | ->]; cbn [is_string String.eqb orb];
      rewrite Hm; reflexivity.
  - intros Htag Hk.
    apply (new_relational_without_client W opts requested Hreq Htag Hk).
  - eexists. reflexivity.
Qed.

(** The statement above on an installation without clients, for the tags
    ['mongodb'] and ['sqlite']. *)
Lemma constructor_fails_without_client_witness :
  QueryBuilder.new Sample.bare (VObj [("dbEngine", VStr "mongodb")]) =
    Throw (PlainError "Mongoose instance tidak ditemukan di fastify")
  /\ QueryBuilder.new Sample.bare (VObj [("dbEngine", VStr "sqlite")]) =
       Throw (PlainError "Knex instance tidak ditemukan di fastify").
Proof.
  split.
  - apply (constructor_fails_without_client Sample.bare
             (VObj [("dbEngine", VStr "mongodb")]) (VStr "mongodb")).
    + reflexivity.
    + left. reflexivity.
    + reflexivity.
  - apply (constructor_fails_without_client Sample.bare
             (VObj [("dbEngine", VStr "sqlite")]) (VStr "sqlite")).
    + reflexivity.
    + split; discriminate.
    + reflexivity.
Defined.

(* ================================================================== *)
(** ** Further properties of the relational adapter *)
(* ================================================================== *)

Section StatementMore.

Lemma fold_chain_table {A : Type} (f : A -> KnexCall) (xs : list A) :
  forall q : KnexQuery,
    q_table (fold_left (fun q x => chain q (f x)) xs q) = q_table q.
Proof.
  induction xs as [|x xs IH]; intros q; simpl; [reflexivity|].
  rewrite IH. reflexivity.
Qed.

Lemma buildQuery_table (b : Builder) :
  q_table (KnexAdapter._buildQuery b) = table b.
Proof.
  unfold KnexAdapter._buildQuery.
  destruct (negb (is_null (skipValue b))), (negb (is_null (limitValue b)));
    cbn [chain q_table];
    destruct (0 <? length (map fst (sorts b)))%nat;
    rewrite ?fold_chain_table;
    destruct (0 <? length (fields b))%nat; cbn [chain q_table];
    destruct (0 <? length (conditions b))%nat;
    rewrite ?fold_chain_table; reflexivity.
Qed.

(** The calls that follow the predicates. *)
Lemma buildQuery_calls_push (c : Condition) (b : Builder) :
  exists rest,
    q_calls (KnexAdapter._buildQuery b) =
      map KnexAdapter.condition_call (conditions b) ++ rest
    /\ q_calls (KnexAdapter._buildQuery (push_condition c b)) =
         map KnexAdapter.condition_call (conditions b)
         ++ KnexAdapter.condition_call c :: rest.
Proof.
  eexists. split; [apply buildQuery_calls|].
  rewrite buildQuery_calls.
  cbn [conditions fields sorts limitValue skipValue push_condition].
  rewrite map_app, <- app_assoc. reflexivity.
Qed.

Lemma condition_call_is_predicate (c : Condition) (n : Value) :
  KnexAdapter.condition_call c <> K_limit n
  /\ KnexAdapter.condition_call c <> K_offset n.
Proof.
  unfold KnexAdapter.condition_call.
  destruct (is_string "in" (operator c)); [split; discriminate|].
  destruct (is_string "not in" (operator c)); [split; discriminate|].
  destruct (is_string "like" (operator c)); split; discriminate.
Qed.

End StatementMore.

(** X9.  The statement of the relational adapter is built in a fixed
    order on the table of the builder: one predicate call per condition, in
    insertion order, then the projection when there are fields, then one
    [orderBy] per sort key in key order, then the limit and the offset when
    they are not [null]. *)
Theorem statement_build_order (b : Builder) :
  q_table (KnexAdapter._buildQuery b) = table b
  /\ q_calls (KnexAdapter._buildQuery b) =
       map KnexAdapter.condition_call (conditions b)
       ++ (match fields b with [] => [] | _ :: _ => [K_select (fields b)] end)
       ++ map (fun kv => K_orderBy (VStr (fst kv))
                           (match own_get (fst kv) (sorts b) with
                            | Some d => d
                            | None => VUndefined
                            end)) (sorts b)
       ++ (match limitValue b with VNull => [] | n => [K_limit n] end)
       ++ (match skipValue b with VNull => [] | n => [K_offset n] end).
Proof.
  split; [apply buildQuery_table|].
  rewrite buildQuery_calls. f_equal. f_equal.
  - destruct (fields b); reflexivity.
  - rewrite map_map. f_equal.
    destruct (limitValue b), (skipValue b); reflexivity.
Qed.

(** X10.  Each condition method of the builder reaches the client as one
    call placed after the predicates of the earlier conditions and before
    the projection, ordering and paging calls, with the field and the value
    as given: [whereIn] as [whereIn], [whereNotIn] as [whereNotIn],
    [whereLike] as [where(field, 'like', value)], and a two-argument
    [where] as [where(field, '=', value)]. *)
Theorem condition_methods_reach_the_client
  (f : string) (v : Value) (b : Builder) :
  exists rest,
    q_calls (KnexAdapter._buildQuery b) =
      map KnexAdapter.condition_call (conditions b) ++ rest
    /\ (forall b1, QueryBuilder.whereIn [VStr f; v] b = Return b1 ->
          q_calls (KnexAdapter._buildQuery b1) =
            map KnexAdapter.condition_call (conditions b)
            ++ K_whereIn (VStr f) v :: rest)
    /\ (forall b1, QueryBuilder.whereNotIn [VStr f; v] b = Return b1 ->
          q_calls (KnexAdapter._buildQuery b1) =
            map KnexAdapter.condition_call (conditions b)
            ++ K_whereNotIn (VStr f) v :: rest)
    /\ (forall b1, QueryBuilder.whereLike [VStr f; v] b = Return b1 ->
          q_calls (KnexAdapter._buildQuery b1) =
            map KnexAdapter.condition_call (conditions b)
            ++ K_where (VStr f) (VStr "like") v :: rest)
    /\ (forall b1, QueryBuilder.where_ [VStr f; v] b = Return b1 ->
          q_calls (KnexAdapter._buildQuery b1) =
            map KnexAdapter.condition_call (conditions b)
            ++ K_where (VStr f) (VStr "=") v :: rest).
Proof.
  exists ((if (0 <? length (fields b))%nat then [K_select (fields b)] else [])
          ++ map (KnexAdapter.sort_call (sorts b)) (map fst (sorts b))
          ++ (if is_null (limitValue b) then [] else [K_limit (limitValue b)])
          ++ (if is_null (skipValue b) then [] else [K_offset (skipValue b)])).
  split; [apply buildQuery_calls|].
  repeat split; intros b1 H; injection H as <-;
    rewrite buildQuery_calls;
    cbn [conditions fields sorts limitValue skipValue push_condition];
    rewrite map_app, <- app_assoc; reflexivity.
Qed.

(** X11.  The relational [count] resolves to [parseInt] of the [count]
    property of the first row the client answers with, and rejects with a
    [TypeError] when the client answers with no row. *)
Theorem relational_count_reads_first_row
  (W : World) (knex : string) (b : Builder) (fld result : Value) :
  knex_await W knex
    (chain (KnexAdapter._buildQuery b) (K_count (VObj [("count", fld)])))
    = Resolved result ->
  (forall ps rows, result = VArr (VObj ps :: rows) ->
     KnexAdapter.count W knex b fld =
       Resolved (parseInt10 W (match own_get "count" ps with
                               | Some n => n
                               | None => VUndefined
                               end)))
  /\ (result = VArr [] ->
      exists msg, KnexAdapter.count W knex b fld = Rejected (TypeError msg)).
Proof.
  intros H. unfold KnexAdapter.count. rewrite H. split.
  - intros ps rows ->. reflexivity.
  - intros ->. eexists. reflexivity.
Qed.

(** The statement above on the sample client, which answers
    [[{count: '2'}]]. *)
Lemma relational_count_reads_first_row_witness :
  KnexAdapter.count Sample.online "db"
    (Sample.after Sample.online [call_from [VStr "users"]]
                  (Sample.builder Sample.online "pg"))
    (VStr "*") = Resolved (VNum 2).
Proof.
  destruct (relational_count_reads_first_row Sample.online "db"
              (Sample.after Sample.online [call_from [VStr "users"]]
                            (Sample.builder Sample.online "pg"))
              (VStr "*") (VArr [VObj [("count", VStr "2")]])) as [H _].
  - reflexivity.
  - exact (H [("count", VStr "2")] [] eq_refl).
Defined.

(** X12.  [insert] looks at nothing but the target and the adapter: two
    builders with the same adapter, table and collection insert the same
    way whatever their conditions, projection, ordering, limit and skip. *)
Theorem insert_ignores_query_state
  (W : World) (data : Value) (b b' : Builder) :
  adapter b = adapter b' ->
  table b = table b' ->
  collection b = collection b' ->
  snd (QueryBuilder.insert W [data] b) = snd (QueryBuilder.insert W [data] b').
Proof.
  intros Ha Ht Hc.
  unfold QueryBuilder.insert, QueryBuilder.adapter_insert. cbn [snd].
  rewrite <- Ha. destruct (adapter b).
  - unfold MongoAdapter.insert. rewrite Hc. reflexivity.
  - unfold KnexAdapter.insert. rewrite Ht. reflexivity.
Qed.

(** The statement above: an insert after [where('id', 1).limit(3)] is the
    insert of the bare builder. *)
Lemma insert_ignores_query_state_witness :
  snd (QueryBuilder.insert Sample.online [VObj [("name", VStr "cy")]]
         (Sample.after Sample.online
            [call_from [VStr "users"]; call_where [VStr "id"; VNum 1];
             call_limit [VNum 3]]
            (Sample.builder Sample.online "mongodb"))) =
  snd (QueryBuilder.insert Sample.online [VObj [("name", VStr "cy")]]
         (Sample.after Sample.online [call_from [VStr "users"]]
            (Sample.builder Sample.online "mongodb"))).
Proof.
  apply (insert_ignores_query_state Sample.online (VObj [("name", VStr "cy")])
           (Sample.after Sample.online
              [call_from [VStr "users"]; call_where [VStr "id"; VNum 1];
               call_limit [VNum 3]]
              (Sample.builder Sample.online "mongodb"))
           (Sample.after Sample.online [call_from [VStr "users"]]
              (Sample.builder Sample.online "mongodb")));
    reflexivity.
Defined.

(* ================================================================== *)
(** ** The options of the document adapter, and paging *)
(* ================================================================== *)

Section OptionsFacts.

(** Assigning the properties [x := g x] for the names of a list. *)
Lemma fold_set_get (g : string -> Value) (keys : list string) :
  forall (acc : Props) (k : string),
    k <> "__proto__" ->
    own_get k (fold_left (fun acc x => obj_set x (g x) acc) keys acc) =
    if existsb (String.eqb k) keys then Some (g k) else own_get k acc.
Proof.
  induction keys as [|x rest IH]; intros acc k Hk; simpl; [reflexivity|].
  rewrite IH by exact Hk. destruct (k =? x) eqn:E; simpl.
  - apply String.eqb_eq in E. subst x. rewrite obj_set_get_same by exact Hk.
    destruct (existsb (String.eqb k) rest); reflexivity.
  - apply String.eqb_neq in E. rewrite obj_set_get_other by exact E.
    reflexivity.
Qed.

Lemma projection_of_names (names : list string) :
  forall acc : Props,
    MongoAdapter.projection_from acc (map VStr names) =
    Return (fold_left (fun acc x => obj_set x (VNum 1) acc) names acc).
Proof.
  induction names as [|n ns IH]; intros acc; simpl; [reflexivity|].
  apply IH.
Qed.

Lemma sort_from_get (s : Props) (k : string) :
  k <> "__proto__" ->
  own_get k (MongoAdapter.sort_from s) =
  match own_get k s with
  | Some d => Some (if is_string "asc" d then VNum 1 else VNum (-1))
  | None => None
  end.
Proof.
  intros Hk. unfold MongoAdapter.sort_from.
  rewrite (fold_set_get (MongoAdapter.sort_code s)) by exact Hk.
  destruct (own_get k s) as [d|] eqn:E.
  - assert (Hex : existsb (String.eqb k) (map fst s) = true).
    { destruct (existsb (String.eqb k) (map fst s)) eqn:Hex; [reflexivity|].
      apply own_get_exists in Hex. congruence. }
    rewrite Hex. unfold MongoAdapter.sort_code. cbn [get_own_key].
    rewrite E. reflexivity.
  - apply own_get_exists in E. rewrite E. reflexivity.
Qed.

(** The four entries of the options, when [_buildOptions] returns. *)
Lemma buildOptions_entries (b : Builder) (opts : Props) :
  MongoAdapter._buildOptions b = Return opts ->
  own_get "limit" opts =
    (if is_null (limitValue b) then None else Some (limitValue b))
  /\ own_get "skip" opts =
       (if is_null (skipValue b) then None else Some (skipValue b))
  /\ own_get "sort" opts =
       (match sorts b with
        | [] => None
        | _ :: _ => Some (VObj (MongoAdapter.sort_from (sorts b)))
        end)
  /\ (fields b = [] -> own_get "projection" opts = None)
  /\ (forall p, MongoAdapter.projection_from [] (fields b) = Return p ->
                fields b <> [] -> own_get "projection" opts = Some (VObj p)).
Proof.
  unfold MongoAdapter._buildOptions.
  assert (Hbase : forall base : Props,
             let o1 := if (0 <? length (map fst (sorts b)))%nat
                       then obj_set "sort"
                              (VObj (MongoAdapter.sort_from (sorts b))) base
                       else base in
             let o2 := if negb (is_null (limitValue b))
                       then obj_set "limit" (limitValue b) o1 else o1 in
             let o3 := if negb (is_null (skipValue b))
                       then obj_set "skip" (skipValue b) o2 else o2 in
             own_get "limit" base = None -> own_get "skip" base = None ->
             own_get "sort" base = None ->
             own_get "limit" o3 =
               (if is_null (limitValue b) then None else Some (limitValue b))
             /\ own_get "skip" o3 =
                  (if is_null (skipValue b) then None else Some (skipValue b))
             /\ own_get "sort" o3 =
                  (match sorts b with
                   | [] => None
                   | _ :: _ => Some (VObj (MongoAdapter.sort_from (sorts b)))
                   end)
             /\ own_get "projection" o3 = own_get "projection" base).
  { intros base o1 o2 o3 Hl Hs Hso. subst o1 o2 o3.
    destruct (is_null (skipValue b)), (is_null (limitValue b));
      destruct (sorts b) as [|kv rest]; cbn [negb map length Nat.ltb Nat.leb];
      repeat first
        [ rewrite obj_set_get_same by discriminate
        | rewrite obj_set_get_other by discriminate ];
      repeat split; assumption. }
  destruct (0 <? length (fields b))%nat eqn:Ef.
  - destruct (MongoAdapter.projection_from [] (fields b)) as [p|e] eqn:Hp;
      cbn [Js.bind]; [|discriminate].
    intros H. injection H as <-.
    destruct (Hbase (obj_set "projection" (VObj p) []))
      as (H1 & H2 & H3 & H4); try reflexivity.
    repeat split; try assumption.
    + intros Hnil. rewrite Hnil in Ef. discriminate.
    + intros p' Hp' _. injection Hp' as <-. rewrite H4. reflexivity.
  - cbn [Js.bind]. intros H. injection H as <-.
    destruct (Hbase []) as (H1 & H2 & H3 & H4); try reflexivity.
    repeat split; try assumption.
    + intros _. exact H4.
    + intros p' _ Hne. destruct (fields b); [congruence | discriminate].
Qed.

Lemma not_in_predicates (cs : list Condition) (n : Value) :
  ~ In (K_limit n) (map KnexAdapter.condition_call cs).
Proof.
  intros H. apply in_map_iff in H. destruct H as (c & Hc & _).
  exact (proj1 (condition_call_is_predicate c n) Hc).
Qed.

End OptionsFacts.

(** X13.  The limit is forwarded to the backend exactly when it is not
    [null]: the test is on [null], not on truthiness, so [limit(0)] and a
    [limit()] without argument reach the backend as [0] and [undefined], and
    [limit(null)] removes the limit.  On the relational adapter a non-null
    limit is a [limit] call of the statement, on the document adapter the
    [limit] entry of the options. *)
Theorem limit_is_forwarded_unless_null (n : Value) (b : Builder) :
  (n <> VNull ->
   In (K_limit n) (q_calls (KnexAdapter._buildQuery (set_limitValue n b)))
   /\ forall opts,
        MongoAdapter._buildOptions (set_limitValue n b) = Return opts ->
        own_get "limit" opts = Some n)
  /\ (forall m,
        ~ In (K_limit m)
             (q_calls (KnexAdapter._buildQuery (set_limitValue VNull b))))
  /\ (forall opts,
        MongoAdapter._buildOptions (set_limitValue VNull b) = Return opts ->
        own_get "limit" opts = None).
Proof.
  split; [|split].
  - intros Hn.
    assert (Hnull : is_null n = false) by (destruct n; congruence || reflexivity).
    split.
    + rewrite buildQuery_calls. cbn [limitValue set_limitValue]. rewrite Hnull.
      apply in_or_app; right. apply in_or_app; right. apply in_or_app; right.
      apply in_or_app; left. left. reflexivity.
    + intros opts H.
      destruct (buildOptions_entries _ opts H) as (Hl & _).
      cbn [limitValue set_limitValue] in Hl. rewrite Hnull in Hl. exact Hl.
  - intros m. rewrite buildQuery_calls.
    cbn [limitValue set_limitValue skipValue conditions fields sorts is_null].
    intros H. apply in_app_or in H. destruct H as [H|H].
    { exact (not_in_predicates _ m H). }
    apply in_app_or in H. destruct H as [H|H].
    { destruct (0 <? length (fields b))%nat; [|destruct H].
      destruct H as [H|[]]. discriminate. }
    apply in_app_or in H. destruct H as [H|H].
    { apply in_map_iff in H. destruct H as (k & Hk & _). discriminate. }
    cbn [app] in H. destruct (is_null (skipValue b)); [destruct H|].
    destruct H as [H|[]]. discriminate.
  - intros opts H. destruct (buildOptions_entries _ opts H) as (Hl & _).
    exact Hl.
Qed.

(** The statement above on [limit(0)]. *)
Lemma limit_is_forwarded_unless_null_witness :
  In (K_limit (VNum 0))
     (q_calls (KnexAdapter._buildQuery
                 (set_limitValue (VNum 0) (Sample.builder Sample.online "pg")))).
Proof.
  apply (limit_is_forwarded_unless_null (VNum 0)
           (Sample.builder Sample.online "pg")).
  discriminate.
Defined.

(** X14.  The options of the document adapter: every sort key of the
    builder is a key of [sort], with the code 1 when its direction is
    exactly ['asc'] and -1 for anything else; there is no [sort] entry
    without sort keys and no [projection] entry without fields; and the
    projection of a list of field names maps each of them to 1 (the name
    [__proto__] apart). *)
Theorem document_options_entries
  (b : Builder) (names : list string) (opts : Props) :
  fields b = map VStr names ->
  MongoAdapter._buildOptions b = Return opts ->
  (sorts b = [] -> own_get "sort" opts = None)
  /\ (sorts b <> [] ->
      exists so,
        own_get "sort" opts = Some (VObj so)
        /\ forall k, k <> "__proto__" ->
             own_get k so =
               match own_get k (sorts b) with
               | Some d => Some (if is_string "asc" d then VNum 1 else VNum (-1))
               | None => None
               end)
  /\ (names = [] -> own_get "projection" opts = None)
  /\ (names <> [] ->
      exists p,
        own_get "projection" opts = Some (VObj p)
        /\ forall k, k <> "__proto__" ->
             own_get k p =
               if existsb (String.eqb k) names then Some (VNum 1) else None).
Proof.
  intros Hf H.
  destruct (buildOptions_entries b opts H) as (_ & _ & Hs & Hp0 & Hp1).
  split; [|split; [|split]].
  - intros Hnil. rewrite Hnil in Hs. exact Hs.
  - intros Hne. exists (MongoAdapter.sort_from (sorts b)). split.
    + destruct (sorts b); [congruence | exact Hs].
    + intros k Hk. apply sort_from_get, Hk.
  - intros ->. apply Hp0. exact Hf.
  - intros Hne.
    exists (fold_left (fun acc x => obj_set x (VNum 1) acc) names []). split.
    + apply Hp1.
      * rewrite Hf. apply projection_of_names.
      * rewrite Hf. destruct names; [congruence | discriminate].
    + intros k Hk.
      rewrite (fold_set_get (fun _ => VNum 1)) by exact Hk. reflexivity.
Qed.

(** The statement above after [select('name').orderBy('name', 'DESC')]:
    the sort code of [name] is -1 and its projection flag 1. *)
Lemma document_options_entries_witness :
  exists so p,
    own_get "sort"
      [("projection", VObj [("name", VNum 1)]);
       ("sort", VObj [("name", VNum (-1))])] = Some (VObj so)
    /\ own_get "name" so = Some (VNum (-1))
    /\ own_get "projection"
         [("projection", VObj [("name", VNum 1)]);
          ("sort", VObj [("name", VNum (-1))])] = Some (VObj p)
    /\ own_get "name" p = Some (VNum 1).
Proof.
  destruct (document_options_entries
              (Sample.after Sample.online
                 [call_select [VStr "name"];
                  call_orderBy [VStr "name"; VStr "DESC"]]
                 (Sample.builder Sample.online "mongodb"))
              ["name"]
              [("projection", VObj [("name", VNum 1)]);
               ("sort", VObj [("name", VNum (-1))])])
    as (_ & Hs & _ & Hp).
  - reflexivity.
  - reflexivity.
  - destruct Hs as (so & Hso & Hk); [discriminate|].
    destruct Hp as (p & Hp & Hkp); [discriminate|].
    exists so, p. split; [exact Hso|]. split.
    + rewrite (Hk "name") by discriminate. reflexivity.
    + split; [exact Hp|]. rewrite (Hkp "name") by discriminate. reflexivity.
Defined.

(* ================================================================== *)
(** ** Further properties of the document adapter *)
(* ================================================================== *)

Section FilterMore.

Variable W : World.

Lemma filter_step_inv (f0 f : Props) (c : Condition) :
  MongoAdapter.filter_step W f0 c = Return f ->
  (NoDup (map fst f0) -> NoDup (map fst f))
  /\ (length f <= S (length f0))%nat
  /\ (forall k, In k (map fst f) ->
        In k (map fst f0) \/ ToPropertyKey (field c) = Return k).
Proof.
  unfold MongoAdapter.filter_step.
  destruct (MongoAdapter.clause W c) as [cl|e]; cbn [Js.bind]; [|discriminate].
  destruct (ToPropertyKey (field c)) as [k0|e]; cbn [Js.bind]; [|discriminate].
  intros H. injection H as <-. split; [|split].
  - apply nodup_set.
  - apply length_set.
  - intros k Hk. apply keys_set in Hk. destruct Hk as [->|Hk]; auto.
Qed.

Lemma filter_from_inv (cs : list Condition) :
  forall f0 f : Props,
    MongoAdapter.filter_from W f0 cs = Return f ->
    (NoDup (map fst f0) -> NoDup (map fst f))
    /\ (length f <= length f0 + length cs)%nat
    /\ (forall k, In k (map fst f) ->
          In k (map fst f0)
          \/ exists c, In c cs /\ ToPropertyKey (field c) = Return k).
Proof.
  induction cs as [|c rest IH]; intros f0 f H; simpl in H.
  - injection H as <-. repeat split; auto. simpl. lia.
  - destruct (MongoAdapter.filter_step W f0 c) as [f1|e] eqn:Hstep;
      cbn [Js.bind] in H; [|discriminate].
    destruct (filter_step_inv f0 f1 c Hstep) as (N1 & L1 & K1).
    destruct (IH f1 f H) as (N2 & L2 & K2).
    split; [auto|]. split; [simpl; lia|].
    intros k Hk. destruct (K2 k Hk) as [H1|(c' & Hc' & Hkey)].
    + destruct (K1 k H1) as [H0|Hkey]; [left; exact H0|].
      right. exists c. split; [left; reflexivity | exact Hkey].
    + right. exists c'. split; [right; exact Hc' | exact Hkey].
Qed.

(** Among the tags that are strings, only ['like'] is translated to
    [$regex]. *)
Lemma convertOperator_regex (op : string) :
  MongoAdapter._convertOperator (VStr op) = Return (MongoAdapter.Op "$regex") ->
  op = "like".
Proof.
  unfold MongoAdapter._convertOperator, ToPropertyKey.
  cbn [ToString Js.bind MongoAdapter.lookup MongoAdapter.operatorMap].
  repeat match goal with
         | |- context [if ?k =? op then _ else _] =>
             let E := fresh "E" in
             destruct (k =? op) eqn:E;
             [ try discriminate;
               apply String.eqb_eq in E; intros _; symmetry; exact E | ]
         end.
  destruct (MongoAdapter.Object_prototype op); discriminate.
Qed.

Lemma convertOperator_string_returns (op : string) :
  exists m, MongoAdapter._convertOperator (VStr op) = Return m.
Proof.
  unfold MongoAdapter._convertOperator, ToPropertyKey. cbn [ToString Js.bind].
  destruct (MongoAdapter.lookup op MongoAdapter.operatorMap);
    [eexists; reflexivity|].
  destruct (MongoAdapter.Object_prototype op); eexists; reflexivity.
Qed.

Lemma is_op_true (name : string) (m : MongoAdapter.MongoOperator) :
  MongoAdapter.is_op name m = true -> m = MongoAdapter.Op name.
Proof.
  destruct m as [n|w]; simpl; [|discriminate].
  intros H. apply String.eqb_eq in H. congruence.
Qed.

Lemma clause_of_strings_returns (f op : string) (v : Value) :
  (op = "like" -> forall s, v = VStr s ->
     regexp_accepts W (replace_percent s) = true) ->
  exists cl, MongoAdapter.clause W (mkCondition (VStr f) (VStr op) v) = Return cl.
Proof.
  intros Hlike. unfold MongoAdapter.clause. cbn [operator value].
  destruct (convertOperator_string_returns op) as [m Hm]. rewrite Hm.
  cbn [Js.bind].
  destruct (MongoAdapter.is_op "$regex" m && (typeof v =? "string")) eqn:E;
    [|eexists; reflexivity].
  apply andb_true_iff in E. destruct E as [E _].
  apply is_op_true in E. subst m. apply convertOperator_regex in Hm.
  destruct v; try (eexists; reflexivity).
  unfold MongoAdapter.new_RegExp. rewrite (Hlike Hm s eq_refl).
  eexists. reflexivity.
Qed.

Lemma obj_set_empty (k : string) (v : Value) :
  k <> "__proto__" -> obj_set k v [] = [(k, v)].
Proof.
  intros Hk. unfold obj_set. cbn [has_own own_get].
  apply String.eqb_neq in Hk. rewrite Hk. apply obj_define_empty.
Qed.

End FilterMore.

(** X15.  The conversion of a [like] value replaces every [%] by [.*] and
    nothing else: no [%] is left, a text without [%] is unchanged, and the
    conversion of a concatenation is the concatenation of the conversions. *)
Theorem percent_signs_become_wildcards (s t : string) :
  ~ In "%"%char (list_ascii_of_string (replace_percent s))
  /\ (~ In "%"%char (list_ascii_of_string s) -> replace_percent s = s)
  /\ replace_percent (s ++ t)%string
       = (replace_percent s ++ replace_percent t)%string.
Proof.
  split; [|split].
  - induction s as [|c s IH]; simpl; [intros []|].
    destruct (Ascii.eqb c "%") eqn:E; simpl.
    + intros [H|[H|H]]; [discriminate | discriminate | exact (IH H)].
    + intros [H|H]; [|exact (IH H)].
      subst c. discriminate.
  - induction s as [|c s IH]; simpl; [reflexivity|].
    intros H. destruct (Ascii.eqb c "%") eqn:E.
    + apply Ascii.eqb_eq in E. exfalso. apply H. left. exact E.
    + f_equal. apply IH. intros Hin. apply H. right. exact Hin.
  - induction s as [|c s IH]; simpl; [reflexivity|].
    rewrite IH. destruct (Ascii.eqb c "%"); reflexivity.
Qed.

(** The statement above on ['john'], which has no [%]. *)
Lemma percent_signs_become_wildcards_witness :
  replace_percent "john" = "john".
Proof.
  destruct (percent_signs_become_wildcards "john" "") as (_ & H & _).
  apply H. simpl. intuition discriminate.
Defined.

(** X16.  A [like] condition on a field other than [__proto__] becomes, when
    its value is a string whose conversion [RegExp] accepts, the entry
    [{field: {$regex: /pattern/i}}] with every [%] of the value turned into
    [.*]; a value that is not a string is stored under [$regex] as it
    is. *)
Theorem like_condition_becomes_regex (W : World) (f : string) (v : Value) :
  f <> "__proto__" ->
  (forall s, v = VStr s ->
     regexp_accepts W (replace_percent s) = true ->
     MongoAdapter._buildFilter W [mkCondition (VStr f) (VStr "like") v] =
       Return [(f, VObj [("$regex", VRegExp (replace_percent s) "i")])])
  /\ ((forall s, v <> VStr s) ->
      MongoAdapter._buildFilter W [mkCondition (VStr f) (VStr "like") v] =
        Return [(f, VObj [("$regex", v)])]).
Proof.
  intros Hf. unfold MongoAdapter._buildFilter. cbn [MongoAdapter.filter_from].
  unfold MongoAdapter.filter_step, MongoAdapter.clause.
  cbn [operator value field].
  change (MongoAdapter._convertOperator (VStr "like"))
    with (Return (MongoAdapter.Op "$regex")).
  cbn [Js.bind MongoAdapter.is_op MongoAdapter.operator_key].
  change ("$regex" =? "$regex") with true. cbn [andb].
  unfold ToPropertyKey. cbn [ToString].
  split.
  - intros s -> Hok. cbn [typeof]. change ("string" =? "string") with true.
    unfold MongoAdapter.new_RegExp. rewrite Hok. cbn [Js.bind].
    rewrite obj_set_empty by exact Hf. reflexivity.
  - intros Hns.
    destruct v; try (exfalso; exact (Hns _ eq_refl));
      cbn [typeof Js.bind];
      match goal with
      | |- context [?a =? "string"] =>
          change (a =? "string") with false
      end;
      cbn [Js.bind]; rewrite obj_set_empty by exact Hf; reflexivity.
Qed.

(** The statement above on [whereLike('name', '%john%')]. *)
Lemma like_condition_becomes_regex_witness :
  MongoAdapter._buildFilter Sample.online
    [mkCondition (VStr "name") (VStr "like") (VStr "%john%")] =
  Return [("name", VObj [("$regex", VRegExp ".*john.*" "i")])].
Proof.
  destruct (like_condition_becomes_regex Sample.online "name" (VStr "%john%"))
    as [H _].
  - discriminate.
  - exact (H "%john%" eq_refl eq_refl).
Defined.

(** X17.  The filter has one entry per field name: when [_buildFilter]
    returns, the names of the filter are distinct, each is the name of a
    field of some condition, there are at most as many entries as
    conditions, none is [__proto__], and the entry under a name is the
    clause of the last condition on that field. *)
Theorem filter_has_one_entry_per_field
  (W : World) (cs : list Condition) (f : Props) :
  MongoAdapter._buildFilter W cs = Return f ->
  NoDup (map fst f)
  /\ (length f <= length cs)%nat
  /\ (forall k, In k (map fst f) ->
        exists c, In c cs /\ ToPropertyKey (field c) = Return k)
  /\ own_get "__proto__" f = None
  /\ (forall k, k <> "__proto__" ->
        own_get k f = MongoAdapter.last_clause W k cs).
Proof.
  intros H. pose proof H as H0. unfold MongoAdapter._buildFilter in H0.
  destruct (filter_from_inv W cs [] f H0) as (Hnd & Hlen & Hkeys).
  split; [apply Hnd; constructor|]. split; [exact Hlen|].
  split.
  - intros k Hk. destruct (Hkeys k Hk) as [[]|Hc]. exact Hc.
  - split.
    + apply has_own_false. exact (buildFilter_never_owns_proto W cs f H).
    + intros k Hk. exact (buildFilter_entry W cs f k H Hk).
Qed.

(** The statement above on the conditions [age > 18], [status = 'a'],
    [age < 65]: two entries, the one for [age] being [{$lt: 65}]. *)
Lemma filter_has_one_entry_per_field_witness :
  own_get "age"
    [("age", VObj [("$lt", VNum 65)]); ("status", VObj [("$eq", VStr "a")])]
  = Some (VObj [("$lt", VNum 65)]).
Proof.
  destruct (filter_has_one_entry_per_field Sample.online
              [mkCondition (VStr "age") (VStr ">") (VNum 18);
               mkCondition (VStr "status") (VStr "=") (VStr "a");
               mkCondition (VStr "age") (VStr "<") (VNum 65)]
              [("age", VObj [("$lt", VNum 65)]);
               ("status", VObj [("$eq", VStr "a")])])
    as (_ & _ & _ & _ & H).
  - reflexivity.
  - rewrite (H "age") by discriminate. reflexivity.
Defined.

(** X18.  [_buildFilter] returns a filter for every list of conditions
    whose fields and operator tags are strings, provided [RegExp] accepts
    the conversion of every string compared with ['like']. *)
Theorem filter_is_built_for_string_conditions
  (W : World) (cs : list Condition) :
  Forall (fun c =>
            exists f op,
              field c = VStr f /\ operator c = VStr op
              /\ (op = "like" -> forall s, value c = VStr s ->
                    regexp_accepts W (replace_percent s) = true)) cs ->
  exists filter, MongoAdapter._buildFilter W cs = Return filter.
Proof.
  intros Hall. apply buildFilter_returns.
  apply Forall_impl with (2 := Hall).
  intros [fld op v] (f & o & Hf & Ho & Hlike). cbn [field operator value] in *.
  subst fld op. split.
  - apply clause_of_strings_returns. exact Hlike.
  - exists f. reflexivity.
Qed.

(** The statement above on [status = 'active'] and [name like '%jo%']. *)
Lemma filter_is_built_for_string_conditions_witness :
  exists filter,
    MongoAdapter._buildFilter Sample.online
      [mkCondition (VStr "status") (VStr "=") (VStr "active");
       mkCondition (VStr "name") (VStr "like") (VStr "%jo%")] = Return filter.
Proof.
  apply (filter_is_built_for_string_conditions Sample.online).
  repeat constructor.
  - exists "status", "=". repeat split. discriminate.
  - exists "name", "like". repeat split.
    intros _ s H. injection H as <-. reflexivity.
Defined.

(** X19.  Errors of the document adapter surface as rejections, in the
    order the code meets them: when the collection cannot be obtained, all
    five operations reject with that error, whatever the conditions; when
    it can and the filter cannot be built, [get], [update], [delete] and
    [count] reject with the error of the filter. *)
Theorem document_operations_reject
  (W : World) (b : Builder) (data : Value) :
  (forall e, db_collection W (collection b) = Throw e ->
     MongoAdapter.get W b = Rejected e
     /\ MongoAdapter.insert W b data = Rejected e
     /\ MongoAdapter.update W b data = Rejected e
     /\ MongoAdapter.delete W b = Rejected e
     /\ MongoAdapter.count W b = Rejected e)
  /\ (forall e, db_collection W (collection b) = Return tt ->
        MongoAdapter._buildFilter W (conditions b) = Throw e ->
        MongoAdapter.get W b = Rejected e
        /\ MongoAdapter.update W b data = Rejected e
        /\ MongoAdapter.delete W b = Rejected e
        /\ MongoAdapter.count W b = Rejected e).
Proof.
  split.
  - intros e He.
    unfold MongoAdapter.get, MongoAdapter.insert, MongoAdapter.update,
      MongoAdapter.delete, MongoAdapter.count, MongoAdapter._getCollection.
    rewrite He. repeat split; reflexivity.
  - intros e Hc He.
    unfold MongoAdapter.get, MongoAdapter.update, MongoAdapter.delete,
      MongoAdapter.count, MongoAdapter._getCollection.
    rewrite Hc. cbn [Js.bind]. rewrite He. repeat split; reflexivity.
Qed.

(** The statement above on [whereLike('name', '%(%')], whose pattern has an
    unbalanced parenthesis, and on a builder without target. *)
Lemma document_operations_reject_witness :
  MongoAdapter.count Sample.online
    (Sample.after Sample.online
       [call_from [VStr "users"]; call_whereLike [VStr "name"; VStr "%(%"]]
       (Sample.builder Sample.online "mongodb"))
    = Rejected (SyntaxError "Invalid regular expression: /.*(.*/i")
  /\ MongoAdapter.get Sample.online (Sample.builder Sample.online "mongodb")
     = Rejected (PlainError "collection name must be a String").
Proof.
  split.
  - apply (proj2 (document_operations_reject Sample.online
                    (Sample.after Sample.online
                       [call_from [VStr "users"];
                        call_whereLike [VStr "name"; VStr "%(%"]]
                       (Sample.builder Sample.online "mongodb")) VNull));
      reflexivity.
  - apply (proj1 (document_operations_reject Sample.online
                    (Sample.builder Sample.online "mongodb") VNull)).
    reflexivity.
Defined.

(** X20.  On the document adapter [update], [delete] and [count] look at
    the collection and the conditions only: projection, ordering, limit and
    skip have no effect on them, so that a [limit(1)] before [delete()]
    does not restrict what is deleted. *)
Theorem document_writes_ignore_paging
  (W : World) (data : Value) (b b' : Builder) :
  adapter b = MongoAdapter -> adapter b' = MongoAdapter ->
  collection b = collection b' ->
  conditions b = conditions b' ->
  snd (QueryBuilder.update W [data] b) = snd (QueryBuilder.update W [data] b')
  /\ snd (QueryBuilder.delete W b) = snd (QueryBuilder.delete W b')
  /\ (forall f f',
        snd (QueryBuilder.count W [f] b) = snd (QueryBuilder.count W [f'] b')).
Proof.
  intros Ha Ha' Hc Hcs.
  unfold QueryBuilder.update, QueryBuilder.delete, QueryBuilder.count,
    QueryBuilder.adapter_update, QueryBuilder.adapter_delete,
    QueryBuilder.adapter_count.
  cbn [snd]. rewrite Ha, Ha'.
  unfold MongoAdapter.update, MongoAdapter.delete, MongoAdapter.count.
  rewrite Hc, Hcs. repeat split; reflexivity.
Qed.

(** The statement above: [delete()] after [where('role','user').limit(1)]
    is [delete()] after [where('role','user')]. *)
Lemma document_writes_ignore_paging_witness :
  snd (QueryBuilder.delete Sample.online
         (Sample.after Sample.online
            [call_from [VStr "users"]; call_where [VStr "role"; VStr "user"];
             call_limit [VNum 1]]
            (Sample.builder Sample.online "mongodb"))) =
  snd (QueryBuilder.delete Sample.online
         (Sample.after Sample.online
            [call_from [VStr "users"]; call_where [VStr "role"; VStr "user"]]
            (Sample.builder Sample.online "mongodb"))).
Proof.
  apply (document_writes_ignore_paging Sample.online VNull
           (Sample.after Sample.online
              [call_from [VStr "users"]; call_where [VStr "role"; VStr "user"];
               call_limit [VNum 1]]
              (Sample.builder Sample.online "mongodb"))
           (Sample.after Sample.online
              [call_from [VStr "users"]; call_where [VStr "role"; VStr "user"]]
              (Sample.builder Sample.online "mongodb")));
    reflexivity.
Defined.

(** X21.  What the document adapter's [insert] resolves to when the driver
    does not echo the documents (no [ops] in its result): for an array, the
    array it was given; for a single plain object, a copy of its properties
    with [_id] set to the [insertedId] of the result, replacing an [_id]
    the object may have had.  When the driver does echo them, an array
    insert resolves to the echoed [ops]. *)
Theorem document_insert_result
  (W : World) (b : Builder) (data : Value) (r : Props) :
  db_collection W (collection b) = Return tt ->
  (forall docs, data = VArr docs ->
     insertMany W (collection b) data = Resolved (VObj r) ->
     (own_get "ops" r = None -> MongoAdapter.insert W b data = Resolved data)
     /\ (forall ops, own_get "ops" r = Some ops -> truthy ops = true ->
           MongoAdapter.insert W b data = Resolved ops))
  /\ (forall ps id, data = VObj ps ->
        insertOne W (collection b) data = Resolved (VObj r) ->
        own_get "ops" r = None ->
        own_get "insertedId" r = Some id ->
        exists doc,
          MongoAdapter.insert W b data = Resolved (VObj doc)
          /\ own_get "_id" doc = Some id
          /\ forall k, k <> "_id" -> own_get k doc = own_get k ps).
Proof.
  intros Hc. split.
  - intros docs -> Hres.
    unfold MongoAdapter.insert, MongoAdapter._getCollection.
    rewrite Hc. cbn [Js.bind MongoAdapter.start MongoAdapter.isArray].
    rewrite Hres. cbn [and_then get_field]. split.
    + intros Hops. rewrite Hops. reflexivity.
    + intros ops Hops Ht. rewrite Hops. cbn [Js.bind settle].
      unfold or_else. rewrite Ht. reflexivity.
  - intros ps id -> Hres Hops Hid.
    unfold MongoAdapter.insert, MongoAdapter._getCollection.
    rewrite Hc. cbn [Js.bind MongoAdapter.start MongoAdapter.isArray].
    rewrite Hres. cbn [and_then get_field]. rewrite Hops, Hid.
    cbn [Js.bind is_null is_undefined orb truthy settle].
    eexists. split; [reflexivity|]. split.
    + apply obj_define_get_same.
    + intros k Hk. rewrite obj_define_get_other by exact Hk.
      change (MongoAdapter.spread (VObj ps))
        with (Plugin.spread_into [] (VObj ps)).
      rewrite spread_into_get. destruct (own_get k ps); reflexivity.
Qed.

(** The statement above on [insert({name: 'cy'})] in the sample store,
    whose [insertOne] answers [{insertedId: 7}]. *)
Lemma document_insert_result_witness :
  exists doc,
    MongoAdapter.insert Sample.online
      (Sample.after Sample.online [call_from [VStr "users"]]
                    (Sample.builder Sample.online "mongodb"))
      (VObj [("name", VStr "cy")]) = Resolved (VObj doc)
    /\ own_get "_id" doc = Some (VNum 7)
    /\ own_get "name" doc = Some (VStr "cy").
Proof.
  destruct (document_insert_result Sample.online
              (Sample.after Sample.online [call_from [VStr "users"]]
                            (Sample.builder Sample.online "mongodb"))
              (VObj [("name", VStr "cy")])
              [("insertedId", VNum 7)]) as [_ H].
  - reflexivity.
  - destruct (H [("name", VStr "cy")] (VNum 7)) as (doc & H1 & H2 & H3);
      try reflexivity.
    exists doc. split; [exact H1|]. split; [exact H2|].
    rewrite (H3 "name") by discriminate. reflexivity.
Defined.

(** X22.  The document adapter's [update] and [delete] resolve to the
    [modifiedCount], respectively the [deletedCount], of the driver's
    result, and to 0 when that property is missing or falsy; they reject
    with a [TypeError] when the driver resolves with [null]. *)
Theorem document_counts_default_to_zero
  (W : World) (b : Builder) (data : Value) (filter : Props) :
  db_collection W (collection b) = Return tt ->
  MongoAdapter._buildFilter W (conditions b) = Return filter ->
  (forall r,
     updateMany W (collection b) filter [("$set", data)] = Resolved (VObj r) ->
     MongoAdapter.update W b data =
       Resolved (match own_get "modifiedCount" r with
                 | Some n => if truthy n then n else VNum 0
                 | None => VNum 0
                 end))
  /\ (forall r,
        deleteMany W (collection b) filter = Resolved (VObj r) ->
        MongoAdapter.delete W b =
          Resolved (match own_get "deletedCount" r with
                    | Some n => if truthy n then n else VNum 0
                    | None => VNum 0
                    end))
  /\ (updateMany W (collection b) filter [("$set", data)] = Resolved VNull ->
      exists msg, MongoAdapter.update W b data = Rejected (TypeError msg))
  /\ (deleteMany W (collection b) filter = Resolved VNull ->
      exists msg, MongoAdapter.delete W b = Rejected (TypeError msg)).
Proof.
  intros Hc Hf.
  unfold MongoAdapter.update, MongoAdapter.delete, MongoAdapter._getCollection.
  rewrite Hc. cbn [Js.bind]. rewrite Hf. cbn [Js.bind MongoAdapter.start].
  repeat split.
  - intros r Hr. rewrite Hr. cbn [and_then get_field Js.bind].
    destruct (own_get "modifiedCount" r); reflexivity.
  - intros r Hr. rewrite Hr. cbn [and_then get_field Js.bind].
    destruct (own_get "deletedCount" r); reflexivity.
  - intros Hr. rewrite Hr. eexists. reflexivity.
  - intros Hr. rewrite Hr. eexists. reflexivity.
Qed.

(** The statement above on the sample store: an update that matches both
    users resolves to 2. *)
Lemma document_counts_default_to_zero_witness :
  MongoAdapter.update Sample.online
    (Sample.after Sample.online [call_from [VStr "users"]]
                  (Sample.builder Sample.online "mongodb"))
    (VObj [("role", VStr "user")]) = Resolved (VNum 2).
Proof.
  destruct (document_counts_default_to_zero Sample.online
              (Sample.after Sample.online [call_from [VStr "users"]]
                            (Sample.builder Sample.online "mongodb"))
              (VObj [("role", VStr "user")]) []) as (H & _).
  - reflexivity.
  - reflexivity.
  - exact (H [("modifiedCount", VNum 2)] eq_refl).
Defined.

(* ================================================================== *)
(** ** The factories of the plugin *)
(* ================================================================== *)

Section PluginFacts.

Variable W : World.

(** The options the factory hands to the constructor, and the tag the
    constructor reads in them. *)
Lemma queryBuilder_requested (options : Value) (qps : Props) :
  exists merged,
    Plugin.queryBuilder W options (VObj qps) = QueryBuilder.new W (VObj merged)
    /\ get_field (VObj merged) "dbEngine" =
         Return (match own_get "dbEngine" qps with
                 | Some v => v
                 | None => Plugin.default_engine W options
                 end).
Proof.
  exists (Plugin.spread_into
            (Plugin.spread_into [] (VObj (Plugin.defaultOptions W options)))
            (VObj qps)).
  split; [reflexivity|].
  cbn [get_field]. rewrite !spread_into_get. unfold Plugin.default_engine.
  destruct (own_get "dbEngine" qps); [reflexivity|].
  destruct (own_get "dbEngine" (Plugin.defaultOptions W options)); reflexivity.
Qed.

Lemma new_engine (opts requested : Value) (b : Builder) :
  QueryBuilder.new W opts = Return b ->
  get_field (if is_undefined opts then VObj [] else opts) "dbEngine"
    = Return requested ->
  dbEngine b = QueryBuilder.effective_engine W requested
  /\ table b = VNull /\ collection b = VNull /\ conditions b = []
  /\ fields b = [] /\ sorts b = [] /\ limitValue b = VNull
  /\ skipValue b = VNull.
Proof.
  intros Hnew Hreq. destruct (new_returns W opts b Hnew) as (r & Hr & Hb & _).
  rewrite Hreq in Hr. injection Hr as <-. rewrite Hb.
  repeat split; reflexivity.
Qed.

Lemma queryBuilder_engine (options : Value) (qps : Props) (b : Builder) :
  Plugin.queryBuilder W options (VObj qps) = Return b ->
  dbEngine b =
    QueryBuilder.effective_engine W
      (match own_get "dbEngine" qps with
       | Some v => v
       | None => Plugin.default_engine W options
       end).
Proof.
  destruct (queryBuilder_requested options qps) as (merged & -> & Hreq).
  intros Hnew. exact (proj1 (new_engine (VObj merged) _ b Hnew Hreq)).
Qed.

End PluginFacts.

(** X23.  [fastify.db.sql] and [fastify.db.mongo] fix the engine whatever
    the plugin was registered with and whatever [DB_ENGINE] says: with the
    relational client registered, [db.sql(t)] is a fresh builder on the
    relational adapter with the tag ['pg'] and the target [t]; with
    [fastify.mongoose] registered, [db.mongo(c)] is a fresh builder on the
    document adapter with the target [c]. *)
Theorem db_helpers_fix_the_engine (W : World) (options target : Value) :
  (fastify_knex W (decorator W) = true ->
   exists b,
     Plugin.sql W options target = Return b
     /\ adapter b = KnexAdapter (VStr "pg") (decorator W)
     /\ dbEngine b = VStr "pg"
     /\ table b = target /\ collection b = target /\ conditions b = [])
  /\ (fastify_mongoose W = true ->
      exists b,
        Plugin.mongo W options target = Return b
        /\ adapter b = MongoAdapter
        /\ dbEngine b = VStr "mongodb"
        /\ table b = target /\ collection b = target /\ conditions b = []).
Proof.
  split.
  - intros Hk. unfold Plugin.sql, Plugin.getQueryBuilder.
    cbn [is_undefined or_else truthy String.eqb negb].
    destruct (queryBuilder_requested W options [("dbEngine", VStr "pg")])
      as (merged & -> & Hreq).
    cbn [own_get String.eqb Ascii.eqb Bool.eqb] in Hreq.
    rewrite (new_relational W (VObj merged) (VStr "pg") Hreq).
    + eexists. split; [reflexivity|]. repeat split.
    + split; discriminate.
    + exact Hk.
  - intros Hm. unfold Plugin.mongo, Plugin.getQueryBuilder.
    cbn [is_undefined or_else truthy String.eqb negb].
    destruct (queryBuilder_requested W options [("dbEngine", VStr "mongodb")])
      as (merged & -> & Hreq).
    cbn [own_get String.eqb Ascii.eqb Bool.eqb] in Hreq.
    destruct (new_document W (VObj merged) (VStr "mongodb") Hreq)
      as (b & Hb & Ha); [left; reflexivity | exact Hm |].
    rewrite Hb. cbn [Js.bind]. eexists. split; [reflexivity|].
    destruct (new_engine W (VObj merged) (VStr "mongodb") b Hb Hreq)
      as (He & _ & _ & Hcs & _).
    cbn [adapter dbEngine table collection conditions set_target arg nth].
    repeat split; assumption.
Qed.

(** The statement above for a plugin registered with [{dbEngine:
    'mongodb'}]: [db.sql('users')] is relational all the same. *)
Lemma db_helpers_fix_the_engine_witness :
  exists b,
    Plugin.sql Sample.online (VObj [("dbEngine", VStr "mongodb")]) (VStr "users")
      = Return b
    /\ adapter b = KnexAdapter (VStr "pg") "db".
Proof.
  destruct (db_helpers_fix_the_engine Sample.online
              (VObj [("dbEngine", VStr "mongodb")]) (VStr "users")) as [H _].
  destruct H as (b & H1 & H2 & _); [reflexivity|].
  exists b. split; [exact H1 | exact H2].
Defined.

(** X24.  The engine of a builder made by [fastify.getQueryBuilder]: the
    argument when it is truthy, else the [dbEngine] of the options the
    plugin was registered with ([DB_ENGINE], else ['pg'], when they have
    none), and, when that too is falsy, [DB_ENGINE], else ['pg'].  The
    builder is fresh. *)
Theorem getQueryBuilder_engine
  (W : World) (options engine : Value) (b : Builder) :
  Plugin.getQueryBuilder W options engine = Return b ->
  dbEngine b =
    QueryBuilder.effective_engine W
      (if truthy engine then engine else Plugin.default_engine W options)
  /\ (truthy engine = true -> dbEngine b = engine)
  /\ (forall ps, options = VObj ps ->
        Plugin.default_engine W options =
          match own_get "dbEngine" ps with
          | Some v => v
          | None => or_else (env_value (env_DB_ENGINE W)) (VStr "pg")
          end)
  /\ conditions b = [] /\ table b = VNull.
Proof.
  unfold Plugin.getQueryBuilder. intros H.
  assert (Hor : or_else (if is_undefined engine then VNull else engine)
                        (Plugin.default_engine W options) =
                if truthy engine then engine
                else Plugin.default_engine W options)
    by (destruct engine; reflexivity).
  rewrite Hor in H.
  pose proof (queryBuilder_engine W options _ b H) as He.
  cbn [own_get String.eqb Ascii.eqb Bool.eqb] in He.
  split; [exact He|]. split; [|split].
  - intros Ht. rewrite He, Ht.
    unfold QueryBuilder.effective_engine, or_else. rewrite Ht, Ht. reflexivity.
  - intros ps ->. unfold Plugin.default_engine, Plugin.defaultOptions.
    cbn [is_undefined]. rewrite spread_into_get.
    destruct (own_get "dbEngine" ps); reflexivity.
  - destruct (queryBuilder_requested W options
                [("dbEngine",
                  if truthy engine then engine
                  else Plugin.default_engine W options)])
      as (merged & Hq & Hreq).
    rewrite Hq in H.
    destruct (new_engine W (VObj merged) _ b H Hreq)
      as (_ & Ht & _ & Hcs & _).
    split; assumption.
Qed.

(** The statement above for a plugin registered with [{dbEngine:
    'mongodb'}] and a call [getQueryBuilder('mysql')]. *)
Lemma getQueryBuilder_engine_witness :
  Plugin.getQueryBuilder Sample.online
    (VObj [("dbEngine", VStr "mongodb")]) (VStr "mysql") =
    Return (mkBuilder
              (VObj [("decoratorName", VStr "queryBuilder");
                     ("dbEngine", VStr "mysql")])
              VNull VNull [] [] [] VNull VNull
              (KnexAdapter (VStr "mysql") "db") (VStr "mysql"))
  /\ dbEngine
       (mkBuilder
          (VObj [("decoratorName", VStr "queryBuilder");
                 ("dbEngine", VStr "mysql")])
          VNull VNull [] [] [] VNull VNull
          (KnexAdapter (VStr "mysql") "db") (VStr "mysql")) = VStr "mysql".
Proof.
  assert (Hrun : Plugin.getQueryBuilder Sample.online
                   (VObj [("dbEngine", VStr "mongodb")]) (VStr "mysql") =
                 Return (mkBuilder
                           (VObj [("decoratorName", VStr "queryBuilder");
                                  ("dbEngine", VStr "mysql")])
                           VNull VNull [] [] [] VNull VNull
                           (KnexAdapter (VStr "mysql") "db") (VStr "mysql")))
    by (vm_compute; reflexivity).
  split; [exact Hrun|].
  destruct (getQueryBuilder_engine Sample.online _ _ _ Hrun) as (_ & H & _).
  apply H. reflexivity.
Defined.

(** X25.  The engine of a builder made by the registered factory
    [fastify.queryBuilder(queryOptions)]: a [dbEngine] property the
    per-call options own wins over the one the plugin was registered with,
    even when it is falsy, in which case the constructor falls back to
    [DB_ENGINE], else ['pg'], and not to the plugin's setting; without such
    a property the plugin's setting is used. *)
Theorem per_call_engine_overrides_default
  (W : World) (options : Value) (qps : Props) (b : Builder) :
  Plugin.queryBuilder W options (VObj qps) = Return b ->
  (forall v, own_get "dbEngine" qps = Some v ->
     dbEngine b = QueryBuilder.effective_engine W v)
  /\ (forall v, own_get "dbEngine" qps = Some v -> truthy v = false ->
        dbEngine b = or_else (env_value (env_DB_ENGINE W)) (VStr "pg"))
  /\ (own_get "dbEngine" qps = None ->
      dbEngine b =
        QueryBuilder.effective_engine W (Plugin.default_engine W options)).
Proof.
  intros H. pose proof (queryBuilder_engine W options qps b H) as He.
  split; [|split].
  - intros v Hv. rewrite Hv in He. exact He.
  - intros v Hv Hf. rewrite Hv in He. rewrite He.
    unfold QueryBuilder.effective_engine, or_else at 2. rewrite Hf.
    reflexivity.
  - intros Hn. rewrite Hn in He. exact He.
Qed.

(** The statement above for a plugin registered with [{dbEngine:
    'mongodb'}] and the call [queryBuilder({dbEngine: ''})]: the builder is
    a ['pg'] builder. *)
Lemma per_call_engine_overrides_default_witness :
  Plugin.queryBuilder Sample.online (VObj [("dbEngine", VStr "mongodb")])
    (VObj [("dbEngine", VStr "")]) =
    Return (mkBuilder
              (VObj [("decoratorName", VStr "queryBuilder");
                     ("dbEngine", VStr "")])
              VNull VNull [] [] [] VNull VNull
              (KnexAdapter (VStr "pg") "db") (VStr "pg"))
  /\ dbEngine
       (mkBuilder
          (VObj [("decoratorName", VStr "queryBuilder"); ("dbEngine", VStr "")])
          VNull VNull [] [] [] VNull VNull
          (KnexAdapter (VStr "pg") "db") (VStr "pg")) = VStr "pg".
Proof.
  assert (Hrun : Plugin.queryBuilder Sample.online
                   (VObj [("dbEngine", VStr "mongodb")])
                   (VObj [("dbEngine", VStr "")]) =
                 Return (mkBuilder
                           (VObj [("decoratorName", VStr "queryBuilder");
                                  ("dbEngine", VStr "")])
                           VNull VNull [] [] [] VNull VNull
                           (KnexAdapter (VStr "pg") "db") (VStr "pg")))
    by (vm_compute; reflexivity).
  split; [exact Hrun|].
  destruct (per_call_engine_overrides_default Sample.online _ _ _ Hrun)
    as (_ & H & _).
  exact (H (VStr "") eq_refl eq_refl).
Defined.

(** X26.  A tag that is a string and names neither an entry of the
    operator table nor a property of [Object.prototype] is translated to
    [$eq] by the document adapter: on a field other than [__proto__] the
    condition becomes [{field: {$eq: value}}], the value untouched. *)
Theorem unknown_tags_fall_back_to_eq
  (W : World) (f op : string) (v : Value) :
  MongoAdapter.lookup op MongoAdapter.operatorMap = None ->
  MongoAdapter.Object_prototype op = None ->
  f <> "__proto__" ->
  MongoAdapter._buildFilter W [mkCondition (VStr f) (VStr op) v] =
    Return [(f, VObj [("$eq", v)])].
Proof.
  intros H1 H2 Hf. unfold MongoAdapter._buildFilter.
  cbn [MongoAdapter.filter_from]. unfold MongoAdapter.filter_step.
  rewrite (clause_fallback W op (VStr f) v H1 H2).
  cbn [Js.bind field]. unfold ToPropertyKey. cbn [ToString Js.bind].
  rewrite obj_set_empty by exact Hf. reflexivity.
Qed.

(** The statement above on the tag ['ilike']. *)
Lemma unknown_tags_fall_back_to_eq_witness :
  MongoAdapter._buildFilter Sample.online
    [mkCondition (VStr "name") (VStr "ilike") (VStr "jo%")] =
  Return [("name", VObj [("$eq", VStr "jo%")])].
Proof.
  apply (unknown_tags_fall_back_to_eq Sample.online "name" "ilike"
           (VStr "jo%")).
  - reflexivity.
  - reflexivity.
  - discriminate.
Defined.

(** X27.  A membership test keeps the list it was given, empty or not, on
    both adapters: after [whereIn(field, values)] on a field other than
    [__proto__], the filter of the document adapter, when the earlier
    conditions give one, has the entry [{field: {$in: values}}], and the
    statement of the relational adapter has the call
    [whereIn(field, values)]. *)
Theorem membership_test_is_kept
  (W : World) (f : string) (values : Value) (b b1 : Builder) (filter0 : Props) :
  f <> "__proto__" ->
  MongoAdapter._buildFilter W (conditions b) = Return filter0 ->
  QueryBuilder.whereIn [VStr f; values] b = Return b1 ->
  (exists filter,
      MongoAdapter._buildFilter W (conditions b1) = Return filter
      /\ own_get f filter = Some (VObj [("$in", values)])
      /\ forall k, k <> f -> own_get k filter = own_get k filter0)
  /\ In (K_whereIn (VStr f) values) (q_calls (KnexAdapter._buildQuery b1)).
Proof.
  intros Hf H0 Hb. injection Hb as <-. split.
  - cbn [conditions push_condition arg nth].
    unfold MongoAdapter._buildFilter in *.
    rewrite filter_from_snoc, H0. cbn [Js.bind].
    assert (Hcl : MongoAdapter.clause W
                    (mkCondition (VStr f) (VStr "in") values)
                  = Return (VObj [("$in", values)])) by reflexivity.
    unfold MongoAdapter.filter_step. rewrite Hcl.
    cbn [Js.bind field]. unfold ToPropertyKey. cbn [ToString Js.bind].
    eexists. split; [reflexivity|]. split.
    + apply obj_set_get_same, Hf.
    + intros k Hk. apply obj_set_get_other, Hk.
  - apply membership_call_is_made.
Qed.

(** The statement above on [whereIn('role', [])] after
    [where('name', 'ann')]. *)
Lemma membership_test_is_kept_witness :
  In (K_whereIn (VStr "role") (VArr []))
     (q_calls (KnexAdapter._buildQuery
                 (push_condition
                    (mkCondition (VStr "role") (VStr "in") (VArr []))
                    (Sample.after Sample.online
                       [call_where [VStr "name"; VStr "ann"]]
                       (Sample.builder Sample.online "pg"))))).
Proof.
  apply (membership_test_is_kept Sample.online "role" (VArr [])
           (Sample.after Sample.online
              [call_where [VStr "name"; VStr "ann"]]
              (Sample.builder Sample.online "pg"))
           (push_condition
              (mkCondition (VStr "role") (VStr "in") (VArr []))
              (Sample.after Sample.online
                 [call_where [VStr "name"; VStr "ann"]]
                 (Sample.builder Sample.online "pg")))
           [("name", VObj [("$eq", VStr "ann")])]).
  - discriminate.
  - reflexivity.
  - reflexivity.
Defined.

(** The statement of X10 on [whereLike('name', '%jo%')] after
    [where('role', 'admin').limit(5)]. *)
Lemma condition_methods_reach_the_client_witness :
  q_calls (KnexAdapter._buildQuery
             (push_condition
                (mkCondition (VStr "name") (VStr "like") (VStr "%jo%"))
                (Sample.after Sample.online
                   [call_where [VStr "role"; VStr "admin"]; call_limit [VNum 5]]
                   (Sample.builder Sample.online "pg")))) =
  [K_where (VStr "role") (VStr "=") (VStr "admin");
   K_where (VStr "name") (VStr "like") (VStr "%jo%");
   K_limit (VNum 5)].
Proof.
  destruct (condition_methods_reach_the_client "name" (VStr "%jo%")
              (Sample.after Sample.online
                 [call_where [VStr "role"; VStr "admin"]; call_limit [VNum 5]]
                 (Sample.builder Sample.online "pg")))
    as (rest & Hrest & _ & _ & Hlike & _).
  refine (eq_trans (Hlike _ eq_refl) _).
  vm_compute in Hrest. injection Hrest as <-. reflexivity.
Defined.
